(** * Aseprite previewer: the file reader and the canvas renderer

    A shallow embedding of [AseReader] (src/public/ase-reader.js) and of the
    compositing part of [AseCanvasRenderer] (src/electron/preload.js), and
    the properties of the two that the specification states.

    Conventions.
    - JavaScript integers are [Z]; bytes are [Byte.byte]; a [Uint8Array] is a
      [list byte]; a JavaScript string is the list of its UTF-16 code units.
    - [arr[i]] on an array is [arr !!! i] below ([js_index]): [None] stands
      for [undefined].
    - An exception is an explicit [Throw]; the reader is a state-and-error
      monad over the [AseReader] object.
    - The only unbounded loop of the program, the [while] of [getCelData],
      takes fuel; [None] means that the loop has not left after that many
      iterations.
    - The 2D canvas is observed as a display list: what has been drawn since
      the last [clearRect], and under which container fit. The fit itself is
      floating point arithmetic and is kept symbolic. *)

From Stdlib Require Import ZArith Strings.Byte List Lia.
From stdpp Require Import base list gmap strings.

Local Open Scope Z_scope.

(** ** JavaScript values and completions *)

Inductive js_error := TypeError | RangeError.

Inductive completion (A : Type) :=
  | Normal (a : A)
  | Throw (e : js_error).
Arguments Normal {A} a.
Arguments Throw {A} e.

Definition js_string := list Z.

(** A string literal of the source, as code units. *)
Definition lit (s : string) : js_string :=
  map (fun a => Z.of_nat (Ascii.nat_of_ascii a))
      (String.list_ascii_of_string s).

(** [arr[i]] for an integer [i]: [undefined] below 0 and from [length] on. *)
Definition js_index {A} (arr : list A) (i : Z) : option A :=
  if i <? 0 then None else arr !! Z.to_nat i.
Infix "!!!" := js_index (at level 20).

Definition byteZ (b : byte) : Z := Z.of_N (Byte.to_N b).

Definition zero_byte : byte := x00.

(** ** The document model, as [AseReader] builds it *)

Module Color.
Record t := mk
  { red : byte; green : byte; blue : byte; alpha : byte; name : js_string }.
End Color.

Module Palette.
Record t := mk
  { paletteSize : Z; firstColor : Z; lastColor : Z; colors : list Color.t }.
End Palette.

(** [layer.flags] is a number when [AseReader] parsed the file and an object
    with a [visible] property when ase-parser did; [isLayerVisible] tells the
    two apart with [typeof]. [FlagsObject v] holds [Some b] when
    [flags.visible] is the boolean [b], [None] when it is anything else. *)
Inductive js_flags :=
  | FlagsNumber (n : Z)
  | FlagsObject (visible : option bool)
  | FlagsOther.

Module Layer.
Record t := mk
  { flags : js_flags; type : Z; layerChildLevel : Z; blendMode : Z;
    opacity : byte; name : js_string }.
End Layer.

(** The keys that [readCelChunk] spreads into a cel: [w], [h] and
    [rawCelData] (which is [undefined] for a cel type other than 0 and 2), or
    [linkedFrame] alone. *)
Inductive pixelD :=
  | PixelData (w h : Z) (rawCelData : option (list byte))
  | LinkedFrame (linkedFrame : Z).

Module Cel.
Record t := mk
  { layerIndex : Z; xpos : Z; ypos : Z; opacity : byte; celType : Z;
    pixels : pixelD }.

Definition w (c : t) : option Z :=
  match pixels c with PixelData w _ _ => Some w | LinkedFrame _ => None end.
Definition h (c : t) : option Z :=
  match pixels c with PixelData _ h _ => Some h | LinkedFrame _ => None end.
Definition rawCelData (c : t) : option (list byte) :=
  match pixels c with PixelData _ _ d => d | LinkedFrame _ => None end.
Definition linkedFrame (c : t) : option Z :=
  match pixels c with PixelData _ _ _ => None | LinkedFrame f => Some f end.
End Cel.

Module Frame.
Record t := mk
  { bytesInFrame : Z; frameDuration : Z; numChunks : Z; cels : list Cel.t }.
End Frame.

Module Tag.
(** [color] keeps the three bytes read; the source turns them into a
    string with [toString]. *)
Record t := mk
  { from : Z; to : Z; animDirection : option js_string;
    color : list byte; name : js_string }.
End Tag.

Module ColorProfile.
(** [fGamma] is the bit pattern of the 32-bit float, not its value. *)
Record t := mk { type : Z; flag : Z; fGamma : Z }.
End ColorProfile.

(** ** DataView *)

(** The getters of [DataView], little endian. A read that does not lie
    within the buffer throws a [RangeError]. *)
Module DataView.

Definition getUint8 (dv : list byte) (offset : Z) : completion byte :=
  match dv !!! offset with
  | Some b => Normal b
  | None => Throw RangeError
  end.

Definition getUint16 (dv : list byte) (offset : Z) : completion Z :=
  match dv !!! offset, dv !!! (offset + 1) with
  | Some b0, Some b1 => Normal (byteZ b0 + 256 * byteZ b1)
  | _, _ => Throw RangeError
  end.

Definition getInt16 (dv : list byte) (offset : Z) : completion Z :=
  match getUint16 dv offset with
  | Normal v => Normal (if v <? 32768 then v else v - 65536)
  | Throw e => Throw e
  end.

Definition getUint32 (dv : list byte) (offset : Z) : completion Z :=
  match dv !!! offset, dv !!! (offset + 1),
        dv !!! (offset + 2), dv !!! (offset + 3) with
  | Some b0, Some b1, Some b2, Some b3 =>
      Normal (byteZ b0 + 256 * byteZ b1 + 65536 * byteZ b2
              + 16777216 * byteZ b3)
  | _, _, _, _ => Throw RangeError
  end.

(** [getFloat32] reads the same four bytes; the embedding keeps their bit
    pattern, the value is not used by the program. *)
Definition getFloat32 (dv : list byte) (offset : Z) : completion Z :=
  getUint32 dv offset.

End DataView.

(** ** AseReader *)

Module AseReader.

Record t := mk
  { _offset : Z;
    _dv : list byte;
    name : string;
    frames : list Frame.t;
    layers : list Layer.t;
    tags : list Tag.t;
    fileSize : Z;
    numFrames : Z;
    width : Z;
    height : Z;
    colorDepth : Z;
    numColors : Z;
    pixelRatio : Z * Z;
    palette : option Palette.t;
    colorProfile : option ColorProfile.t }.

(** [new AseReader(arrayBuffer, name)]. [pixelRatio] is the pair that the
    source prints as [pixW:pixH]; it starts as the empty string, here
    [(0, 0)]. *)
Definition new (arrayBuffer : list byte) (name : string) : t :=
  {| _offset := 0; _dv := arrayBuffer; name := name;
     frames := []; layers := []; tags := [];
     fileSize := 0; numFrames := 0; width := 0; height := 0;
     colorDepth := 0; numColors := 0; pixelRatio := (0, 0);
     palette := None; colorProfile := None |}.

Definition with_offset (o : Z) (r : t) : t :=
  {| _offset := o; _dv := _dv r; name := name r;
     frames := frames r; layers := layers r; tags := tags r;
     fileSize := fileSize r; numFrames := numFrames r; width := width r;
     height := height r; colorDepth := colorDepth r;
     numColors := numColors r; pixelRatio := pixelRatio r;
     palette := palette r; colorProfile := colorProfile r |}.

Definition with_header (fs nf w h cd nc : Z) (pr : Z * Z) (r : t) : t :=
  {| _offset := _offset r; _dv := _dv r; name := name r;
     frames := frames r; layers := layers r; tags := tags r;
     fileSize := fs; numFrames := nf; width := w;
     height := h; colorDepth := cd;
     numColors := nc; pixelRatio := pr;
     palette := palette r; colorProfile := colorProfile r |}.

Definition with_frames (fr : list Frame.t) (r : t) : t :=
  {| _offset := _offset r; _dv := _dv r; name := name r;
     frames := fr; layers := layers r; tags := tags r;
     fileSize := fileSize r; numFrames := numFrames r; width := width r;
     height := height r; colorDepth := colorDepth r;
     numColors := numColors r; pixelRatio := pixelRatio r;
     palette := palette r; colorProfile := colorProfile r |}.

Definition with_layers (ls : list Layer.t) (r : t) : t :=
  {| _offset := _offset r; _dv := _dv r; name := name r;
     frames := frames r; layers := ls; tags := tags r;
     fileSize := fileSize r; numFrames := numFrames r; width := width r;
     height := height r; colorDepth := colorDepth r;
     numColors := numColors r; pixelRatio := pixelRatio r;
     palette := palette r; colorProfile := colorProfile r |}.

Definition with_tags (ts : list Tag.t) (r : t) : t :=
  {| _offset := _offset r; _dv := _dv r; name := name r;
     frames := frames r; layers := layers r; tags := ts;
     fileSize := fileSize r; numFrames := numFrames r; width := width r;
     height := height r; colorDepth := colorDepth r;
     numColors := numColors r; pixelRatio := pixelRatio r;
     palette := palette r; colorProfile := colorProfile r |}.

Definition with_palette (p : Palette.t) (r : t) : t :=
  {| _offset := _offset r; _dv := _dv r; name := name r;
     frames := frames r; layers := layers r; tags := tags r;
     fileSize := fileSize r; numFrames := numFrames r; width := width r;
     height := height r; colorDepth := colorDepth r;
     numColors := numColors r; pixelRatio := pixelRatio r;
     palette := Some p; colorProfile := colorProfile r |}.

Definition with_colorProfile (p : ColorProfile.t) (r : t) : t :=
  {| _offset := _offset r; _dv := _dv r; name := name r;
     frames := frames r; layers := layers r; tags := tags r;
     fileSize := fileSize r; numFrames := numFrames r; width := width r;
     height := height r; colorDepth := colorDepth r;
     numColors := numColors r; pixelRatio := pixelRatio r;
     palette := palette r; colorProfile := Some p |}.

(** The reader monad: the object is threaded, an exception drops it. *)
Definition M (A : Type) : Type := t -> completion (A * t).

Definition ret {A} (a : A) : M A := fun r => Normal (a, r).
Definition bind {A B} (m : M A) (k : A -> M B) : M B :=
  fun r => match m r with
           | Normal (a, r') => k a r'
           | Throw e => Throw e
           end.
Definition throw {A} (e : js_error) : M A := fun _ => Throw e.
Definition modify (f : t -> t) : M unit := fun r => Normal (tt, f r).

Notation "x <- m ;; k" := (bind m (fun x => k))
  (at level 100, m at next level, right associativity).
Notation "m ;;; k" := (bind m (fun _ => k))
  (at level 100, right associativity).

(** A getter of the view at the cursor, which then moves on by [size]. *)
Definition readNext {A} (getter : list byte -> Z -> completion A)
    (size : Z) : M A :=
  fun r => match getter (_dv r) (_offset r) with
           | Normal v => Normal (v, with_offset (_offset r + size) r)
           | Throw e => Throw e
           end.

Definition readNextByte : M byte := readNext DataView.getUint8 1.
Definition readNextWord : M Z := readNext DataView.getUint16 2.
Definition readNextShort : M Z := readNext DataView.getInt16 2.
Definition readNextDWord : M Z := readNext DataView.getUint32 4.
Definition readNextFixed : M Z := readNext DataView.getFloat32 4.

Definition skipBytes (numBytes : Z) : M unit :=
  modify (fun r => with_offset (_offset r + numBytes) r).

(** The loop [for (i = 0; i < numBytes; i++) setUint8(i, readNextByte())]. *)
Fixpoint readBytesLoop (n : nat) : M (list byte) :=
  match n with
  | O => ret []
  | S n' => b <- readNextByte ;; rest <- readBytesLoop n' ;; ret (b :: rest)
  end.

(** [new ArrayBuffer(numBytes)] throws a [RangeError] on a negative
    length; on a length past the end of the file the byte loop throws the
    same error. *)
Definition readNextRawBytes (numBytes : Z) : M (list byte) :=
  if numBytes <? 0 then throw RangeError
  else readBytesLoop (Z.to_nat numBytes).

(** [array[i++]] past the end is [undefined], which [&] takes as 0. *)
Definition cont (o : option byte) : Z :=
  match o with Some b => Z.land (byteZ b) 63 | None => 0 end.

Fixpoint Utf8ArrayToStr (array : list byte) : js_string :=
  match array with
  | [] => []
  | c0 :: rest =>
      let c := byteZ c0 in
      let hi := Z.shiftr c 4 in
      if hi <=? 7 then c :: Utf8ArrayToStr rest
      else if (hi =? 12) || (hi =? 13) then
        let two char2 := Z.lor (Z.shiftl (Z.land c 31) 6) (cont char2) in
        match rest with
        | [] => [two None]
        | char2 :: rest' => two (Some char2) :: Utf8ArrayToStr rest'
        end
      else if hi =? 14 then
        let three char2 char3 :=
          Z.lor (Z.lor (Z.shiftl (Z.land c 15) 12)
                       (Z.shiftl (cont char2) 6))
                (Z.shiftl (cont char3) 0) in
        match rest with
        | [] => [three None None]
        | [char2] => [three (Some char2) None]
        | char2 :: char3 :: rest'' =>
            three (Some char2) (Some char3) :: Utf8ArrayToStr rest''
        end
      else Utf8ArrayToStr rest
  end.

Definition readNextBytes (numBytes : Z) : M js_string :=
  bytes <- readNextRawBytes numBytes ;; ret (Utf8ArrayToStr bytes).

Definition readNextString : M js_string :=
  numBytes <- readNextWord ;; readNextBytes numBytes.

(** The source stores each header field as it reads it; here they are
    stored together once the last has been read, which is the same for a
    header that is read to its end. *)
Definition readHeader : M Z :=
  fileSize <- readNextDWord ;;
  readNextWord ;;;
  numFrames <- readNextWord ;;
  width <- readNextWord ;;
  height <- readNextWord ;;
  colorDepth <- readNextWord ;;
  skipBytes 18 ;;;
  numColors <- readNextWord ;;
  pixW <- readNextByte ;;
  pixH <- readNextByte ;;
  modify (with_header fileSize numFrames width height colorDepth numColors
                      (byteZ pixW, byteZ pixH)) ;;;
  skipBytes 92 ;;;
  ret numFrames.

Definition readChunk : M (Z * Z) :=
  cSize <- readNextDWord ;;
  type <- readNextWord ;;
  ret (cSize, type).

Definition readColorProfileChunk : M unit :=
  type <- readNextWord ;;
  flag <- readNextWord ;;
  fGamma <- readNextFixed ;;
  skipBytes 8 ;;;
  modify (with_colorProfile (ColorProfile.mk type flag fGamma)).

Fixpoint readPaletteLoop (n : nat) (colors : list Color.t)
    : M (list Color.t) :=
  match n with
  | O => ret colors
  | S n' =>
      flag <- readNextWord ;;
      red <- readNextByte ;;
      green <- readNextByte ;;
      blue <- readNextByte ;;
      alpha <- readNextByte ;;
      name <- (if flag =? 1 then readNextString else ret (lit "none")) ;;
      readPaletteLoop n' (colors ++ [Color.mk red green blue alpha name])
  end.

Definition readPaletteChunk : M Palette.t :=
  paletteSize <- readNextDWord ;;
  firstColor <- readNextDWord ;;
  secondColor <- readNextDWord ;;
  skipBytes 8 ;;;
  colors <- readPaletteLoop (Z.to_nat paletteSize) [] ;;
  ret (Palette.mk paletteSize firstColor secondColor colors).

Definition readLayerChunk : M unit :=
  flags <- readNextWord ;;
  type <- readNextWord ;;
  layerChildLevel <- readNextWord ;;
  skipBytes 4 ;;;
  blendMode <- readNextWord ;;
  opacity <- readNextByte ;;
  skipBytes 3 ;;;
  name <- readNextString ;;
  modify (fun r =>
    with_layers
      (layers r ++ [Layer.mk (FlagsNumber flags) type layerChildLevel
                             blendMode opacity name]) r).

Definition loops : list js_string :=
  [lit "Forward"; lit "Reverse"; lit "Ping-pong"].

Fixpoint readFrameTagsLoop (n : nat) : M unit :=
  match n with
  | O => ret tt
  | S n' =>
      from <- readNextWord ;;
      to <- readNextWord ;;
      loopsInd <- readNextByte ;;
      skipBytes 8 ;;;
      color <- readNextRawBytes 3 ;;
      skipBytes 1 ;;;
      name <- readNextString ;;
      modify (fun r =>
        with_tags
          (tags r ++ [Tag.mk from to (loops !!! byteZ loopsInd) color name])
          r) ;;;
      readFrameTagsLoop n'
  end.

Definition readFrameTagsChunk : M unit :=
  numTags <- readNextWord ;;
  skipBytes 8 ;;;
  readFrameTagsLoop (Z.to_nat numTags).

Section WithPako.

(** The inflate library, when the page has loaded it: [pako] is [None]
    when [typeof pako] is ['undefined'], and [inflate buff] is [None]
    when [pako.inflate] throws. *)
Variable pako : option (list byte -> option (list byte)).

(** [rawCel] is a [Uint8Array] or [undefined] on every path, so the
    conversions that follow the decompression in the source do nothing. *)
Definition readCelChunk (chunkSize : Z) : M Cel.t :=
  layerIndex <- readNextWord ;;
  x <- readNextShort ;;
  y <- readNextShort ;;
  opacity <- readNextByte ;;
  celType <- readNextWord ;;
  skipBytes 7 ;;;
  if negb (celType =? 1) then
    w <- readNextWord ;;
    h <- readNextWord ;;
    buff <- readNextRawBytes (chunkSize - 26) ;;
    let rawCel :=
      if celType =? 2 then
        match pako with
        | Some inflate =>
            match inflate buff with
            | Some inflated => Some inflated
            | None => Some buff
            end
        | None => Some buff
        end
      else if celType =? 0 then Some buff
      else None in
    ret (Cel.mk layerIndex x y opacity celType (PixelData w h rawCel))
  else
    linkedFrame <- readNextWord ;;
    ret (Cel.mk layerIndex x y opacity celType (LinkedFrame linkedFrame)).

(** The chunk types that [readFrame] skips by their declared size. *)
Definition skipped_type (type : Z) : bool :=
  (type =? 0x0004) || (type =? 0x2006) || (type =? 0x0011)
  || (type =? 0x2016) || (type =? 0x2017) || (type =? 0x2020)
  || (type =? 0x2022).

(** One turn of the chunk loop of [readFrame]: [readChunk], then the
    [switch] on the type, which has no [default]. *)
Definition readFrameChunk (cels : list Cel.t) : M (list Cel.t) :=
  chunkData <- readChunk ;;
  let '(chunkSize, type) := chunkData in
  if skipped_type type then skipBytes (chunkSize - 6) ;;; ret cels
  else if type =? 0x2004 then readLayerChunk ;;; ret cels
  else if type =? 0x2005 then
    celData <- readCelChunk chunkSize ;; ret (cels ++ [celData])
  else if type =? 0x2007 then readColorProfileChunk ;;; ret cels
  else if type =? 0x2018 then readFrameTagsChunk ;;; ret cels
  else if type =? 0x2019 then
    p <- readPaletteChunk ;; modify (with_palette p) ;;; ret cels
  else ret cels.

Fixpoint readFrameLoop (n : nat) (cels : list Cel.t) : M (list Cel.t) :=
  match n with
  | O => ret cels
  | S n' => cels' <- readFrameChunk cels ;; readFrameLoop n' cels'
  end.

Definition readFrame : M unit :=
  bytesInFrame <- readNextDWord ;;
  skipBytes 2 ;;;
  oldChunk <- readNextWord ;;
  frameDuration <- readNextWord ;;
  skipBytes 2 ;;;
  newChunk <- readNextDWord ;;
  cels <- readFrameLoop (Z.to_nat newChunk) [] ;;
  modify (fun r =>
    with_frames
      (frames r ++ [Frame.mk bytesInFrame frameDuration newChunk cels])
      r).

Fixpoint parseLoop (n : nat) : M unit :=
  match n with
  | O => ret tt
  | S n' => readFrame ;;; parseLoop n'
  end.

Definition parse : M unit :=
  numFrames <- readHeader ;;
  parseLoop (Z.to_nat numFrames).

End WithPako.

(** *** Relations between the reader before and after a computation *)

(** [effect R m]: whenever [m] completes, [R] relates the reader before,
    the value and the reader after. *)
Definition effect {A} (R : t -> A -> t -> Prop) (m : M A) : Prop :=
  forall r a r', m r = Normal (a, r') -> R r a r'.

(** Neither [frames] nor [numFrames] has changed. *)
Definition keeps (r r' : t) : Prop :=
  frames r' = frames r /\ numFrames r' = numFrames r.

Definition keeping {A} (m : M A) : Prop :=
  effect (fun r _ r' => keeps r r') m.

(** [m] throws nothing but a [RangeError]. *)
Definition throwsRangeError {A} (m : M A) : Prop :=
  forall r e, m r = Throw e -> e = RangeError.

End AseReader.

(** ** AseCanvasRenderer *)

Module AseCanvasRenderer.

(** The transform of the 2D context. [fitToContainer] computes a scale and
    a translation from the container and the image size in floating point;
    [Fit] names that transform by what it is computed from. *)
Inductive transform :=
  | Identity
  | Fit (imageWidth imageHeight : Z) (isFlipped : bool).

(** One [drawImage(tempCanvas, dx, dy)]: a [w] by [h] block of RGBA
    bytes, drawn at [(dx, dy)] under the transform of that moment. *)
Record draw := mkDraw
  { under : transform; w : Z; h : Z; data : list byte; dx : Z; dy : Z }.

(** The renderer object. The pointer and zoom state ([trans], [scale],
    [dragStart], [dragged]) is left out. [canvas] is what has been drawn
    on the main canvas since it was last cleared. *)
Record t := mk
  { aseData : option AseReader.t;
    currentFrame : Z;
    lastRenderTime : Z;
    isFlipped : bool;
    layerVisibility : gmap Z bool;
    ctx : transform;
    canvas : list draw }.

Definition new : t :=
  {| aseData := None; currentFrame := 0; lastRenderTime := 0;
     isFlipped := false; layerVisibility := ∅; ctx := Identity;
     canvas := [] |}.

(** How a call of the renderer ends: normally, by an exception that leaves
    the object as it was when it was thrown, or not within the fuel. *)
Inductive run :=
  | Done (r : t)
  | Raised (e : js_error) (r : t)
  | Unfinished.

Definition isLayerVisible (this : t) (layerIndex : Z) : bool :=
  match aseData this with
  | None => true
  | Some d =>
      match AseReader.layers d !!! layerIndex with
      | None => true
      | Some layer =>
          match layerVisibility this !! layerIndex with
          | Some visible => visible
          | None =>
              match Layer.flags layer with
              | FlagsObject visible =>
                  match visible with Some true => true | _ => false end
              | FlagsNumber flags => Z.land flags 1 =? 1
              | FlagsOther => true
              end
          end
      end
  end.

(** [frames[lFrame].cels[numCel]]: a [TypeError] when the frame is
    [undefined], and [undefined] itself when the frame has no such cel.
    [lFrame] is [None] when the index is itself [undefined]. *)
Definition frameCel (d : AseReader.t) (lFrame : option Z) (numCel : Z)
    : completion (option Cel.t) :=
  match lFrame with
  | None => Throw TypeError
  | Some f =>
      match AseReader.frames d !!! f with
      | None => Throw TypeError
      | Some frame => Normal (Frame.cels frame !!! numCel)
      end
  end.

(** [while (nextCel.celType === 1)], entered with [nextCel]. The result is
    [None] when the loop is still running after [fuel] turns. *)
Fixpoint getCelDataWhile (d : AseReader.t) (numCel : Z) (fuel : nat)
    (nextCel : option Cel.t) : option (completion Cel.t) :=
  match nextCel with
  | None => Some (Throw TypeError)
  | Some c =>
      if Cel.celType c =? 1 then
        match fuel with
        | O => None
        | S fuel' =>
            match frameCel d (Cel.linkedFrame c) numCel with
            | Throw e => Some (Throw e)
            | Normal next => getCelDataWhile d numCel fuel' next
            end
        end
      else Some (Normal c)
  end.

(** What [getCelData] returns: [{ h, w, rawCelData }]. *)
Record celData := mkCelData
  { cd_h : option Z; cd_w : option Z; cd_rawCelData : option (list byte) }.

Definition celDataOf (c : Cel.t) : celData :=
  mkCelData (Cel.h c) (Cel.w c) (Cel.rawCelData c).

Definition getCelData (d : AseReader.t) (fuel : nat) (lFrame : option Z)
    (numCel : Z) : option (completion celData) :=
  match frameCel d lFrame numCel with
  | Throw e => Some (Throw e)
  | Normal None => Some (Throw TypeError)
  | Normal (Some currCel) =>
      match Cel.linkedFrame currCel with
      | Some _ =>
          match getCelDataWhile d numCel fuel (Some currCel) with
          | None => None
          | Some (Throw e) => Some (Throw e)
          | Some (Normal nextCel) => Some (Normal (celDataOf nextCel))
          end
      | None => Some (Normal (celDataOf currCel))
      end
  end.

(** [for (let i = 0; i < n; i++) body]. *)
Definition for_loop {S} (n : nat) (body : nat -> S -> S) (s : S) : S :=
  foldl (fun s i => body i s) s (seq 0 n).

(** [rawCelData[i]], stored into a clamped byte array. *)
Definition rd (raw : list byte) (i : nat) : byte :=
  default zero_byte (raw !! i).

(** [createImageData(w, h)]: transparent black. (The limit that a browser
    puts on the size of a canvas is not modelled.) *)
Definition createImageData (w h : Z) : list byte :=
  replicate (Z.to_nat (w * h * 4)) zero_byte.

Definition decode32 (w h : Z) (raw : list byte) (imageData : list byte)
    : list byte :=
  let expectedLength := w * h * 4 in
  let actualLength := Z.of_nat (length raw) in
  if expectedLength <=? actualLength then
    for_loop (Z.to_nat expectedLength)
      (fun i data => <[i := rd raw i]> data) imageData
  else
    for_loop (Z.to_nat (Z.min expectedLength actualLength))
      (fun i data => <[i := rd raw i]> data) imageData.

Definition decode16 (w h : Z) (raw : list byte) (imageData : list byte)
    : list byte :=
  let pixelCount := w * h in
  for_loop (Z.to_nat pixelCount)
    (fun i data =>
       let dataIndex := (i * 2)%nat in
       if (dataIndex + 1 <? length raw)%nat then
         let value := rd raw dataIndex in
         let alpha := rd raw (dataIndex + 1) in
         let pixelIndex := (i * 4)%nat in
         <[(pixelIndex + 3)%nat := alpha]>
           (<[(pixelIndex + 2)%nat := value]>
              (<[(pixelIndex + 1)%nat := value]>
                 (<[pixelIndex := value]> data)))
       else data)
    imageData.

Definition decode8 (palette : option Palette.t) (w h : Z)
    (raw : list byte) (imageData : list byte) : list byte :=
  let pixelCount := w * h in
  for_loop (Z.to_nat pixelCount)
    (fun i data =>
       if (i <? length raw)%nat then
         let paletteIndex := byteZ (rd raw i) in
         let pixelIndex := (i * 4)%nat in
         let color :=
           match palette with
           | Some p => Palette.colors p !!! paletteIndex
           | None => None
           end in
         match color with
         | Some color =>
             <[(pixelIndex + 3)%nat := Color.alpha color]>
               (<[(pixelIndex + 2)%nat := Color.blue color]>
                  (<[(pixelIndex + 1)%nat := Color.green color]>
                     (<[pixelIndex := Color.red color]> data)))
         | None =>
             <[(pixelIndex + 3)%nat := zero_byte]>
               (<[(pixelIndex + 2)%nat := zero_byte]>
                  (<[(pixelIndex + 1)%nat := zero_byte]>
                     (<[pixelIndex := zero_byte]> data)))
         end
       else data)
    imageData.

(** The three branches on the colour depth; any other depth leaves the
    image data as created. *)
Definition decode (colorDepth : Z) (palette : option Palette.t) (w h : Z)
    (raw : list byte) : list byte :=
  let imageData := createImageData w h in
  if colorDepth =? 32 then decode32 w h raw imageData
  else if colorDepth =? 16 then decode16 w h raw imageData
  else if colorDepth =? 8 then decode8 palette w h raw imageData
  else imageData.

Definition with_canvas (c : list draw) (this : t) : t :=
  {| aseData := aseData this; currentFrame := currentFrame this;
     lastRenderTime := lastRenderTime this; isFlipped := isFlipped this;
     layerVisibility := layerVisibility this; ctx := ctx this;
     canvas := c |}.

Definition with_ctx (x : transform) (this : t) : t :=
  {| aseData := aseData this; currentFrame := currentFrame this;
     lastRenderTime := lastRenderTime this; isFlipped := isFlipped this;
     layerVisibility := layerVisibility this; ctx := x;
     canvas := canvas this |}.

Definition with_currentFrame (f : Z) (this : t) : t :=
  {| aseData := aseData this; currentFrame := f;
     lastRenderTime := lastRenderTime this; isFlipped := isFlipped this;
     layerVisibility := layerVisibility this; ctx := ctx this;
     canvas := canvas this |}.

Definition with_lastRenderTime (now : Z) (this : t) : t :=
  {| aseData := aseData this; currentFrame := currentFrame this;
     lastRenderTime := now; isFlipped := isFlipped this;
     layerVisibility := layerVisibility this; ctx := ctx this;
     canvas := canvas this |}.

Definition with_layerVisibility (m : gmap Z bool) (this : t) : t :=
  {| aseData := aseData this; currentFrame := currentFrame this;
     lastRenderTime := lastRenderTime this; isFlipped := isFlipped this;
     layerVisibility := m; ctx := ctx this;
     canvas := canvas this |}.

(** [{ ...this.getCelData(...), ...celData }]: the keys of [celData] win;
    a cel with a [linkedFrame] key has no [w], [h] or [rawCelData] key. *)
Definition spread (resolved : celData) (c : Cel.t) : celData :=
  match Cel.pixels c with
  | PixelData w h d => mkCelData (Some h) (Some w) d
  | LinkedFrame _ => resolved
  end.

(** [!cel.w || cel.w <= 0] and the like. *)
Definition badSize (o : option Z) : bool :=
  match o with
  | None => true
  | Some v => (v =? 0) || (v <=? 0)
  end.

Definition noData (o : option (list byte)) : bool :=
  match o with
  | None => true
  | Some raw => Z.of_nat (length raw) =? 0
  end.

(** [colorDepth || 32]. *)
Definition depthOr32 (colorDepth : Z) : Z :=
  if colorDepth =? 0 then 32 else colorDepth.

(** [writeCel], after the cel has been resolved to [cel]: the two guards,
    the decoding into a temporary canvas, and the [drawImage]. Nothing in
    the [try] block throws on these data, so its [catch] is left out. *)
Definition paintCel (d : AseReader.t) (c : Cel.t) (cel : celData)
    (this : t) : t :=
  let colorDepth := depthOr32 (AseReader.colorDepth d) in
  if noData (cd_rawCelData cel) then this
  else if badSize (cd_w cel) || badSize (cd_h cel) then this
  else
    match cd_w cel, cd_h cel, cd_rawCelData cel with
    | Some w, Some h, Some raw =>
        let imageData := decode colorDepth (AseReader.palette d) w h raw in
        with_canvas
          (canvas this
           ++ [mkDraw (ctx this) w h imageData (Cel.xpos c) (Cel.ypos c)])
          this
    | _, _, _ => this
    end.

(** [celData.celType !== 1 ? celData : { ...getCelData(...), ...celData }]. *)
Definition resolveCel (d : AseReader.t) (fuel : nat) (numCel : Z)
    (c : Cel.t) : option (completion celData) :=
  if negb (Cel.celType c =? 1) then Some (Normal (celDataOf c))
  else
    match getCelData d fuel (Cel.linkedFrame c) numCel with
    | None => None
    | Some (Throw e) => Some (Throw e)
    | Some (Normal resolved) => Some (Normal (spread resolved c))
    end.

Definition writeCel (fuel : nat) (numCel : Z) (this : t) : run :=
  match aseData this with
  | None => Raised TypeError this
  | Some d =>
      match frameCel d (Some (currentFrame this)) numCel with
      | Throw e => Raised e this
      | Normal None => Raised TypeError this
      | Normal (Some c) =>
          match resolveCel d fuel numCel c with
          | None => Unfinished
          | Some (Throw e) => Raised e this
          | Some (Normal cel) => Done (paintCel d c cel this)
          end
      end
  end.

Definition clearCanvas (this : t) : t := with_canvas [] this.

Definition fitToContainer (this : t) : t :=
  match aseData this with
  | None => this
  | Some d =>
      with_ctx (Fit (AseReader.width d) (AseReader.height d)
                    (isFlipped this)) this
  end.

(** The cel loop of [renderFrame] and [forceRender], from position [i] on;
    [cels] is what is left of [frame.cels] from there. *)
Fixpoint renderCels (fuel : nat) (i : Z) (cels : list Cel.t) (this : t)
    : run :=
  match cels with
  | [] => Done this
  | c :: rest =>
      if isLayerVisible this (Cel.layerIndex c) then
        match writeCel fuel i this with
        | Done this' => renderCels fuel (i + 1) rest this'
        | Raised e this' => Raised e this'
        | Unfinished => Unfinished
        end
      else renderCels fuel (i + 1) rest this
  end.

(** [forceRender(frameIndex)]: the render without the rate limit. *)
Definition forceRender (fuel : nat) (frameIndex : Z) (this : t) : run :=
  match aseData this with
  | None => Done this
  | Some d =>
      match AseReader.frames d !!! frameIndex with
      | None => Done this
      | Some frame =>
          let this := with_currentFrame frameIndex this in
          let this := clearCanvas this in
          let this := fitToContainer this in
          renderCels fuel 0 (Frame.cels frame) this
      end
  end.

(** [renderFrame(frameIndex)]; [now] is what [Date.now()] returns. *)
Definition renderFrame (fuel : nat) (now : Z) (frameIndex : Z) (this : t)
    : run :=
  match aseData this with
  | None => Done this
  | Some d =>
      match AseReader.frames d !!! frameIndex with
      | None => Done this
      | Some frame =>
          if now - lastRenderTime this <? 100 then Done this
          else
            let this := with_lastRenderTime now this in
            let this := with_currentFrame frameIndex this in
            let this := clearCanvas this in
            let this := fitToContainer this in
            renderCels fuel 0 (Frame.cels frame) this
      end
  end.

Definition setLayerVisibility (fuel : nat) (now : Z) (layerIndex : Z)
    (visible : bool) (this : t) : run :=
  let this :=
    with_layerVisibility (<[layerIndex := visible]> (layerVisibility this))
                         this in
  match aseData this with
  | Some _ => renderFrame fuel now (currentFrame this) this
  | None => Done this
  end.

(** *** The rest of the renderer's interface

    A method that returns a value after a render is a pair: how the render
    ended and, when it ended normally, the value. *)

(** [numFrames || (frames ? frames.length : 0)]. *)
Definition frameCount (d : AseReader.t) : Z :=
  if AseReader.numFrames d =? 0 then Z.of_nat (length (AseReader.frames d))
  else AseReader.numFrames d.

Definition toggleLayerVisibility (fuel : nat) (now : Z) (layerIndex : Z)
    (this : t) : run * bool :=
  let currentVisible := isLayerVisible this layerIndex in
  let newVisible := negb currentVisible in
  (setLayerVisibility fuel now layerIndex newVisible this, newVisible).

Definition getLayerCount (this : t) : Z :=
  match aseData this with
  | None => 0
  | Some d => Z.of_nat (length (AseReader.layers d))
  end.

(** [for (i = 0; i < layers.length; i++) layerVisibility.set(i, visible)]. *)
Definition setAllLayers (visible : bool) (n : nat) (m : gmap Z bool)
    : gmap Z bool :=
  for_loop n (fun i m => <[Z.of_nat i := visible]> m) m.

Definition showAllLayers (fuel : nat) (now : Z) (this : t) : run :=
  match aseData this with
  | None => Done this
  | Some d =>
      let this :=
        with_layerVisibility
          (setAllLayers true (length (AseReader.layers d))
                        (layerVisibility this)) this in
      renderFrame fuel now (currentFrame this) this
  end.

Definition hideAllLayers (fuel : nat) (now : Z) (this : t) : run :=
  match aseData this with
  | None => Done this
  | Some d =>
      let this :=
        with_layerVisibility
          (setAllLayers false (length (AseReader.layers d))
                        (layerVisibility this)) this in
      renderFrame fuel now (currentFrame this) this
  end.

Definition nextFrame (fuel : nat) (now : Z) (this : t) : run * bool :=
  match aseData this with
  | None => (Done this, false)
  | Some d =>
      if currentFrame this <? frameCount d - 1 then
        (renderFrame fuel now (currentFrame this + 1) this, true)
      else (Done this, false)
  end.

Definition prevFrame (fuel : nat) (now : Z) (this : t) : run * bool :=
  match aseData this with
  | None => (Done this, false)
  | Some d =>
      if 0 <? currentFrame this then
        (renderFrame fuel now (currentFrame this - 1) this, true)
      else (Done this, false)
  end.

(** [%] is the remainder with the sign of the dividend, [Z.rem]. *)
Definition nextFrameLoop (fuel : nat) (now : Z) (this : t) : run * bool :=
  match aseData this with
  | None => (Done this, false)
  | Some d =>
      if frameCount d <=? 0 then (Done this, false)
      else
        let nextFrame := Z.rem (currentFrame this + 1) (frameCount d) in
        (renderFrame fuel now nextFrame this, true)
  end.

(** [frameData.frameDuration || 100], and 100 without a frame. *)
Definition getCurrentFrameDuration (this : t) : Z :=
  match aseData this with
  | None => 100
  | Some d =>
      match AseReader.frames d !!! currentFrame this with
      | None => 100
      | Some frameData =>
          if Frame.frameDuration frameData =? 0 then 100
          else Frame.frameDuration frameData
      end
  end.

Definition hasMultipleFrames (this : t) : bool :=
  match aseData this with
  | None => false
  | Some d => 1 <? frameCount d
  end.

Definition with_isFlipped (flipped : bool) (this : t) : t :=
  {| aseData := aseData this; currentFrame := currentFrame this;
     lastRenderTime := lastRenderTime this; isFlipped := flipped;
     layerVisibility := layerVisibility this; ctx := ctx this;
     canvas := canvas this |}.

Definition with_aseData (d : AseReader.t) (this : t) : t :=
  {| aseData := Some d; currentFrame := currentFrame this;
     lastRenderTime := lastRenderTime this; isFlipped := isFlipped this;
     layerVisibility := layerVisibility this; ctx := ctx this;
     canvas := canvas this |}.

Definition setFlip (fuel : nat) (now : Z) (flipped : bool) (this : t)
    : run :=
  let this := with_isFlipped flipped this in
  match aseData this with
  | Some _ => renderFrame fuel now (currentFrame this) this
  | None => Done this
  end.

Definition toggleFlip (fuel : nat) (now : Z) (this : t) : run * bool :=
  (setFlip fuel now (negb (isFlipped this)) this, negb (isFlipped this)).

(** [resetView]: the same cel loop as a render, entered without the test
    that [renderFrame] and [forceRender] make on the frame:
    [frame.cels.length] throws on a frame that is [undefined]. *)
Definition resetView (fuel : nat) (this : t) : run :=
  let this := with_ctx Identity this in
  match aseData this with
  | None => Done this
  | Some d =>
      let this := clearCanvas this in
      let this := fitToContainer this in
      match AseReader.frames d !!! currentFrame this with
      | None => Raised TypeError this
      | Some frame => renderCels fuel 0 (Frame.cels frame) this
      end
  end.

(** [forceRefresh]; the canvas in memory that it also clears is never drawn
    to and is not modelled. *)
Definition forceRefresh (fuel : nat) (this : t) : run :=
  match aseData this with
  | None => Done this
  | Some _ =>
      let this := clearCanvas this in
      let this := with_lastRenderTime 0 this in
      forceRender fuel (currentFrame this) this
  end.

Definition needsRefresh (this : t) : bool :=
  match aseData this with
  | None => false
  | Some d =>
      match AseReader.frames d !!! currentFrame this with
      | None => false
      | Some _ => true
      end
  end.

(** [updateFileData(newAseData)], up to its return. ([None] is a missing
    argument.) The timer that it starts before it returns runs
    [fitToContainer] and [forceRender] again, 50 ms later. *)
Definition updateFileData (fuel : nat) (newAseData : option AseReader.t)
    (this : t) : run :=
  match newAseData with
  | None => Done this
  | Some d =>
      let oldCurrentFrame := currentFrame this in
      let count :=
        if AseReader.numFrames d =? 0 then
          if Z.of_nat (length (AseReader.frames d)) =? 0 then 1
          else Z.of_nat (length (AseReader.frames d))
        else AseReader.numFrames d in
      let maxFrame := count - 1 in
      let this := with_aseData d this in
      let this :=
        if maxFrame <? oldCurrentFrame then with_currentFrame 0 this
        else with_currentFrame oldCurrentFrame this in
      forceRender fuel (currentFrame this) this
  end.

(** One entry of [getAllLayers]. *)
Record layerInfo := mkLayerInfo
  { li_index : Z; li_name : js_string; li_visible : bool;
    li_flags : js_flags; li_type : Z; li_opacity : byte; li_blendMode : Z }.

(** The decimal digits of a number that is not negative, as code units. *)
Fixpoint digits (u : Decimal.uint) : js_string :=
  match u with
  | Decimal.Nil => []
  | Decimal.D0 u => 48 :: digits u
  | Decimal.D1 u => 49 :: digits u
  | Decimal.D2 u => 50 :: digits u
  | Decimal.D3 u => 51 :: digits u
  | Decimal.D4 u => 52 :: digits u
  | Decimal.D5 u => 53 :: digits u
  | Decimal.D6 u => 54 :: digits u
  | Decimal.D7 u => 55 :: digits u
  | Decimal.D8 u => 56 :: digits u
  | Decimal.D9 u => 57 :: digits u
  end.

(** The name of a layer without a name: the two characters U+56FE U+5C42,
    a space, and the number of the layer counted from 1. *)
Definition defaultLayerName (index : Z) : js_string :=
  [22270; 23618; 32] ++ digits (N.to_uint (Z.to_N (index + 1))).

(** [layers.map((layer, index) => ...)]. *)
Fixpoint layerInfos (this : t) (index : Z) (layers : list Layer.t)
    : list layerInfo :=
  match layers with
  | [] => []
  | layer :: rest =>
      mkLayerInfo index
        (match Layer.name layer with
         | [] => defaultLayerName index
         | name => name
         end)
        (isLayerVisible this index) (Layer.flags layer) (Layer.type layer)
        (Layer.opacity layer) (Layer.blendMode layer)
      :: layerInfos this (index + 1) rest
  end.

Definition getAllLayers (this : t) : list layerInfo :=
  match aseData this with
  | None => []
  | Some d => rev (layerInfos this 0 (AseReader.layers d))
  end.

End AseCanvasRenderer.

(** * What the specification says, in its own words *)

Module Spec.

Definition transparent : list byte :=
  [zero_byte; zero_byte; zero_byte; zero_byte].

(** Pixel [i] of an indexed cel: byte [i] of the payload is a palette
    index, and the pixel is that colour; transparent black when the
    palette is missing or has no such entry (or the payload is short). *)
Definition indexedPixel (palette : option Palette.t) (raw : list byte)
    (i : nat) : list byte :=
  match raw !! i with
  | None => transparent
  | Some index =>
      match palette with
      | None => transparent
      | Some p =>
          match Palette.colors p !!! byteZ index with
          | None => transparent
          | Some color =>
              [Color.red color; Color.green color; Color.blue color;
               Color.alpha color]
          end
      end
  end.

(** Bit 0 of the raw flags, 1 for visible; for flags that were parsed into
    an object, its [visible] field; visible when there are no flag
    data. *)
Definition flagVisible (flags : js_flags) : bool :=
  match flags with
  | FlagsNumber n => Z.testbit n 0
  | FlagsObject (Some b) => b
  | FlagsObject None => false
  | FlagsOther => true
  end.

(** The override of the caller if there is one for that index, else the
    flag of the layer. *)
Definition effectiveVisible (overrides : gmap Z bool) (layer : Layer.t)
    (layerIndex : Z) : bool :=
  match overrides !! layerIndex with
  | Some visible => visible
  | None => flagVisible (Layer.flags layer)
  end.

(** The cel of layer [layerIndex] in a cel list: the first one that has
    that [layerIndex]. *)
Definition findByLayer (cels : list Cel.t) (layerIndex : Z)
    : option Cel.t :=
  List.find (fun c => Cel.layerIndex c =? layerIndex) cels.

(** The two kinds of cel that [readCelChunk] builds. *)
Definition ownCel (c : Cel.t) : Prop :=
  Cel.celType c <> 1 /\ exists w h raw, Cel.pixels c = PixelData w h raw.

Definition linkedTo (c : Cel.t) (f : Z) : Prop :=
  Cel.celType c = 1 /\ Cel.pixels c = LinkedFrame f.

(** Where a chain of links ends: at a cel with its own pixels, or at a
    frame or a position in a frame that does not exist. *)
Inductive chainEnd :=
  | Owner (c : Cel.t)
  | Missing.

(** [chain d numCel f e k]: starting in frame [f] and following the links
    at position [numCel] of each frame, the chain ends in [e] after [k]
    links. *)
Inductive chain (d : AseReader.t) (numCel : Z)
    : Z -> chainEnd -> nat -> Prop :=
  | chain_owner f frame c :
      AseReader.frames d !!! f = Some frame ->
      Frame.cels frame !!! numCel = Some c ->
      ownCel c ->
      chain d numCel f (Owner c) 0
  | chain_no_frame f :
      AseReader.frames d !!! f = None ->
      chain d numCel f Missing 0
  | chain_no_cel f frame :
      AseReader.frames d !!! f = Some frame ->
      Frame.cels frame !!! numCel = None ->
      chain d numCel f Missing 0
  | chain_link f frame c f' e k :
      AseReader.frames d !!! f = Some frame ->
      Frame.cels frame !!! numCel = Some c ->
      linkedTo c f' ->
      chain d numCel f' e k ->
      chain d numCel f e (S k).

(** A set of linked cels that the links at position [numCel] never
    leave: every chain that enters it goes on for ever, as a cycle
    does. *)
Definition endless (d : AseReader.t) (numCel : Z)
    (onChain : Cel.t -> Prop) : Prop :=
  forall c, onChain c ->
    exists f frame c',
      linkedTo c f
      /\ AseReader.frames d !!! f = Some frame
      /\ Frame.cels frame !!! numCel = Some c'
      /\ onChain c'.

(** What is seen of a block on the canvas, apart from where it is. *)
Definition block (dr : AseCanvasRenderer.draw) : Z * Z * list byte :=
  (AseCanvasRenderer.w dr, AseCanvasRenderer.h dr,
   AseCanvasRenderer.data dr).

(** The output of a render: the canvas, and the error if it ended with
    one; nothing while it is running. *)
Definition seen (r : AseCanvasRenderer.run)
    : option (option js_error * list AseCanvasRenderer.draw) :=
  match r with
  | AseCanvasRenderer.Done this =>
      Some (None, AseCanvasRenderer.canvas this)
  | AseCanvasRenderer.Raised e this =>
      Some (Some e, AseCanvasRenderer.canvas this)
  | AseCanvasRenderer.Unfinished => None
  end.

Definition map_run (f : AseCanvasRenderer.t -> AseCanvasRenderer.t)
    (r : AseCanvasRenderer.run) : AseCanvasRenderer.run :=
  match r with
  | AseCanvasRenderer.Done this => AseCanvasRenderer.Done (f this)
  | AseCanvasRenderer.Raised e this => AseCanvasRenderer.Raised e (f this)
  | AseCanvasRenderer.Unfinished => AseCanvasRenderer.Unfinished
  end.

(** The renderer as a render starts to paint: of what it was before, only
    the document, the flip and the overrides are left. *)
Definition prepared (d : AseReader.t) (frameIndex : Z) (flipped : bool)
    (overrides : gmap Z bool) : AseCanvasRenderer.t :=
  {| AseCanvasRenderer.aseData := Some d;
     AseCanvasRenderer.currentFrame := frameIndex;
     AseCanvasRenderer.lastRenderTime := 0;
     AseCanvasRenderer.isFlipped := flipped;
     AseCanvasRenderer.layerVisibility := overrides;
     AseCanvasRenderer.ctx :=
       AseCanvasRenderer.Fit (AseReader.width d) (AseReader.height d)
                             flipped;
     AseCanvasRenderer.canvas := [] |}.

(** The positions, from [i] on, of the cels of [cels] whose layer is
    visible to the renderer. *)
Fixpoint paintedPositions (this : AseCanvasRenderer.t) (i : Z)
    (cels : list Cel.t) : list Z :=
  match cels with
  | [] => []
  | c :: rest =>
      if AseCanvasRenderer.isLayerVisible this (Cel.layerIndex c)
      then i :: paintedPositions this (i + 1) rest
      else paintedPositions this (i + 1) rest
  end.

(** [writeCel] at each of [positions] in turn, up to the first that does
    not complete. *)
Fixpoint writeCels (fuel : nat) (positions : list Z)
    (this : AseCanvasRenderer.t) : AseCanvasRenderer.run :=
  match positions with
  | [] => AseCanvasRenderer.Done this
  | p :: rest =>
      match AseCanvasRenderer.writeCel fuel p this with
      | AseCanvasRenderer.Done this' => writeCels fuel rest this'
      | AseCanvasRenderer.Raised e this' => AseCanvasRenderer.Raised e this'
      | AseCanvasRenderer.Unfinished => AseCanvasRenderer.Unfinished
      end
  end.

(** The chunk types that the reader decodes. *)
Definition consumed_type (type : Z) : bool :=
  (type =? 0x2004) || (type =? 0x2005) || (type =? 0x2007)
  || (type =? 0x2018) || (type =? 0x2019).

(** ** Notions that the further properties are stated with *)

(** Pixel [i] of a grayscale cel: bytes [2i] and [2i+1] of the payload are
    the value and the alpha; transparent black when the payload does not
    hold both. *)
Definition grayPixel (raw : list byte) (i : nat) : list byte :=
  match raw !! (i * 2)%nat, raw !! (i * 2 + 1)%nat with
  | Some value, Some alpha => [value; value; value; alpha]
  | _, _ => transparent
  end.

(** What painting a resolved cel adds to the canvas: nothing, or one
    block. *)
Definition celDraws (d : AseReader.t) (under : AseCanvasRenderer.transform)
    (c : Cel.t) (cel : AseCanvasRenderer.celData)
    : list AseCanvasRenderer.draw :=
  match AseCanvasRenderer.cd_w cel, AseCanvasRenderer.cd_h cel,
        AseCanvasRenderer.cd_rawCelData cel with
  | Some w, Some h, Some raw =>
      if (0 <? w) && (0 <? h) && negb (Nat.eqb (length raw) 0) then
        [AseCanvasRenderer.mkDraw under w h
           (AseCanvasRenderer.decode
              (AseCanvasRenderer.depthOr32 (AseReader.colorDepth d))
              (AseReader.palette d) w h raw)
           (Cel.xpos c) (Cel.ypos c)]
      else []
  | _, _, _ => []
  end.

(** The renderer that a call leaves behind, if it returns or throws. *)
Definition after (r : AseCanvasRenderer.run) : option AseCanvasRenderer.t :=
  match r with
  | AseCanvasRenderer.Done this => Some this
  | AseCanvasRenderer.Raised _ this => Some this
  | AseCanvasRenderer.Unfinished => None
  end.

(** The renderer is on a frame of a document. *)
Definition onFrame (this : AseCanvasRenderer.t) : Prop :=
  exists d frame,
    AseCanvasRenderer.aseData this = Some d
    /\ AseReader.frames d !!! AseCanvasRenderer.currentFrame this
       = Some frame.

(** The byte of a number from 0 to 255. *)
Definition toByte (z : Z) : byte :=
  default zero_byte (Byte.of_N (Z.to_N z)).

(** The UTF-8 bytes of a code unit below 65536: one byte below 128, two
    below 2048, three from there on. *)
Definition utf8 (cp : Z) : list byte :=
  if cp <? 128 then [toByte cp]
  else if cp <? 2048 then
    [toByte (Z.lor 192 (Z.shiftr cp 6)); toByte (Z.lor 128 (Z.land cp 63))]
  else
    [toByte (Z.lor 224 (Z.shiftr cp 12));
     toByte (Z.lor 128 (Z.land (Z.shiftr cp 6) 63));
     toByte (Z.lor 128 (Z.land cp 63))].

(** The high four bits of a byte. *)
Definition nibble (b : byte) : Z := Z.shiftr (byteZ b) 4.

(** [Utf8ArrayToStr] gives back the code unit from its bytes. *)
Definition decodesTo (cp : Z) (bytes : list byte) : bool :=
  match bytes with
  | [b0] => (nibble b0 <=? 7) && (byteZ b0 =? cp)
  | [b0; b1] =>
      ((nibble b0 =? 12) || (nibble b0 =? 13))
      && (Z.lor (Z.shiftl (Z.land (byteZ b0) 31) 6)
                (Z.land (byteZ b1) 63) =? cp)
  | [b0; b1; b2] =>
      (nibble b0 =? 14)
      && (Z.lor (Z.lor (Z.shiftl (Z.land (byteZ b0) 15) 12)
                       (Z.shiftl (Z.land (byteZ b1) 63) 6))
                (Z.shiftl (Z.land (byteZ b2) 63) 0) =? cp)
  | _ => false
  end.

(** [f] holds of the [count] numbers from [start] on. *)
Fixpoint allFrom (count : nat) (start : Z) (f : Z -> bool) : bool :=
  match count with
  | O => true
  | S count' => f start && allFrom count' (start + 1) f
  end.

(** The values of a 16-bit word and of a signed 16-bit number. *)
Definition word (z : Z) : Prop := 0 <= z < 65536.
Definition short (z : Z) : Prop := -32768 <= z < 32768.

(** A cel as [readCelChunk] builds it. *)
Definition parsedCel (c : Cel.t) : Prop :=
  word (Cel.layerIndex c) /\ short (Cel.xpos c) /\ short (Cel.ypos c)
  /\ word (Cel.celType c)
  /\ match Cel.pixels c with
     | PixelData w h raw =>
         Cel.celType c <> 1 /\ word w /\ word h
         /\ (is_Some raw <-> Cel.celType c = 0 \/ Cel.celType c = 2)
     | LinkedFrame f => Cel.celType c = 1 /\ word f
     end.

Definition parsedLayer (l : Layer.t) : Prop :=
  exists flags, Layer.flags l = FlagsNumber flags /\ word flags.

Definition parsedFrame (fr : Frame.t) : Prop :=
  word (Frame.frameDuration fr) /\ Forall parsedCel (Frame.cels fr).

Definition parsedDocument (r : AseReader.t) : Prop :=
  Forall parsedLayer (AseReader.layers r)
  /\ Forall parsedFrame (AseReader.frames r).

(** From [r] to [r'] the frames are the same and layers have been added
    at the end, all of them as [readLayerChunk] builds them. *)
Definition extends (r r' : AseReader.t) : Prop :=
  AseReader.frames r' = AseReader.frames r
  /\ exists ls,
       AseReader.layers r' = AseReader.layers r ++ ls
       /\ Forall parsedLayer ls.

Definition extending {A} (m : AseReader.M A) : Prop :=
  AseReader.effect (fun r _ r' => extends r r') m.

(** The frames whose cel the [while] loop of [getCelData] takes, in
    order, from [nextCel] on and within [fuel] turns. *)
Fixpoint followed (d : AseReader.t) (numCel : Z) (fuel : nat)
    (nextCel : option Cel.t) : list Z :=
  match nextCel, fuel with
  | Some c, S fuel' =>
      if Cel.celType c =? 1 then
        match Cel.linkedFrame c with
        | Some f =>
            match AseReader.frames d !!! f with
            | Some frame =>
                f :: followed d numCel fuel' (Frame.cels frame !!! numCel)
            | None => []
            end
        | None => []
        end
      else []
  | _, _ => []
  end.

End Spec.

(** * Sample files and documents *)

Module Sample.

Definition bytes (l : list Z) : list byte :=
  map (fun z => default zero_byte (Byte.of_N (Z.to_N z))) l.

Definition zeros (n : nat) : list Z := replicate n 0.

(** A file header: [numFrames] frames of a 2 by 1 image at [colorDepth]. *)
Definition header (numFrames colorDepth : Z) : list Z :=
  [0; 0; 0; 0] ++ [0xE0; 0xA5] ++ [numFrames; 0] ++ [2; 0] ++ [1; 0]
  ++ [colorDepth; 0] ++ zeros 18 ++ [0; 0] ++ [1; 1] ++ zeros 92.

Definition frameHeader (newChunk : Z) : list Z :=
  [0; 0; 0; 0] ++ [0xFA; 0xF1] ++ [0; 0] ++ [100; 0] ++ [0; 0]
  ++ [newChunk; 0; 0; 0].

(** A layer chunk: visible, named "L". *)
Definition layerChunk : list Z :=
  [25; 0; 0; 0] ++ [0x04; 0x20] ++ [1; 0] ++ [0; 0] ++ [0; 0] ++ zeros 4
  ++ [0; 0] ++ [255] ++ zeros 3 ++ [1; 0; 76].

(** A raw cel of layer 0 at (0, 0), declared [w] by [h], with payload
    [payload]. *)
Definition rawCelChunk (w h : Z) (payload : list Z) : list Z :=
  [26 + Z.of_nat (length payload); 0; 0; 0] ++ [0x05; 0x20]
  ++ [0; 0] ++ [0; 0] ++ [0; 0] ++ [255] ++ [0; 0] ++ zeros 7
  ++ [w; 0] ++ [h; 0] ++ payload.

(** A cel of layer 0 linked to frame [linkedFrame]. *)
Definition linkedCelChunk (linkedFrame : Z) : list Z :=
  [24; 0; 0; 0] ++ [0x05; 0x20]
  ++ [0; 0] ++ [0; 0] ++ [0; 0] ++ [255] ++ [1; 0] ++ zeros 7
  ++ [linkedFrame; 0].

(** The document of a parsed file, with the fields the renderer reads. *)
Definition document (colorDepth : Z) (palette : option Palette.t)
    (layers : list Layer.t) (frames : list Frame.t) : AseReader.t :=
  {| AseReader._offset := 0; AseReader._dv := [];
     AseReader.name := "sample.ase";
     AseReader.frames := frames; AseReader.layers := layers;
     AseReader.tags := [];
     AseReader.fileSize := 0;
     AseReader.numFrames := Z.of_nat (length frames);
     AseReader.width := 2; AseReader.height := 1;
     AseReader.colorDepth := colorDepth; AseReader.numColors := 0;
     AseReader.pixelRatio := (1, 1);
     AseReader.palette := palette; AseReader.colorProfile := None |}.

(** A renderer that has loaded [d] and shows frame [currentFrame]. *)
Definition renderer (d : AseReader.t) (currentFrame : Z)
    : AseCanvasRenderer.t :=
  {| AseCanvasRenderer.aseData := Some d;
     AseCanvasRenderer.currentFrame := currentFrame;
     AseCanvasRenderer.lastRenderTime := 0;
     AseCanvasRenderer.isFlipped := false;
     AseCanvasRenderer.layerVisibility := ∅;
     AseCanvasRenderer.ctx := AseCanvasRenderer.Identity;
     AseCanvasRenderer.canvas := [] |}.

Definition layer (flags : Z) : Layer.t :=
  Layer.mk (FlagsNumber flags) 0 0 0 xff (lit "L").

Definition frame (cels : list Cel.t) : Frame.t := Frame.mk 0 100 0 cels.

(** A raw cel at (0, 0) and a linked cel, as [readCelChunk] returns them. *)
Definition rawCel (layerIndex w h : Z) (payload : list Z) : Cel.t :=
  Cel.mk layerIndex 0 0 xff 0 (PixelData w h (Some (bytes payload))).

Definition linkedCel (layerIndex linkedFrame : Z) : Cel.t :=
  Cel.mk layerIndex 0 0 xff 1 (LinkedFrame linkedFrame).

Definition color (r g b a : Z) : Color.t :=
  match bytes [r; g; b; a] with
  | [r; g; b; a] => Color.mk r g b a (lit "none")
  | _ => Color.mk zero_byte zero_byte zero_byte zero_byte (lit "none")
  end.

(** Six colours; number 5 is (10, 20, 30, 255). *)
Definition palette6 : Palette.t :=
  Palette.mk 6 0 5
    [color 0 0 0 0; color 1 1 1 255; color 2 2 2 255; color 3 3 3 255;
     color 4 4 4 255; color 10 20 30 255].

(** An indexed image of 3 by 1 pixels: index 5, index 200 (not in the
    palette), index 1. *)
Definition indexed (palette : option Palette.t) : AseReader.t :=
  document 8 palette [layer 1] [frame [rawCel 0 3 1 [5; 200; 1]]].

(** An empty raw cel in frame 0, and a cel linked to it in frame 1. *)
Definition emptyCel : AseReader.t :=
  document 32 None [layer 1]
    [frame [rawCel 0 0 0 []]; frame [linkedCel 0 0]].

(** Two visible layers with a 1 by 1 cel each. *)
Definition twoLayers : AseReader.t :=
  document 32 None [layer 1; layer 1]
    [frame [rawCel 0 1 1 [1; 2; 3; 4]; rawCel 1 1 1 [5; 6; 7; 8]]].

(** One layer, and a cel that names layer 7. *)
Definition strayCel : AseReader.t :=
  document 32 None [layer 1] [frame [rawCel 7 1 1 [1; 2; 3; 4]]].

(** Frame 0 has a cel on layer 0 and one on layer 1; frame 1 has a cel on
    layer 1 only, linked to frame 0. *)
Definition misaligned : AseReader.t :=
  document 32 None [layer 1; layer 1]
    [frame [rawCel 0 1 1 [1; 2; 3; 4]; rawCel 1 1 1 [5; 6; 7; 8]];
     frame [linkedCel 1 0]].

(** The cel of frame 0 is linked to frame 1 and that of frame 1 to
    frame 0. *)
Definition cyclic : AseReader.t :=
  document 32 None [layer 1]
    [frame [linkedCel 0 1]; frame [linkedCel 0 0]].

(** The cel of frame 1 is linked to frame 0, whose cel is linked to
    frame 5, which does not exist. *)
Definition dangling : AseReader.t :=
  document 32 None [layer 1]
    [frame [linkedCel 0 5]; frame [linkedCel 0 0]].

(** A raw cel, then a cel linked to a cel linked to it. *)
Definition linkedTwice : AseReader.t :=
  document 32 None [layer 1]
    [frame [rawCel 0 1 1 [1; 2; 3; 4]]; frame [linkedCel 0 0];
     frame [linkedCel 0 1]].

(** Two frames with a different 1 by 1 picture each. *)
Definition twoPictures : AseReader.t :=
  document 32 None [layer 1]
    [frame [rawCel 0 1 1 [1; 2; 3; 4]]; frame [rawCel 0 1 1 [5; 6; 7; 8]]].

(** Two frames: a layer and a raw 2 by 1 cel, then a cel linked to it. *)
Definition twoFrames : list byte :=
  bytes (header 2 32
         ++ frameHeader 2 ++ layerChunk
         ++ rawCelChunk 2 1 [1; 2; 3; 4; 5; 6; 7; 8]
         ++ frameHeader 1 ++ linkedCelChunk 0).

(** One frame whose raw cel declares 2 by 1 pixels and carries 5 bytes. *)
Definition truncated : list byte :=
  bytes (header 1 32
         ++ frameHeader 2 ++ layerChunk
         ++ rawCelChunk 2 1 [1; 2; 3; 4; 5]).

(** What [parse] makes of a file (an empty reader if it throws). *)
Definition parsed (file : list byte) : AseReader.t :=
  match AseReader.parse None (AseReader.new file "sample.ase") with
  | Normal (_, r) => r
  | Throw _ => AseReader.new [] "sample.ase"
  end.

(** One frame with a chunk of type 0x2023 (a tileset) and four bytes of
    payload, then a layer chunk. *)
Definition tilesetChunk : list Z :=
  [10; 0; 0; 0] ++ [0x23; 0x20] ++ [0xAA; 0xBB; 0xCC; 0xDD].

Definition withTileset : list byte :=
  bytes (header 1 32 ++ frameHeader 2 ++ tilesetChunk ++ layerChunk).

(** The payload of a palette chunk with two colours, and a colour profile
    chunk of 30 bytes: the 16 bytes that are read and 8 bytes of an
    embedded profile. *)
Definition palettePayload : list byte :=
  bytes ([2; 0; 0; 0] ++ [0; 0; 0; 0] ++ [1; 0; 0; 0] ++ zeros 8
         ++ [0; 0; 10; 20; 30; 255] ++ [0; 0; 40; 50; 60; 255]).

Definition profileChunk : list byte :=
  bytes ([30; 0; 0; 0] ++ [0x07; 0x20] ++ [2; 0] ++ [0; 0] ++ zeros 4
         ++ zeros 8 ++ [4; 0; 0; 0; 9; 9; 9; 9]).

(** A tag, and the payload of a frame tags chunk with two tags named "a"
    and "b", the second with direction byte 7. *)
Definition tag : Tag.t :=
  Tag.mk 0 0 (Some (lit "Forward")) (bytes [0; 0; 0]) (lit "t").

Definition tagsPayload : list byte :=
  bytes ([2; 0] ++ zeros 8
         ++ [0; 0] ++ [1; 0] ++ [1] ++ zeros 8 ++ [9; 9; 9] ++ [0]
         ++ [1; 0; 97]
         ++ [1; 0] ++ [1; 0] ++ [7] ++ zeros 8 ++ [9; 9; 9] ++ [0]
         ++ [1; 0; 98]).

End Sample.

(** * Properties *)

(** ** Loops over image data *)

Section ImageData.
Import AseCanvasRenderer.

Lemma for_loop_S {S} (n : nat) (body : nat -> S -> S) (s : S) :
  for_loop (Datatypes.S n) body s = body n (for_loop n body s).
Proof.
  unfold for_loop. rewrite seq_S, foldl_app. reflexivity.
Qed.

Lemma rd_lookup (raw : list byte) (i : nat) (b : byte) :
  raw !! i = Some b -> rd raw i = b.
Proof. unfold rd. intros ->. reflexivity. Qed.

(** The copy loop of the 32-bit branch, after [n] turns. *)
Lemma copy_loop (raw : list byte) (n : nat) (data : list byte) :
  (n <= length raw)%nat -> (n <= length data)%nat ->
  for_loop n (fun i d => <[i := rd raw i]> d) data
  = take n raw ++ drop n data.
Proof.
  induction n as [|n IH]; intros Hr Hd.
  - reflexivity.
  - rewrite for_loop_S, IH by lia.
    destruct (lookup_lt_is_Some_2 raw n) as [b Hb]; [lia|].
    destruct (lookup_lt_is_Some_2 data n) as [x Hx]; [lia|].
    rewrite (rd_lookup _ _ _ Hb), (take_S_r _ _ _ Hb).
    rewrite (drop_S _ _ _ Hx), <- app_assoc. simpl.
    rewrite insert_app_r_alt; rewrite length_take; [|lia].
    replace (n - n `min` length raw)%nat with 0%nat by lia.
    reflexivity.
Qed.

Lemma decode32_closed (w h : Z) (raw : list byte) :
  decode32 w h raw (createImageData w h)
  = take (Z.to_nat (w * h * 4)) raw
    ++ replicate (Z.to_nat (w * h * 4) - length raw) zero_byte.
Proof.
  unfold decode32, createImageData.
  set (E := Z.to_nat (w * h * 4)).
  destruct (Z.leb_spec (w * h * 4) (Z.of_nat (length raw))) as [Hle|Hlt].
  - rewrite copy_loop; rewrite ?length_replicate; try lia.
    rewrite drop_replicate.
    replace (E - E)%nat with 0%nat by lia.
    replace (E - length raw)%nat with 0%nat by lia.
    reflexivity.
  - replace (Z.to_nat (Z.min (w * h * 4) (Z.of_nat (length raw))))
      with (length raw) by lia.
    rewrite copy_loop; rewrite ?length_replicate; try lia.
    rewrite drop_replicate, firstn_all, take_ge by lia.
    reflexivity.
Qed.

(** Four stores at [k .. k+3] into a buffer whose first [k] bytes are
    [pre]. *)
Lemma write_pixel (pre rest : list byte) (k : nat)
    (x0 x1 x2 x3 a b c d : byte) :
  length pre = k ->
  <[(k + 3)%nat := d]>
    (<[(k + 2)%nat := c]>
       (<[(k + 1)%nat := b]>
          (<[k := a]> (pre ++ x0 :: x1 :: x2 :: x3 :: rest))))
  = pre ++ a :: b :: c :: d :: rest.
Proof.
  intros <-.
  replace (<[length pre := a]> (pre ++ x0 :: x1 :: x2 :: x3 :: rest))
    with (pre ++ a :: x1 :: x2 :: x3 :: rest)
    by (rewrite <- (Nat.add_0_r (length pre)) at 1;
        rewrite insert_app_r; reflexivity).
  rewrite !insert_app_r. reflexivity.
Qed.

Lemma indexedPixel_length palette raw i :
  length (Spec.indexedPixel palette raw i) = 4%nat.
Proof.
  unfold Spec.indexedPixel.
  repeat (case_match; try reflexivity).
Qed.

Lemma flat_map_seq_S {A} (f : nat -> list A) (n : nat) :
  flat_map f (seq 0 (S n)) = flat_map f (seq 0 n) ++ f n.
Proof.
  rewrite seq_S, flat_map_app. simpl. rewrite app_nil_r. reflexivity.
Qed.

Lemma flat_map_pixels_length (f : nat -> list byte) (n : nat) :
  (forall i, length (f i) = 4%nat) ->
  length (flat_map f (seq 0 n)) = (n * 4)%nat.
Proof.
  intros Hf. induction n as [|n IH]; [reflexivity|].
  rewrite flat_map_seq_S, length_app, IH, Hf. lia.
Qed.

(** The loop of the indexed branch after [n] of [N] pixels. *)
Lemma decode8_loop palette (raw : list byte) (N n : nat) :
  (n <= N)%nat ->
  for_loop n
    (fun i data =>
       if (i <? length raw)%nat then
         let paletteIndex := byteZ (rd raw i) in
         let pixelIndex := (i * 4)%nat in
         let color :=
           match palette with
           | Some p => Palette.colors p !!! paletteIndex
           | None => None
           end in
         match color with
         | Some color =>
             <[(pixelIndex + 3)%nat := Color.alpha color]>
               (<[(pixelIndex + 2)%nat := Color.blue color]>
                  (<[(pixelIndex + 1)%nat := Color.green color]>
                     (<[pixelIndex := Color.red color]> data)))
         | None =>
             <[(pixelIndex + 3)%nat := zero_byte]>
               (<[(pixelIndex + 2)%nat := zero_byte]>
                  (<[(pixelIndex + 1)%nat := zero_byte]>
                     (<[pixelIndex := zero_byte]> data)))
         end
       else data)
    (replicate (N * 4) zero_byte)
  = flat_map (Spec.indexedPixel palette raw) (seq 0 n)
    ++ replicate ((N - n) * 4) zero_byte.
Proof.
  induction n as [|n IH]; intros Hn.
  - simpl. rewrite Nat.sub_0_r. reflexivity.
  - rewrite for_loop_S, IH by lia. clear IH.
    rewrite flat_map_seq_S, <- app_assoc.
    set (pre := flat_map (Spec.indexedPixel palette raw) (seq 0 n)).
    assert (Hpre : length pre = (n * 4)%nat)
      by (apply flat_map_pixels_length, indexedPixel_length).
    replace ((N - n) * 4)%nat with (4 + (N - S n) * 4)%nat by lia.
    cbn [replicate Nat.add].
    f_equal.
    unfold Spec.indexedPixel.
    destruct (Nat.ltb_spec n (length raw)) as [Hlt|Hge].
    + destruct (lookup_lt_is_Some_2 raw n Hlt) as [b Hb].
      rewrite (rd_lookup _ _ _ Hb), Hb. cbv zeta.
      destruct palette as [p|];
        [destruct (Palette.colors p !!! byteZ b) as [color|]|];
        rewrite (write_pixel pre _ (n * 4)) by exact Hpre;
        reflexivity.
    + rewrite (lookup_ge_None_2 raw n) by lia. reflexivity.
Qed.

Lemma decode8_closed palette (w h : Z) (raw : list byte) :
  decode8 palette w h raw (createImageData w h)
  = flat_map (Spec.indexedPixel palette raw) (seq 0 (Z.to_nat (w * h))).
Proof.
  unfold decode8, createImageData.
  replace (Z.to_nat (w * h * 4)) with (Z.to_nat (w * h) * 4)%nat by lia.
  rewrite (decode8_loop palette raw _ _ (Nat.le_refl _)).
  rewrite Nat.sub_diag. simpl. apply app_nil_r.
Qed.

End ImageData.

(** ** Painting one cel *)

Section WriteCel.
Import AseCanvasRenderer.

Lemma noData_false (raw : list byte) :
  raw <> [] -> noData (Some raw) = false.
Proof.
  intros Hraw. unfold noData. destruct raw; [congruence|].
  simpl length. apply Z.eqb_neq. lia.
Qed.

Lemma badSize_false (v : Z) : 0 < v -> badSize (Some v) = false.
Proof.
  intros Hv. unfold badSize.
  apply orb_false_intro; [apply Z.eqb_neq | apply Z.leb_gt]; lia.
Qed.

(** Past its two guards, [writeCel] draws one block: the decoded cel, at
    the position of the cel. *)
Lemma paintCel_decodes d c cel this (w h : Z) (raw : list byte) :
  cd_w cel = Some w -> cd_h cel = Some h -> cd_rawCelData cel = Some raw ->
  0 < w -> 0 < h -> raw <> [] ->
  paintCel d c cel this
  = with_canvas
      (canvas this
       ++ [mkDraw (ctx this) w h
             (decode (depthOr32 (AseReader.colorDepth d))
                     (AseReader.palette d) w h raw)
             (Cel.xpos c) (Cel.ypos c)])
      this.
Proof.
  intros Hw Hh Hraw Hwpos Hhpos Hne. unfold paintCel.
  rewrite Hw, Hh, Hraw, (noData_false _ Hne).
  rewrite (badSize_false _ Hwpos), (badSize_false _ Hhpos).
  reflexivity.
Qed.

(** A cel with its own pixels is painted from them, whatever the fuel. *)
Lemma writeCel_own fuel numCel this d c :
  aseData this = Some d ->
  frameCel d (Some (currentFrame this)) numCel = Normal (Some c) ->
  Cel.celType c <> 1 ->
  writeCel fuel numCel this = Done (paintCel d c (celDataOf c) this).
Proof.
  intros Hd Hc Hty. unfold writeCel, resolveCel.
  rewrite Hd, Hc. apply Z.eqb_neq in Hty. rewrite Hty. reflexivity.
Qed.

Lemma writeCel_resolved fuel numCel this d c cel :
  aseData this = Some d ->
  frameCel d (Some (currentFrame this)) numCel = Normal (Some c) ->
  resolveCel d fuel numCel c = Some (Normal cel) ->
  writeCel fuel numCel this = Done (paintCel d c cel this).
Proof.
  intros Hd Hc Hr. unfold writeCel. rewrite Hd, Hc, Hr. reflexivity.
Qed.

Lemma resolveCel_own d fuel numCel c :
  Cel.celType c <> 1 ->
  resolveCel d fuel numCel c = Some (Normal (celDataOf c)).
Proof.
  intros Hty. unfold resolveCel. apply Z.eqb_neq in Hty.
  rewrite Hty. reflexivity.
Qed.

End WriteCel.

(** ** Indexed colour *)

(** C6. At colour depth 8, a cel that resolves to [w] by [h] pixels with a
    payload is painted without an error, and pixel [i] of the block is the
    palette colour whose index is byte [i] of the payload, as (red, green,
    blue, alpha); it is transparent black when the palette is missing or
    has no entry at that index. *)
Theorem C6_indexed_pixels fuel numCel this d c cel (w h : Z)
    (raw : list byte) :
  AseCanvasRenderer.aseData this = Some d ->
  AseReader.colorDepth d = 8 ->
  AseCanvasRenderer.frameCel d
    (Some (AseCanvasRenderer.currentFrame this)) numCel = Normal (Some c) ->
  AseCanvasRenderer.resolveCel d fuel numCel c = Some (Normal cel) ->
  AseCanvasRenderer.cd_w cel = Some w ->
  AseCanvasRenderer.cd_h cel = Some h ->
  AseCanvasRenderer.cd_rawCelData cel = Some raw ->
  0 < w -> 0 < h -> raw <> [] ->
  AseCanvasRenderer.writeCel fuel numCel this
  = AseCanvasRenderer.Done
      (AseCanvasRenderer.with_canvas
         (AseCanvasRenderer.canvas this
          ++ [AseCanvasRenderer.mkDraw (AseCanvasRenderer.ctx this) w h
                (flat_map (Spec.indexedPixel (AseReader.palette d) raw)
                          (seq 0 (Z.to_nat (w * h))))
                (Cel.xpos c) (Cel.ypos c)])
         this).
Proof.
  intros Hd Hdepth Hc Hr Hw Hh Hraw Hwpos Hhpos Hne.
  rewrite (writeCel_resolved _ _ _ _ _ _ Hd Hc Hr).
  rewrite (paintCel_decodes _ _ _ _ _ _ _ Hw Hh Hraw Hwpos Hhpos Hne).
  rewrite Hdepth. unfold AseCanvasRenderer.decode. simpl.
  rewrite decode8_closed. reflexivity.
Qed.

(** Index 5 is (10, 20, 30, 255); index 200 is not in the palette. *)
Lemma C6_indexed_pixels_witness :
  AseCanvasRenderer.writeCel 0 0
    (Sample.renderer (Sample.indexed (Some Sample.palette6)) 0)
  = AseCanvasRenderer.Done
      (AseCanvasRenderer.with_canvas
         [AseCanvasRenderer.mkDraw AseCanvasRenderer.Identity 3 1
            (Sample.bytes [10; 20; 30; 255; 0; 0; 0; 0; 1; 1; 1; 255]) 0 0]
         (Sample.renderer (Sample.indexed (Some Sample.palette6)) 0)).
Proof.
  exact (C6_indexed_pixels 0 0
           (Sample.renderer (Sample.indexed (Some Sample.palette6)) 0)
           (Sample.indexed (Some Sample.palette6))
           (Sample.rawCel 0 3 1 [5; 200; 1])
           (AseCanvasRenderer.celDataOf (Sample.rawCel 0 3 1 [5; 200; 1]))
           3 1 (Sample.bytes [5; 200; 1])
           eq_refl eq_refl eq_refl eq_refl eq_refl eq_refl eq_refl
           eq_refl eq_refl ltac:(discriminate)).
Defined.

(** Without a palette every pixel is transparent black. *)
Example indexed_without_palette :
  AseCanvasRenderer.writeCel 0 0 (Sample.renderer (Sample.indexed None) 0)
  = AseCanvasRenderer.Done
      (AseCanvasRenderer.with_canvas
         [AseCanvasRenderer.mkDraw AseCanvasRenderer.Identity 3 1
            (Sample.bytes [0; 0; 0; 0; 0; 0; 0; 0; 0; 0; 0; 0]) 0 0]
         (Sample.renderer (Sample.indexed None) 0)).
Proof. reflexivity. Qed.

(** ** Reasoning about the reader *)

Section Reader.
Import AseReader.

Lemma bind_Normal {A B} (m : M A) (k : A -> M B) r b r'' :
  bind m k r = Normal (b, r'') ->
  exists a r', m r = Normal (a, r') /\ k a r' = Normal (b, r'').
Proof.
  unfold bind. destruct (m r) as [[a r']|e]; [eauto | discriminate].
Qed.

Lemma readNext_Normal {A} (getter : list byte -> Z -> completion A)
    size r v r' :
  readNext getter size r = Normal (v, r') ->
  getter (_dv r) (_offset r) = Normal v
  /\ r' = with_offset (_offset r + size) r.
Proof.
  unfold readNext. destruct (getter _ _); [|discriminate].
  intros [= -> <-]. split; reflexivity.
Qed.

Lemma readNext_eq {A} (getter : list byte -> Z -> completion A)
    size r v :
  getter (_dv r) (_offset r) = Normal v ->
  readNext getter size r = Normal (v, with_offset (_offset r + size) r).
Proof. unfold readNext. intros ->. reflexivity. Qed.

(** *** What a computation leaves untouched *)

Lemma keeps_refl r : keeps r r.
Proof. split; reflexivity. Qed.

Lemma keeps_trans r1 r2 r3 : keeps r1 r2 -> keeps r2 r3 -> keeps r1 r3.
Proof. intros [? ?] [? ?]. split; congruence. Qed.

Lemma keeping_ret {A} (a : A) : keeping (ret a).
Proof. intros r a' r' [= _ <-]. apply keeps_refl. Qed.

Lemma keeping_throw {A} e : keeping (@throw A e).
Proof. intros r a r' [=]. Qed.

Lemma keeping_bind {A B} (m : M A) (k : A -> M B) :
  keeping m -> (forall a, keeping (k a)) -> keeping (bind m k).
Proof.
  intros Hm Hk r b r'' H.
  destruct (bind_Normal _ _ _ _ _ H) as (a & r' & H1 & H2).
  eapply keeps_trans; [eapply Hm | eapply Hk]; eassumption.
Qed.

Lemma keeping_readNext {A} (getter : list byte -> Z -> completion A) size :
  keeping (readNext getter size).
Proof.
  intros r v r' H. apply readNext_Normal in H as [_ ->].
  split; reflexivity.
Qed.

Lemma keeping_modify (f : t -> t) :
  (forall r, keeps r (f r)) -> keeping (modify f).
Proof. intros Hf r [] r' [= <-]. apply Hf. Qed.

Lemma keeping_skipBytes n : keeping (skipBytes n).
Proof. apply keeping_modify. intros r. split; reflexivity. Qed.

Lemma keeping_if {A} (b : bool) (m1 m2 : M A) :
  keeping m1 -> keeping m2 -> keeping (if b then m1 else m2).
Proof. destruct b; auto. Qed.

Create HintDb keeping.

Hint Resolve keeping_ret keeping_throw keeping_skipBytes
  keeping_if : keeping.
Hint Extern 1 (keeping readNextByte) => apply keeping_readNext : keeping.
Hint Extern 1 (keeping readNextWord) => apply keeping_readNext : keeping.
Hint Extern 1 (keeping readNextShort) => apply keeping_readNext : keeping.
Hint Extern 1 (keeping readNextDWord) => apply keeping_readNext : keeping.
Hint Extern 1 (keeping readNextFixed) => apply keeping_readNext : keeping.
Hint Extern 2 (keeping (modify _)) =>
  apply keeping_modify; intros ?; split; reflexivity : keeping.
Hint Extern 3 (keeping (bind _ _)) =>
  apply keeping_bind; [|intros ?] : keeping.

Ltac keeping := auto 30 with keeping.

Lemma keeping_readBytesLoop n : keeping (readBytesLoop n).
Proof. induction n; simpl; keeping. Qed.
Hint Resolve keeping_readBytesLoop : keeping.

Lemma keeping_readNextRawBytes n : keeping (readNextRawBytes n).
Proof. unfold readNextRawBytes. keeping. Qed.
Hint Resolve keeping_readNextRawBytes : keeping.

Lemma keeping_readNextString : keeping readNextString.
Proof. unfold readNextString, readNextBytes. keeping. Qed.
Hint Resolve keeping_readNextString : keeping.

Lemma keeping_readChunk : keeping readChunk.
Proof. unfold readChunk. keeping. Qed.

Lemma keeping_readColorProfileChunk : keeping readColorProfileChunk.
Proof. unfold readColorProfileChunk. keeping. Qed.

Lemma keeping_readPaletteLoop n colors : keeping (readPaletteLoop n colors).
Proof. revert colors. induction n; intros colors; simpl; keeping. Qed.
Hint Resolve keeping_readPaletteLoop : keeping.

Lemma keeping_readPaletteChunk : keeping readPaletteChunk.
Proof. unfold readPaletteChunk. keeping. Qed.

Lemma keeping_readLayerChunk : keeping readLayerChunk.
Proof. unfold readLayerChunk. keeping. Qed.

Lemma keeping_readFrameTagsLoop n : keeping (readFrameTagsLoop n).
Proof. induction n; simpl; keeping. Qed.
Hint Resolve keeping_readFrameTagsLoop : keeping.

Lemma keeping_readFrameTagsChunk : keeping readFrameTagsChunk.
Proof. unfold readFrameTagsChunk. keeping. Qed.

Lemma keeping_readCelChunk pako chunkSize :
  keeping (readCelChunk pako chunkSize).
Proof. unfold readCelChunk. keeping. Qed.

Hint Resolve keeping_readChunk keeping_readColorProfileChunk
  keeping_readPaletteChunk keeping_readLayerChunk
  keeping_readFrameTagsChunk keeping_readCelChunk : keeping.

Lemma keeping_readFrameChunk pako cels : keeping (readFrameChunk pako cels).
Proof.
  unfold readFrameChunk.
  apply keeping_bind; [keeping|]. intros [chunkSize type]. keeping.
Qed.
Hint Resolve keeping_readFrameChunk : keeping.

Lemma keeping_readFrameLoop pako n cels :
  keeping (readFrameLoop pako n cels).
Proof. revert cels. induction n; intros cels; simpl; keeping. Qed.

Lemma keeping_apply {A} (m : M A) r a r' :
  keeping m -> m r = Normal (a, r') -> keeps r r'.
Proof. intros Hm. apply Hm. Qed.

Ltac step H r' K :=
  let a := fresh "a" in
  let H1 := fresh "H" in
  apply bind_Normal in H as (a & r' & H1 & H);
  match type of H1 with
  | ?m ?r0 = _ =>
      assert (K : keeps r0 r')
        by (eapply (keeping_apply m); [keeping | exact H1])
  end.

(** [readFrame] appends one frame. *)
Lemma readFrame_pushes pako r u r' :
  readFrame pako r = Normal (u, r') ->
  (exists fr, frames r' = frames r ++ [fr])
  /\ numFrames r' = numFrames r.
Proof.
  intros H. unfold readFrame in H.
  step H r1 K1. step H r2 K2. step H r3 K3. step H r4 K4.
  step H r5 K5. step H r6 K6.
  apply bind_Normal in H as (cels & r7 & H7 & H).
  pose proof (keeping_readFrameLoop _ _ _ _ _ _ H7) as K7.
  injection H as H. subst r'.
  assert (K : keeps r r7) by eauto 10 using keeps_trans.
  destruct K as [Kf Kn]. simpl. rewrite Kf. eauto.
Qed.

Lemma parseLoop_length pako n r u r' :
  parseLoop pako n r = Normal (u, r') ->
  length (frames r') = (length (frames r) + n)%nat
  /\ numFrames r' = numFrames r.
Proof.
  revert r. induction n as [|n IH]; intros r H.
  - injection H as H. subst r'. split; [lia | reflexivity].
  - simpl in H. apply bind_Normal in H as (a & r1 & H1 & H).
    apply readFrame_pushes in H1 as [[fr Hfr] Hn].
    apply IH in H as [Hlen Hn'].
    rewrite Hlen, Hfr, length_app. simpl. split; [lia | congruence].
Qed.

Lemma getUint16_range dv o v :
  DataView.getUint16 dv o = Normal v -> 0 <= v < 65536.
Proof.
  unfold DataView.getUint16.
  destruct (dv !!! o) as [b0|]; [|discriminate].
  destruct (dv !!! (o + 1)) as [b1|]; [|discriminate].
  intros [= <-]. unfold byteZ.
  pose proof (Byte.to_N_bounded b0). pose proof (Byte.to_N_bounded b1).
  lia.
Qed.

(** [readHeader] returns the word at offset 6 of the file, keeps it in
    [numFrames], and leaves [frames] alone. *)
Lemma readHeader_numFrames arrayBuffer name nf r' :
  readHeader (new arrayBuffer name) = Normal (nf, r') ->
  DataView.getUint16 arrayBuffer 6 = Normal nf
  /\ numFrames r' = nf /\ frames r' = [].
Proof.
  intros H. unfold readHeader in H.
  apply bind_Normal in H as (fileSize & r1 & H1 & H).
  apply readNext_Normal in H1 as [_ ->].
  apply bind_Normal in H as (magic & r2 & H2 & H).
  apply readNext_Normal in H2 as [_ ->].
  apply bind_Normal in H as (nf' & r3 & H3 & H).
  apply readNext_Normal in H3 as [Hnf ->].
  step H r4 K4. step H r5 K5. step H r6 K6. step H r7 K7.
  step H r8 K8. step H r9 K9. step H r10 K10.
  apply bind_Normal in H as (u & r11 & H11 & H).
  injection H11 as H11. subst r11.
  apply bind_Normal in H as (u' & r12 & H12 & H).
  injection H12 as H12. subst r12. injection H as Hv Hr. subst nf r'.
  split; [exact Hnf|].
  assert (K : keeps (with_offset 6 (new arrayBuffer name)) r10)
    by eauto 10 using keeps_trans.
  destruct K as [Kf _]. simpl. split; [reflexivity | exact Kf].
Qed.

(** *** Reads that lie within the buffer *)

Lemma js_index_within {A} (l : list A) (i : Z) :
  0 <= i < Z.of_nat (length l) -> exists x, l !!! i = Some x.
Proof.
  intros Hi. unfold js_index.
  destruct (Z.ltb_spec i 0) as [?|_]; [lia|].
  apply lookup_lt_is_Some_2. lia.
Qed.

Lemma getUint8_within dv o :
  0 <= o -> o + 1 <= Z.of_nat (length dv) ->
  exists v, DataView.getUint8 dv o = Normal v.
Proof.
  intros H0 H1. unfold DataView.getUint8.
  destruct (js_index_within dv o) as [b ->]; [lia|]. eauto.
Qed.

Lemma getUint16_within dv o :
  0 <= o -> o + 2 <= Z.of_nat (length dv) ->
  exists v, DataView.getUint16 dv o = Normal v.
Proof.
  intros H0 H1. unfold DataView.getUint16.
  destruct (js_index_within dv o) as [b0 ->]; [lia|].
  destruct (js_index_within dv (o + 1)) as [b1 ->]; [lia|]. eauto.
Qed.

Lemma getInt16_within dv o :
  0 <= o -> o + 2 <= Z.of_nat (length dv) ->
  exists v, DataView.getInt16 dv o = Normal v.
Proof.
  intros H0 H1. unfold DataView.getInt16.
  destruct (getUint16_within dv o H0 H1) as [v ->]. eauto.
Qed.

Lemma bind_eq {A B} (m : M A) (k : A -> M B) r a r' :
  m r = Normal (a, r') -> bind m k r = k a r'.
Proof. unfold bind. intros ->. reflexivity. Qed.

(** The byte loop, within the buffer: the next [n] bytes. *)
Lemma readBytesLoop_within n o r :
  0 <= o -> o + Z.of_nat n <= Z.of_nat (length (_dv r)) ->
  readBytesLoop n (with_offset o r)
  = Normal (take n (drop (Z.to_nat o) (_dv r)),
            with_offset (o + Z.of_nat n) r).
Proof.
  revert o. induction n as [|n IH]; intros o H0 H1.
  - simpl. rewrite Z.add_0_r. reflexivity.
  - cbn [readBytesLoop]. unfold readNextByte.
    destruct (getUint8_within (_dv r) o) as [b Hb]; [lia..|].
    rewrite (bind_eq _ _ _ b (with_offset (o + 1) r))
      by (apply (readNext_eq DataView.getUint8 1 (with_offset o r));
          exact Hb).
    rewrite (bind_eq _ _ _ _ _ (IH (o + 1) ltac:(lia) ltac:(lia))).
    unfold ret. f_equal. f_equal.
    + unfold DataView.getUint8, js_index in Hb.
      destruct (Z.ltb_spec o 0) as [?|_]; [lia|].
      destruct (_dv r !! Z.to_nat o) as [b'|] eqn:Hl; [|discriminate].
      injection Hb as ->.
      rewrite (drop_S _ _ _ Hl). simpl.
      replace (Z.to_nat (o + 1)) with (S (Z.to_nat o)) by lia.
      reflexivity.
    + f_equal. lia.
Qed.

(** [readCelChunk] on a cel that is not linked: the chunk is read whenever
    its [chunkSize - 6] bytes are there, with the width and the height as
    the file has them. Nothing compares them with the payload. *)
Lemma readCelChunk_within pako chunkSize o r celType :
  0 <= o -> 26 <= chunkSize ->
  o + (chunkSize - 6) <= Z.of_nat (length (_dv r)) ->
  DataView.getUint16 (_dv r) (o + 7) = Normal celType -> celType <> 1 ->
  exists c w h,
    readCelChunk pako chunkSize (with_offset o r)
    = Normal (c, with_offset (o + (chunkSize - 6)) r)
    /\ DataView.getUint16 (_dv r) (o + 16) = Normal w
    /\ DataView.getUint16 (_dv r) (o + 18) = Normal h
    /\ Cel.celType c = celType
    /\ Cel.w c = Some w /\ Cel.h c = Some h
    /\ (celType = 0 ->
         Cel.rawCelData c
         = Some (take (Z.to_nat (chunkSize - 26))
                      (drop (Z.to_nat (o + 20)) (_dv r)))).
Proof.
  intros H0 Hsz Hlen Hty Hne.
  destruct (getUint16_within (_dv r) o) as [layerIndex H1]; [lia..|].
  destruct (getInt16_within (_dv r) (o + 2)) as [x H2]; [lia..|].
  destruct (getInt16_within (_dv r) (o + 2 + 2)) as [y H3]; [lia..|].
  destruct (getUint8_within (_dv r) (o + 2 + 2 + 2)) as [opacity H4];
    [lia..|].
  replace (o + 7) with (o + 2 + 2 + 2 + 1) in Hty by lia.
  destruct (getUint16_within (_dv r) (o + 2 + 2 + 2 + 1 + 2 + 7))
    as [w H6]; [lia..|].
  destruct (getUint16_within (_dv r) (o + 2 + 2 + 2 + 1 + 2 + 7 + 2))
    as [h H7]; [lia..|].
  exists (Cel.mk layerIndex x y opacity celType
            (PixelData w h
               (if celType =? 2 then
                  match pako with
                  | Some inflate =>
                      match inflate (take (Z.to_nat (chunkSize - 26))
                               (drop (Z.to_nat (o + 20)) (_dv r))) with
                      | Some inflated => Some inflated
                      | None => Some (take (Z.to_nat (chunkSize - 26))
                                        (drop (Z.to_nat (o + 20)) (_dv r)))
                      end
                  | None => Some (take (Z.to_nat (chunkSize - 26))
                                    (drop (Z.to_nat (o + 20)) (_dv r)))
                  end
                else if celType =? 0
                     then Some (take (Z.to_nat (chunkSize - 26))
                                  (drop (Z.to_nat (o + 20)) (_dv r)))
                     else None))), w, h.
  split; [|repeat split].
  - unfold readCelChunk, readNextWord, readNextShort, readNextByte.
    rewrite (bind_eq _ _ _ _ _
               (readNext_eq DataView.getUint16 2 (with_offset o r) _ H1)).
    cbn [_offset with_offset].
    rewrite (bind_eq _ _ _ _ _
               (readNext_eq DataView.getInt16 2
                  (with_offset (o + 2) r) _ H2)).
    cbn [_offset with_offset].
    rewrite (bind_eq _ _ _ _ _
               (readNext_eq DataView.getInt16 2
                  (with_offset (o + 2 + 2) r) _ H3)).
    cbn [_offset with_offset].
    rewrite (bind_eq _ _ _ _ _
               (readNext_eq DataView.getUint8 1
                  (with_offset (o + 2 + 2 + 2) r) _ H4)).
    cbn [_offset with_offset].
    rewrite (bind_eq _ _ _ _ _
               (readNext_eq DataView.getUint16 2
                  (with_offset (o + 2 + 2 + 2 + 1) r) _ Hty)).
    cbn [_offset with_offset].
    unfold skipBytes at 1, modify at 1, bind at 1.
    cbn [_offset with_offset].
    apply Z.eqb_neq in Hne. rewrite Hne. cbn [negb].
    rewrite (bind_eq _ _ _ _ _
               (readNext_eq DataView.getUint16 2
                  (with_offset (o + 2 + 2 + 2 + 1 + 2 + 7) r) _ H6)).
    cbn [_offset with_offset].
    rewrite (bind_eq _ _ _ _ _
               (readNext_eq DataView.getUint16 2
                  (with_offset (o + 2 + 2 + 2 + 1 + 2 + 7 + 2) r) _ H7)).
    cbn [_offset with_offset].
    unfold readNextRawBytes.
    destruct (Z.ltb_spec (chunkSize - 26) 0) as [?|_]; [lia|].
    rewrite (bind_eq _ _ _ _ _
               (readBytesLoop_within (Z.to_nat (chunkSize - 26))
                  (o + 2 + 2 + 2 + 1 + 2 + 7 + 2 + 2) r
                  ltac:(lia) ltac:(lia))).
    unfold ret.
    replace (Z.to_nat (o + 2 + 2 + 2 + 1 + 2 + 7 + 2 + 2))
      with (Z.to_nat (o + 20)) by lia.
    replace (o + 2 + 2 + 2 + 1 + 2 + 7 + 2 + 2
             + Z.of_nat (Z.to_nat (chunkSize - 26)))
      with (o + (chunkSize - 6)) by lia.
    reflexivity.
  - rewrite <- H6. f_equal. lia.
  - rewrite <- H7. f_equal. lia.
  - intros ->. reflexivity.
Qed.

End Reader.

(** ** Chunks that are not decoded *)

(** A chunk of one of the seven types that the [switch] lists for skipping
    is skipped by its declared size: the cursor ends [chunkSize] bytes
    after the start of the chunk. *)
Lemma readFrameChunk_skips pako cels r chunkSize type r1 :
  AseReader.readChunk r = Normal ((chunkSize, type), r1) ->
  AseReader.skipped_type type = true ->
  exists r2,
    AseReader.readFrameChunk pako cels r = Normal (cels, r2)
    /\ AseReader._offset r2 = AseReader._offset r + chunkSize.
Proof.
  intros Hc Hs. unfold AseReader.readFrameChunk.
  rewrite (bind_eq _ _ _ _ _ Hc), Hs.
  eexists. split; [reflexivity|].
  unfold AseReader.readChunk in Hc.
  apply bind_Normal in Hc as (a & r' & H1 & Hc).
  apply readNext_Normal in H1 as [_ ->].
  apply bind_Normal in Hc as (b & r'' & H2 & Hc).
  apply readNext_Normal in H2 as [_ ->].
  injection Hc as _ _ <-. simpl. lia.
Qed.

(** C3, at the code. A chunk whose type is neither decoded nor one of the
    seven that the [switch] lists falls through the [switch]: the turn of
    the chunk loop completes without an error, but the cursor is left 6 bytes
    after the start of the chunk, at the first byte of its payload, and not
    [chunkSize] bytes after it. *)
Theorem C3_unlisted_chunk_not_skipped pako cels r chunkSize type r1 :
  AseReader.readChunk r = Normal ((chunkSize, type), r1) ->
  Spec.consumed_type type = false ->
  AseReader.skipped_type type = false ->
  AseReader.readFrameChunk pako cels r = Normal (cels, r1)
  /\ AseReader._offset r1 = AseReader._offset r + 6.
Proof.
  intros Hc Hn Hs. unfold AseReader.readFrameChunk.
  rewrite (bind_eq _ _ _ _ _ Hc), Hs.
  unfold Spec.consumed_type in Hn.
  repeat (apply orb_false_elim in Hn as [Hn ?]).
  repeat match goal with H : (_ =? _) = false |- _ => rewrite H; clear H end.
  split; [reflexivity|].
  unfold AseReader.readChunk in Hc.
  apply bind_Normal in Hc as (a & r' & H1 & Hc).
  apply readNext_Normal in H1 as [_ ->].
  apply bind_Normal in Hc as (b & r'' & H2 & Hc).
  apply readNext_Normal in H2 as [_ ->].
  injection Hc as _ _ <-. simpl. lia.
Qed.

(** A tileset chunk (type 0x2023) of 10 bytes at offset 144: the cursor ends
    at 150, where the four bytes of payload start, and not at 154. *)
Lemma C3_unlisted_chunk_not_skipped_witness :
  let r := AseReader.with_offset 144
             (AseReader.new Sample.withTileset "tileset.ase") in
  let r1 := AseReader.with_offset 150 r in
  AseReader.readChunk r = Normal ((10, 0x2023), r1)
  /\ AseReader.readFrameChunk None [] r = Normal ([], r1)
  /\ AseReader._offset r1 = 144 + 6.
Proof.
  intros r r1.
  assert (Hc : AseReader.readChunk r = Normal ((10, 0x2023), r1))
    by (vm_compute; reflexivity).
  split; [exact Hc|].
  exact (C3_unlisted_chunk_not_skipped None [] r 10 0x2023 r1 Hc
           eq_refl eq_refl).
Defined.

(** What follows from it on that file: the payload is read as the next
    chunk header, and the layer chunk behind it is never read. *)
Example tileset_hides_layer :
  exists r,
    AseReader.parse None (AseReader.new Sample.withTileset "tileset.ase")
    = Normal (tt, r)
    /\ AseReader.layers r = [] /\ AseReader._offset r = 156.
Proof. eexists. split; [vm_compute; reflexivity | split; reflexivity]. Qed.

(** ** The frame list after [parse] *)

(** C5. When [parse] completes on a file, the [frames] list has as many
    entries as the frame count that [readHeader] read, which is the 16-bit
    word at offset 6 of the file and is kept in [numFrames]. *)
Theorem C5_frames_length pako (arrayBuffer : list byte) name u r :
  AseReader.parse pako (AseReader.new arrayBuffer name) = Normal (u, r) ->
  DataView.getUint16 arrayBuffer 6
  = Normal (Z.of_nat (length (AseReader.frames r)))
  /\ AseReader.numFrames r = Z.of_nat (length (AseReader.frames r)).
Proof.
  intros H. unfold AseReader.parse in H.
  apply bind_Normal in H as (nf & r1 & Hh & H).
  pose proof (readHeader_numFrames _ _ _ _ Hh) as (Hw & Hn & Hf).
  apply parseLoop_length in H as [Hlen Hn'].
  pose proof (getUint16_range _ _ _ Hw) as Hr.
  rewrite Hf in Hlen. simpl in Hlen.
  rewrite Hlen, Hn', Hn, Z2Nat.id by lia.
  split; [exact Hw | reflexivity].
Qed.

Lemma C5_frames_length_witness :
  exists r,
    AseReader.parse None (AseReader.new Sample.twoFrames "two.ase")
    = Normal (tt, r)
    /\ DataView.getUint16 Sample.twoFrames 6 = Normal 2
    /\ length (AseReader.frames r) = 2%nat.
Proof.
  destruct (AseReader.parse None (AseReader.new Sample.twoFrames "two.ase"))
    as [[[] r]|e] eqn:Hp; [|vm_compute in Hp; discriminate].
  exists r. split; [reflexivity|].
  destruct (C5_frames_length None Sample.twoFrames "two.ase" tt r Hp)
    as [Hw Hn].
  assert (Hw' : DataView.getUint16 Sample.twoFrames 6 = Normal 2)
    by (vm_compute; reflexivity).
  split; [exact Hw'|].
  rewrite Hw' in Hw. injection Hw as Hw. lia.
Defined.

(** ** Short payloads at 32 bits *)

Lemma decode32_short palette (w h : Z) (raw : list byte) :
  Z.of_nat (length raw) < w * h * 4 ->
  AseCanvasRenderer.decode 32 palette w h raw
  = raw ++ replicate (Z.to_nat (w * h * 4) - length raw) zero_byte.
Proof.
  intros Hshort. unfold AseCanvasRenderer.decode. simpl.
  rewrite decode32_closed, take_ge by lia. reflexivity.
Qed.

(** C7. A cel chunk that is not a linked cel is read whenever its bytes are
    in the file, whatever width and height it declares: nothing compares
    them with the length of the payload. When the data of the cel that was
    read are shorter than [w * h * 4] at colour depth 32, painting it
    completes: the block starts with all of those bytes, unchanged, and
    every byte after them is zero. *)
Theorem C7_short_payload pako (chunkSize o : Z) r (celType : Z) :
  0 <= o -> 26 <= chunkSize ->
  o + (chunkSize - 6) <= Z.of_nat (length (AseReader._dv r)) ->
  DataView.getUint16 (AseReader._dv r) (o + 7) = Normal celType ->
  celType <> 1 ->
  exists c w h,
    AseReader.readCelChunk pako chunkSize (AseReader.with_offset o r)
    = Normal (c, AseReader.with_offset (o + (chunkSize - 6)) r)
    /\ Cel.w c = Some w /\ Cel.h c = Some h
    /\ forall fuel numCel this d (raw : list byte),
         AseCanvasRenderer.aseData this = Some d ->
         AseReader.colorDepth d = 32 ->
         AseCanvasRenderer.frameCel d
           (Some (AseCanvasRenderer.currentFrame this)) numCel
         = Normal (Some c) ->
         Cel.rawCelData c = Some raw -> raw <> [] ->
         0 < w -> 0 < h ->
         Z.of_nat (length raw) < w * h * 4 ->
         AseCanvasRenderer.writeCel fuel numCel this
         = AseCanvasRenderer.Done
             (AseCanvasRenderer.with_canvas
                (AseCanvasRenderer.canvas this
                 ++ [AseCanvasRenderer.mkDraw
                       (AseCanvasRenderer.ctx this) w h
                       (raw ++ replicate
                                 (Z.to_nat (w * h * 4) - length raw)
                                 zero_byte)
                       (Cel.xpos c) (Cel.ypos c)])
                this).
Proof.
  intros H0 Hsz Hlen Hty Hne.
  destruct (readCelChunk_within pako chunkSize o r celType
              H0 Hsz Hlen Hty Hne)
    as (c & w & h & Hread & _ & _ & Hct & Hw & Hh & _).
  exists c, w, h. repeat split; try assumption.
  intros fuel numCel this d raw Hd Hdepth Hc Hraw Hnil Hwpos Hhpos Hshort.
  assert (Hown : Cel.celType c <> 1) by congruence.
  rewrite (writeCel_own _ _ _ _ _ Hd Hc Hown).
  rewrite (paintCel_decodes d c (AseCanvasRenderer.celDataOf c) this
             w h raw Hw Hh Hraw Hwpos Hhpos Hnil).
  rewrite Hdepth. simpl AseCanvasRenderer.depthOr32.
  rewrite (decode32_short _ _ _ _ Hshort). reflexivity.
Qed.

(** The file [Sample.truncated]: its cel chunk (31 bytes, payload at offset
    175) declares 2 by 1 pixels and carries 5 bytes. It is read, and
    painted as those 5 bytes and 3 zero bytes. *)
Lemma C7_short_payload_witness :
  exists c,
    AseReader.readCelChunk None 31
      (AseReader.with_offset 175
         (AseReader.new Sample.truncated "sample.ase"))
    = Normal (c, AseReader.with_offset 200
                   (AseReader.new Sample.truncated "sample.ase"))
    /\ AseCanvasRenderer.writeCel 0 0
         (Sample.renderer (Sample.parsed Sample.truncated) 0)
       = AseCanvasRenderer.Done
           (AseCanvasRenderer.with_canvas
              [AseCanvasRenderer.mkDraw AseCanvasRenderer.Identity 2 1
                 (Sample.bytes [1; 2; 3; 4; 5; 0; 0; 0]) 0 0]
              (Sample.renderer (Sample.parsed Sample.truncated) 0)).
Proof.
  destruct (C7_short_payload None 31 175
              (AseReader.new Sample.truncated "sample.ase") 0)
    as (c & w & h & Hread & Hw & Hh & Hpaint);
    [lia | lia | vm_compute; discriminate | vm_compute; reflexivity
    | lia |].
  exists c. split; [exact Hread|].
  assert (Hc : c = Cel.mk 0 0 0 xff 0
                     (PixelData 2 1 (Some (Sample.bytes [1; 2; 3; 4; 5]))))
    by (vm_compute in Hread; injection Hread as <-; reflexivity).
  subst c. injection Hw as <-. injection Hh as <-.
  exact (Hpaint 0%nat 0
           (Sample.renderer (Sample.parsed Sample.truncated) 0)
           (Sample.parsed Sample.truncated)
           (Sample.bytes [1; 2; 3; 4; 5])
           eq_refl eq_refl eq_refl eq_refl ltac:(discriminate)
           ltac:(lia) ltac:(lia) ltac:(vm_compute; reflexivity)).
Defined.

(** ** Cels without pixels *)

(** C10. A cel that resolves without pixel data or with empty pixel data,
    or whose width or height is undefined, zero or negative, is skipped:
    [writeCel] completes and leaves the renderer, and so the canvas, as it
    was. *)
Theorem C10_empty_cel_skipped fuel numCel this d c cel :
  AseCanvasRenderer.aseData this = Some d ->
  AseCanvasRenderer.frameCel d
    (Some (AseCanvasRenderer.currentFrame this)) numCel = Normal (Some c) ->
  AseCanvasRenderer.resolveCel d fuel numCel c = Some (Normal cel) ->
  AseCanvasRenderer.cd_rawCelData cel = None
  \/ AseCanvasRenderer.cd_rawCelData cel = Some []
  \/ AseCanvasRenderer.cd_w cel = None
  \/ (exists w, AseCanvasRenderer.cd_w cel = Some w /\ w <= 0)
  \/ AseCanvasRenderer.cd_h cel = None
  \/ (exists h, AseCanvasRenderer.cd_h cel = Some h /\ h <= 0) ->
  AseCanvasRenderer.writeCel fuel numCel this = AseCanvasRenderer.Done this.
Proof.
  intros Hd Hc Hr Hbad.
  rewrite (writeCel_resolved _ _ _ _ _ _ Hd Hc Hr). f_equal.
  unfold AseCanvasRenderer.paintCel.
  destruct (AseCanvasRenderer.noData (AseCanvasRenderer.cd_rawCelData cel))
    eqn:Hn; [reflexivity|].
  assert (Hsize : forall o,
             o = None \/ (exists v, o = Some v /\ v <= 0) ->
             AseCanvasRenderer.badSize o = true).
  { intros o [->|(v & -> & Hv)]; [reflexivity|].
    unfold AseCanvasRenderer.badSize. apply orb_true_intro. right.
    apply Z.leb_le. exact Hv. }
  destruct Hbad as [H|[H|[H|[H|[H|H]]]]].
  - rewrite H in Hn. discriminate.
  - rewrite H in Hn. discriminate.
  - rewrite (Hsize _ (or_introl H)). reflexivity.
  - rewrite (Hsize _ (or_intror H)). reflexivity.
  - rewrite (Hsize (AseCanvasRenderer.cd_h cel) (or_introl H)).
    rewrite orb_true_r. reflexivity.
  - rewrite (Hsize (AseCanvasRenderer.cd_h cel) (or_intror H)).
    rewrite orb_true_r. reflexivity.
Qed.

Lemma C10_empty_cel_skipped_witness :
  AseCanvasRenderer.writeCel 1 0 (Sample.renderer Sample.emptyCel 1)
  = AseCanvasRenderer.Done (Sample.renderer Sample.emptyCel 1).
Proof.
  exact (C10_empty_cel_skipped 1 0 (Sample.renderer Sample.emptyCel 1)
           Sample.emptyCel (Sample.linkedCel 0 0)
           (AseCanvasRenderer.celDataOf (Sample.rawCel 0 0 0 []))
           eq_refl eq_refl eq_refl (or_intror (or_introl eq_refl))).
Defined.

(** ** Layer visibility *)

Lemma land_1_testbit (n : Z) : (Z.land n 1 =? 1) = Z.testbit n 0.
Proof.
  destruct (Z.testbit n 0) eqn:Hb.
  - apply Z.eqb_eq. apply Z.bits_inj'. intros k Hk.
    rewrite Z.land_spec. destruct (Z.eq_dec k 0) as [->|Hne].
    + rewrite Hb. reflexivity.
    + rewrite (Z.bits_above_log2 1 k) by (simpl; lia).
      apply andb_false_r.
  - apply Z.eqb_neq. intros Heq.
    assert (Hbit : Z.testbit (Z.land n 1) 0 = true)
      by (rewrite Heq; reflexivity).
    rewrite Z.land_spec, Hb in Hbit. discriminate.
Qed.

(** The visibility of a layer that exists. *)
Lemma isLayerVisible_layer this d layerIndex layer :
  AseCanvasRenderer.aseData this = Some d ->
  AseReader.layers d !!! layerIndex = Some layer ->
  AseCanvasRenderer.isLayerVisible this layerIndex
  = Spec.effectiveVisible (AseCanvasRenderer.layerVisibility this)
      layer layerIndex.
Proof.
  intros Hd Hl. unfold AseCanvasRenderer.isLayerVisible, Spec.effectiveVisible.
  rewrite Hd, Hl.
  destruct (AseCanvasRenderer.layerVisibility this !! layerIndex);
    [reflexivity|].
  destruct (Layer.flags layer) as [n|[[|]|]|]; try reflexivity.
  apply land_1_testbit.
Qed.

(** [writeCel] changes nothing but the canvas. *)
Lemma writeCel_Done_keeps fuel numCel this this' :
  AseCanvasRenderer.writeCel fuel numCel this = AseCanvasRenderer.Done this' ->
  AseCanvasRenderer.aseData this' = AseCanvasRenderer.aseData this
  /\ AseCanvasRenderer.layerVisibility this'
     = AseCanvasRenderer.layerVisibility this.
Proof.
  unfold AseCanvasRenderer.writeCel.
  destruct (AseCanvasRenderer.aseData this) as [d|] eqn:Hd; [|discriminate].
  destruct (AseCanvasRenderer.frameCel d _ numCel) as [[c|]|e];
    try discriminate.
  destruct (AseCanvasRenderer.resolveCel d fuel numCel c) as [[cel|e]|];
    try discriminate.
  intros [= <-]. unfold AseCanvasRenderer.paintCel.
  destruct (AseCanvasRenderer.noData _); [split; [exact Hd | reflexivity]|].
  destruct (_ || _); [split; [exact Hd | reflexivity]|].
  destruct (AseCanvasRenderer.cd_w cel), (AseCanvasRenderer.cd_h cel),
    (AseCanvasRenderer.cd_rawCelData cel);
    split; first [exact Hd | reflexivity].
Qed.

Lemma isLayerVisible_ext this this' layerIndex :
  AseCanvasRenderer.aseData this' = AseCanvasRenderer.aseData this ->
  AseCanvasRenderer.layerVisibility this'
  = AseCanvasRenderer.layerVisibility this ->
  AseCanvasRenderer.isLayerVisible this' layerIndex
  = AseCanvasRenderer.isLayerVisible this layerIndex.
Proof.
  intros Hd Hv. unfold AseCanvasRenderer.isLayerVisible.
  rewrite Hd, Hv. reflexivity.
Qed.

Lemma paintedPositions_ext this this' :
  AseCanvasRenderer.aseData this' = AseCanvasRenderer.aseData this ->
  AseCanvasRenderer.layerVisibility this'
  = AseCanvasRenderer.layerVisibility this ->
  forall cels i,
    Spec.paintedPositions this' i cels = Spec.paintedPositions this i cels.
Proof.
  intros Hd Hv cels. induction cels as [|c rest IH]; intros i;
    [reflexivity|].
  simpl. rewrite (isLayerVisible_ext _ _ _ Hd Hv), !IH. reflexivity.
Qed.

(** The cel loop is [writeCel] at the positions of the cels whose layer is
    visible, and at no other. *)
Lemma renderCels_writeCels fuel cels :
  forall i this,
    AseCanvasRenderer.renderCels fuel i cels this
    = Spec.writeCels fuel (Spec.paintedPositions this i cels) this.
Proof.
  induction cels as [|c rest IH]; intros i this; [reflexivity|].
  simpl.
  destruct (AseCanvasRenderer.isLayerVisible this (Cel.layerIndex c));
    [|apply IH].
  simpl.
  destruct (AseCanvasRenderer.writeCel fuel i this) as [this'|e this'|]
    eqn:Hw; try reflexivity.
  destruct (writeCel_Done_keeps _ _ _ _ Hw) as [Hd Hv].
  rewrite IH, (paintedPositions_ext _ _ Hd Hv). reflexivity.
Qed.

Lemma js_index_cons {A} (x : A) (l : list A) (j : Z) :
  0 <= j -> (x :: l) !!! (j + 1) = l !!! j.
Proof.
  intros Hj. unfold js_index.
  destruct (Z.ltb_spec (j + 1) 0) as [?|_]; [lia|].
  destruct (Z.ltb_spec j 0) as [?|_]; [lia|].
  replace (Z.to_nat (j + 1)) with (S (Z.to_nat j)) by lia. reflexivity.
Qed.

Lemma js_index_Some_nonneg {A} (l : list A) (j : Z) (x : A) :
  l !!! j = Some x -> 0 <= j.
Proof.
  unfold js_index. destruct (Z.ltb_spec j 0); [discriminate | lia].
Qed.

(** Every painted position holds a cel whose layer is visible. *)
Lemma paintedPositions_visible this cels :
  forall i p,
    In p (Spec.paintedPositions this i cels) ->
    exists c,
      cels !!! (p - i) = Some c
      /\ AseCanvasRenderer.isLayerVisible this (Cel.layerIndex c) = true.
Proof.
  induction cels as [|c rest IH]; intros i p Hin; [destruct Hin|].
  simpl in Hin.
  assert (Hrest : In p (Spec.paintedPositions this (i + 1) rest) ->
                  exists c', (c :: rest) !!! (p - i) = Some c'
                    /\ AseCanvasRenderer.isLayerVisible this
                         (Cel.layerIndex c') = true).
  { intros H. destruct (IH _ _ H) as (c' & Hc' & Hv).
    exists c'. split; [|exact Hv].
    replace (p - i) with (p - (i + 1) + 1) by lia.
    rewrite js_index_cons; [exact Hc'|].
    exact (js_index_Some_nonneg _ _ _ Hc'). }
  destruct (AseCanvasRenderer.isLayerVisible this (Cel.layerIndex c)) eqn:Hv;
    [|exact (Hrest Hin)].
  destruct Hin as [<-|Hin]; [|exact (Hrest Hin)].
  exists c. rewrite Z.sub_diag. split; [reflexivity | exact Hv].
Qed.

(** The whole frame, with and without the override. *)
Example hidden_layer_not_drawn :
  exists shown hidden,
    AseCanvasRenderer.forceRender 0 0 (Sample.renderer Sample.twoLayers 0)
    = AseCanvasRenderer.Done shown
    /\ AseCanvasRenderer.forceRender 0 0
         (AseCanvasRenderer.with_layerVisibility {[ 1 := false ]}
            (Sample.renderer Sample.twoLayers 0))
       = AseCanvasRenderer.Done hidden
    /\ map AseCanvasRenderer.data (AseCanvasRenderer.canvas shown)
       = [Sample.bytes [1; 2; 3; 4]; Sample.bytes [5; 6; 7; 8]]
    /\ map AseCanvasRenderer.data (AseCanvasRenderer.canvas hidden)
       = [Sample.bytes [1; 2; 3; 4]].
Proof. do 2 eexists. repeat split; vm_compute; reflexivity. Qed.

(** ** Cels of layers that do not exist *)

(** C4, as stated, fails: the cel of [Sample.strayCel] names layer 7 of a
    document with one layer, and rendering the frame paints its pixels. *)
Lemma C4_stray_cel_is_painted :
  AseReader.layers Sample.strayCel !!! 7 = None
  /\ exists this,
       AseCanvasRenderer.forceRender 0 0 (Sample.renderer Sample.strayCel 0)
       = AseCanvasRenderer.Done this
       /\ map AseCanvasRenderer.data (AseCanvasRenderer.canvas this)
          = [Sample.bytes [1; 2; 3; 4]].
Proof.
  split; [reflexivity|]. eexists. split; vm_compute; reflexivity.
Qed.

(** Every cel whose layer is visible has its position painted. *)
Lemma paintedPositions_complete this cels :
  forall i j c,
    cels !!! j = Some c ->
    AseCanvasRenderer.isLayerVisible this (Cel.layerIndex c) = true ->
    In (i + j) (Spec.paintedPositions this i cels).
Proof.
  induction cels as [|c0 rest IH]; intros i j c Hj Hv.
  - unfold js_index in Hj. destruct (j <? 0); discriminate.
  - pose proof (js_index_Some_nonneg _ _ _ Hj) as Hnn.
    destruct (Z.eq_dec j 0) as [->|Hne].
    + injection Hj as ->. cbn [Spec.paintedPositions].
      rewrite Hv, Z.add_0_r. apply in_eq.
    + assert (Hrest : In (i + j) (Spec.paintedPositions this (i + 1) rest)).
      { replace (i + j) with (i + 1 + (j - 1)) by lia.
        apply (IH _ _ c); [|exact Hv].
        rewrite <- (js_index_cons c0 rest (j - 1)) by lia.
        replace (j - 1 + 1) with j by lia. exact Hj. }
      cbn [Spec.paintedPositions].
      destruct (AseCanvasRenderer.isLayerVisible this (Cel.layerIndex c0));
        [apply in_cons|]; exact Hrest.
Qed.

(** C4, amended. A cel whose [layerIndex] names no layer of the document is
    visible to [isLayerVisible], whatever the overrides: the cel loop of a
    render calls [writeCel] at its position, and a cel with its own pixels
    is painted like a cel of a visible layer. The index does not make the
    render fail. *)
Theorem C4_stray_cel_visible this d c :
  AseCanvasRenderer.aseData this = Some d ->
  AseReader.layers d !!! Cel.layerIndex c = None ->
  AseCanvasRenderer.isLayerVisible this (Cel.layerIndex c) = true
  /\ (forall fuel i cels j,
        cels !!! j = Some c ->
        exists positions,
          AseCanvasRenderer.renderCels fuel i cels this
          = Spec.writeCels fuel positions this
          /\ In (i + j) positions)
  /\ (forall fuel i,
        AseCanvasRenderer.frameCel d
          (Some (AseCanvasRenderer.currentFrame this)) i = Normal (Some c) ->
        Cel.celType c <> 1 ->
        AseCanvasRenderer.writeCel fuel i this
        = AseCanvasRenderer.Done
            (AseCanvasRenderer.paintCel d c
               (AseCanvasRenderer.celDataOf c) this)).
Proof.
  intros Hd Hl.
  assert (Hvis : AseCanvasRenderer.isLayerVisible this (Cel.layerIndex c)
                 = true).
  { unfold AseCanvasRenderer.isLayerVisible. rewrite Hd, Hl. reflexivity. }
  split; [exact Hvis|]. split.
  - intros fuel i cels j Hj.
    exists (Spec.paintedPositions this i cels).
    split; [apply renderCels_writeCels|].
    exact (paintedPositions_complete _ _ _ _ _ Hj Hvis).
  - intros fuel i Hc Hty. exact (writeCel_own _ _ _ _ _ Hd Hc Hty).
Qed.

Lemma C4_stray_cel_visible_witness :
  AseCanvasRenderer.isLayerVisible
    (AseCanvasRenderer.with_layerVisibility {[ 7 := false ]}
       (Sample.renderer Sample.strayCel 0)) 7
  = true.
Proof.
  exact (proj1 (C4_stray_cel_visible
                  (AseCanvasRenderer.with_layerVisibility {[ 7 := false ]}
                     (Sample.renderer Sample.strayCel 0))
                  Sample.strayCel (Sample.rawCel 7 1 1 [1; 2; 3; 4])
                  eq_refl eq_refl)).
Defined.

(** ** Linked cels *)

Section Links.
Import AseCanvasRenderer.

Lemma frameCel_lookup d f numCel frame :
  AseReader.frames d !!! f = Some frame ->
  frameCel d (Some f) numCel = Normal (Frame.cels frame !!! numCel).
Proof. unfold frameCel. intros ->. reflexivity. Qed.

(** The [while] loop along a chain that ends. *)
Lemma getCelDataWhile_chain d numCel f e k :
  Spec.chain d numCel f e k ->
  forall fuel, (k <= fuel)%nat ->
  exists start,
    frameCel d (Some f) numCel = start
    /\ (forall c, start = Normal (Some c) ->
          getCelDataWhile d numCel fuel (Some c)
          = Some match e with
                 | Spec.Owner o => Normal o
                 | Spec.Missing => Throw TypeError
                 end)
    /\ match e with
       | Spec.Owner o =>
           exists c, start = Normal (Some c)
                     /\ (Cel.linkedFrame c = None -> c = o)
       | Spec.Missing =>
           start = Throw TypeError \/ start = Normal None
           \/ exists c, start = Normal (Some c)
                        /\ Cel.linkedFrame c <> None
       end.
Proof.
  induction 1 as [f frame c Hf Hc [Hty (w & h & raw & Hpx)]
                 |f Hf
                 |f frame Hf Hc
                 |f frame c f' e k Hf Hc [Hty Hpx] Hch IH];
    intros fuel Hfuel; eexists; (split; [reflexivity|]).
  - rewrite (frameCel_lookup _ _ _ _ Hf), Hc. split.
    + intros c' [= <-]. destruct fuel; simpl;
        apply Z.eqb_neq in Hty; rewrite Hty; reflexivity.
    + exists c. split; [reflexivity | reflexivity].
  - unfold frameCel. rewrite Hf. split; [discriminate | left; reflexivity].
  - rewrite (frameCel_lookup _ _ _ _ Hf), Hc.
    split; [discriminate | right; left; reflexivity].
  - rewrite (frameCel_lookup _ _ _ _ Hf), Hc.
    assert (Hlf : Cel.linkedFrame c = Some f')
      by (unfold Cel.linkedFrame; rewrite Hpx; reflexivity).
    destruct fuel as [|fuel]; [lia|].
    destruct (IH fuel ltac:(lia)) as (start & Hstart & Hwhile & Hend).
    assert (Hgo : getCelDataWhile d numCel (S fuel) (Some c)
                  = Some match e with
                         | Spec.Owner o => Normal o
                         | Spec.Missing => Throw TypeError
                         end).
    { simpl. apply Z.eqb_eq in Hty. rewrite Hty, Hlf, Hstart.
      destruct e as [o|].
      - destruct Hend as (c' & -> & _). apply Hwhile. reflexivity.
      - destruct Hend as [->|[->|(c' & -> & _)]].
        + reflexivity.
        + destruct fuel; reflexivity.
        + apply Hwhile. reflexivity. }
    split.
    + intros c0 [= <-]. exact Hgo.
    + destruct e as [o|].
      * exists c. split; [reflexivity|]. rewrite Hlf. discriminate.
      * right; right. exists c. split; [reflexivity|].
        rewrite Hlf. discriminate.
Qed.

(** More fuel does not change the result of a loop that has left. *)
Lemma getCelDataWhile_more_fuel d numCel fuel :
  forall nextCel result fuel',
    getCelDataWhile d numCel fuel nextCel = Some result ->
    (fuel <= fuel')%nat ->
    getCelDataWhile d numCel fuel' nextCel = Some result.
Proof.
  induction fuel as [|fuel IH]; intros nextCel result fuel' H Hle.
  - destruct nextCel as [c|]; simpl in H.
    + destruct (Cel.celType c =? 1) eqn:Hty; [discriminate|].
      destruct fuel'; simpl; rewrite Hty; exact H.
    + destruct fuel'; exact H.
  - destruct fuel' as [|fuel']; [lia|].
    destruct nextCel as [c|]; simpl in H |- *; [|exact H].
    destruct (Cel.celType c =? 1); [|exact H].
    destruct (frameCel d (Cel.linkedFrame c) numCel) as [next|e];
      [|exact H].
    apply (IH _ _ _ H). lia.
Qed.

(** [getCelData] along a chain that ends: the cel at the end, or a
    [TypeError] where the chain breaks off. *)
Lemma getCelData_chain d numCel f e k fuel :
  Spec.chain d numCel f e k -> (k <= fuel)%nat ->
  getCelData d fuel (Some f) numCel
  = Some match e with
         | Spec.Owner o => Normal (celDataOf o)
         | Spec.Missing => Throw TypeError
         end.
Proof.
  intros Hch Hfuel.
  destruct (getCelDataWhile_chain _ _ _ _ _ Hch fuel Hfuel)
    as (start & Hstart & Hwhile & Hend).
  unfold getCelData. rewrite Hstart.
  destruct e as [o|].
  - destruct Hend as (c & -> & Hown).
    destruct (Cel.linkedFrame c) eqn:Hlf.
    + rewrite (Hwhile c eq_refl). reflexivity.
    + rewrite (Hown eq_refl). reflexivity.
  - destruct Hend as [->|[->|(c & -> & Hlf)]]; try reflexivity.
    destruct (Cel.linkedFrame c); [|congruence].
    rewrite (Hwhile c eq_refl). reflexivity.
Qed.

(** The [while] loop inside an endless set of cels never leaves. *)
Lemma getCelDataWhile_endless d numCel onChain :
  Spec.endless d numCel onChain ->
  forall fuel c, onChain c ->
  getCelDataWhile d numCel fuel (Some c) = None.
Proof.
  intros Hend fuel. induction fuel as [|fuel IH]; intros c Hc;
    destruct (Hend c Hc) as (f & frame & c' & [Hty Hpx] & Hf & Hc' & Hon);
    simpl; apply Z.eqb_eq in Hty; rewrite Hty; [reflexivity|].
  unfold Cel.linkedFrame. rewrite Hpx.
  rewrite (frameCel_lookup _ _ _ _ Hf), Hc'. apply IH. exact Hon.
Qed.

Lemma getCelData_endless d numCel onChain fuel c f :
  Spec.endless d numCel onChain ->
  onChain c -> Spec.linkedTo c f ->
  getCelData d fuel (Some f) numCel = None.
Proof.
  intros Hend Hc Hlink.
  destruct (Hend c Hc) as (f1 & frame & c' & [_ Hpx1] & Hf & Hc' & Hon).
  destruct Hlink as [_ Hpx]. rewrite Hpx in Hpx1. injection Hpx1 as <-.
  unfold getCelData. rewrite (frameCel_lookup _ _ _ _ Hf), Hc'.
  destruct (Hend c' Hon) as (f2 & _ & _ & [_ Hpx2] & _).
  unfold Cel.linkedFrame at 1. rewrite Hpx2.
  rewrite (getCelDataWhile_endless _ _ _ Hend fuel c' Hon). reflexivity.
Qed.

Lemma resolveCel_linked d fuel numCel c f :
  Spec.linkedTo c f ->
  resolveCel d fuel numCel c
  = match getCelData d fuel (Some f) numCel with
    | None => None
    | Some (Throw e) => Some (Throw e)
    | Some (Normal resolved) => Some (Normal resolved)
    end.
Proof.
  intros [Hty Hpx]. unfold resolveCel, spread, Cel.linkedFrame.
  apply Z.eqb_eq in Hty. rewrite Hty, Hpx. reflexivity.
Qed.

End Links.

Section LinkedCels.
Import AseCanvasRenderer.

Lemma writeCel_endless fuel numCel this d c f onChain :
  aseData this = Some d ->
  frameCel d (Some (currentFrame this)) numCel = Normal (Some c) ->
  Spec.linkedTo c f ->
  Spec.endless d numCel onChain -> onChain c ->
  writeCel fuel numCel this = Unfinished.
Proof.
  intros Hd Hc Hlink Hend Hon. unfold writeCel. rewrite Hd, Hc.
  rewrite (resolveCel_linked _ _ _ _ _ Hlink).
  rewrite (getCelData_endless _ _ _ fuel _ _ Hend Hon Hlink).
  reflexivity.
Qed.

Lemma writeCel_chain fuel numCel this d c f e k :
  aseData this = Some d ->
  frameCel d (Some (currentFrame this)) numCel = Normal (Some c) ->
  Spec.linkedTo c f ->
  Spec.chain d numCel f e k -> (k <= fuel)%nat ->
  writeCel fuel numCel this
  = match e with
    | Spec.Owner owner => Done (paintCel d c (celDataOf owner) this)
    | Spec.Missing => Raised TypeError this
    end.
Proof.
  intros Hd Hc Hlink Hch Hfuel. unfold writeCel. rewrite Hd, Hc.
  rewrite (resolveCel_linked _ _ _ _ _ Hlink).
  rewrite (getCelData_chain _ _ _ _ _ _ Hch Hfuel).
  destruct e; reflexivity.
Qed.

Lemma paintCel_block d c c' cel this :
  map Spec.block (canvas (paintCel d c cel this))
  = map Spec.block (canvas (paintCel d c' cel this)).
Proof.
  unfold paintCel.
  destruct (noData (cd_rawCelData cel)); [reflexivity|].
  destruct (badSize (cd_w cel) || badSize (cd_h cel)); [reflexivity|].
  destruct (cd_w cel), (cd_h cel), (cd_rawCelData cel); try reflexivity.
  simpl. rewrite !map_app. reflexivity.
Qed.

Lemma cyclic_endless :
  Spec.endless Sample.cyclic 0
    (fun c => c = Sample.linkedCel 0 1 \/ c = Sample.linkedCel 0 0).
Proof.
  intros c [->| ->].
  - exists 1, (Sample.frame [Sample.linkedCel 0 0]), (Sample.linkedCel 0 0).
    repeat split; auto.
  - exists 0, (Sample.frame [Sample.linkedCel 0 1]), (Sample.linkedCel 0 1).
    repeat split; auto.
Qed.

End LinkedCels.

(** C2, as stated, fails. In [Sample.misaligned] the cel of frame 1 is on
    layer 1 and linked to frame 0, where the cel of layer 1 has the bytes
    5, 6, 7, 8. Resolution returns the cel at the same position of the cel
    list instead, which is the cel of layer 0, and frame 1 is rendered with
    the bytes 1, 2, 3, 4. *)
Lemma C2_resolution_ignores_layerIndex :
  Spec.findByLayer
    (Frame.cels (Sample.frame [Sample.rawCel 0 1 1 [1; 2; 3; 4];
                               Sample.rawCel 1 1 1 [5; 6; 7; 8]])) 1
  = Some (Sample.rawCel 1 1 1 [5; 6; 7; 8])
  /\ AseCanvasRenderer.resolveCel Sample.misaligned 1 0 (Sample.linkedCel 1 0)
     = Some (Normal (AseCanvasRenderer.celDataOf
                       (Sample.rawCel 0 1 1 [1; 2; 3; 4])))
  /\ AseCanvasRenderer.resolveCel Sample.misaligned 1 0 (Sample.linkedCel 1 0)
     <> Some (Normal (AseCanvasRenderer.celDataOf
                        (Sample.rawCel 1 1 1 [5; 6; 7; 8])))
  /\ exists this,
       AseCanvasRenderer.forceRender 1 1 (Sample.renderer Sample.misaligned 0)
       = AseCanvasRenderer.Done this
       /\ map AseCanvasRenderer.data (AseCanvasRenderer.canvas this)
          = [Sample.bytes [1; 2; 3; 4]].
Proof.
  split; [reflexivity|]. split; [reflexivity|]. split.
  - vm_compute. discriminate.
  - eexists. split; vm_compute; reflexivity.
Qed.

(** C2, amended. A linked cel at position [numCel] of its frame resolves to
    the width, height and bytes of the cel at the same position [numCel] of
    the frame it names, and through further links at that position, up to a
    cel with its own pixels; the [layerIndex] plays no part. [writeCel]
    paints that block, the same block as for the owning cel, at the
    position of the linked cel. *)
Theorem C2_linked_cel_by_position fuel numCel this d c f owner k :
  AseCanvasRenderer.aseData this = Some d ->
  AseCanvasRenderer.frameCel d
    (Some (AseCanvasRenderer.currentFrame this)) numCel = Normal (Some c) ->
  Spec.linkedTo c f ->
  Spec.chain d numCel f (Spec.Owner owner) k -> (k <= fuel)%nat ->
  AseCanvasRenderer.resolveCel d fuel numCel c
  = Some (Normal (AseCanvasRenderer.celDataOf owner))
  /\ AseCanvasRenderer.writeCel fuel numCel this
     = AseCanvasRenderer.Done
         (AseCanvasRenderer.paintCel d c
            (AseCanvasRenderer.celDataOf owner) this)
  /\ map Spec.block
       (AseCanvasRenderer.canvas
          (AseCanvasRenderer.paintCel d c
             (AseCanvasRenderer.celDataOf owner) this))
     = map Spec.block
         (AseCanvasRenderer.canvas
            (AseCanvasRenderer.paintCel d owner
               (AseCanvasRenderer.celDataOf owner) this)).
Proof.
  intros Hd Hc Hlink Hch Hfuel. split; [|split].
  - rewrite (resolveCel_linked _ _ _ _ _ Hlink).
    rewrite (getCelData_chain _ _ _ _ _ _ Hch Hfuel). reflexivity.
  - exact (writeCel_chain _ _ _ _ _ _ _ _ Hd Hc Hlink Hch Hfuel).
  - apply paintCel_block.
Qed.

(** Frame 2 of [Sample.linkedTwice] is linked to frame 1, which is linked to
    frame 0. *)
Lemma C2_linked_cel_by_position_witness :
  AseCanvasRenderer.writeCel 1 0 (Sample.renderer Sample.linkedTwice 2)
  = AseCanvasRenderer.Done
      (AseCanvasRenderer.with_canvas
         [AseCanvasRenderer.mkDraw AseCanvasRenderer.Identity 1 1
            (Sample.bytes [1; 2; 3; 4]) 0 0]
         (Sample.renderer Sample.linkedTwice 2)).
Proof.
  refine (proj1 (proj2
    (C2_linked_cel_by_position 1 0 (Sample.renderer Sample.linkedTwice 2)
       Sample.linkedTwice (Sample.linkedCel 0 1) 1
       (Sample.rawCel 0 1 1 [1; 2; 3; 4]) 1
       eq_refl eq_refl (conj eq_refl eq_refl) _ (le_n 1)))).
  apply (Spec.chain_link _ _ 1 (Sample.frame [Sample.linkedCel 0 0])
           (Sample.linkedCel 0 0) 0);
    [reflexivity | reflexivity | split; reflexivity |].
  apply (Spec.chain_owner _ _ 0
           (Sample.frame [Sample.rawCel 0 1 1 [1; 2; 3; 4]]));
    [reflexivity | reflexivity |].
  split; [discriminate | do 3 eexists; reflexivity].
Defined.

(** C1, as stated, fails. In [Sample.cyclic] the cel of frame 0 is linked to
    frame 1 and the cel of frame 1 to frame 0. Rendering frame 0 does not
    end with an error after two links: whatever the number of turns allowed
    to the loop of [getCelData], the render is still running. *)
Lemma C1_cyclic_chain_never_ends :
  ~ exists fuel,
      AseCanvasRenderer.forceRender fuel 0 (Sample.renderer Sample.cyclic 0)
      <> AseCanvasRenderer.Unfinished.
Proof.
  intros [fuel H]. apply H. clear H.
  unfold AseCanvasRenderer.forceRender. simpl.
  match goal with
  | |- context [AseCanvasRenderer.writeCel fuel 0 ?this] =>
      rewrite (writeCel_endless fuel 0 this Sample.cyclic
                 (Sample.linkedCel 0 1) 1 _ eq_refl eq_refl
                 (conj eq_refl eq_refl) cyclic_endless (or_introl eq_refl))
  end.
  reflexivity.
Qed.

(** ** What a render depends on *)

Section Render.
Import AseCanvasRenderer.

Lemma paintCel_lastRenderTime now d c cel this :
  paintCel d c cel (with_lastRenderTime now this)
  = with_lastRenderTime now (paintCel d c cel this).
Proof.
  unfold paintCel.
  destruct (noData (cd_rawCelData cel)); [reflexivity|].
  destruct (badSize (cd_w cel) || badSize (cd_h cel)); [reflexivity|].
  destruct (cd_w cel), (cd_h cel), (cd_rawCelData cel); reflexivity.
Qed.

Lemma writeCel_lastRenderTime now fuel numCel this :
  writeCel fuel numCel (with_lastRenderTime now this)
  = Spec.map_run (with_lastRenderTime now) (writeCel fuel numCel this).
Proof.
  unfold writeCel.
  change (aseData (with_lastRenderTime now this)) with (aseData this).
  change (currentFrame (with_lastRenderTime now this))
    with (currentFrame this).
  destruct (aseData this) as [d|]; [|reflexivity].
  destruct (frameCel d (Some (currentFrame this)) numCel) as [[c|]|e];
    try reflexivity.
  destruct (resolveCel d fuel numCel c) as [[cel|e]|]; try reflexivity.
  rewrite paintCel_lastRenderTime. reflexivity.
Qed.

(** The cel loop does not read [lastRenderTime]. *)
Lemma renderCels_lastRenderTime now fuel cels :
  forall i this,
    renderCels fuel i cels (with_lastRenderTime now this)
    = Spec.map_run (with_lastRenderTime now) (renderCels fuel i cels this).
Proof.
  induction cels as [|c rest IH]; intros i this; [reflexivity|].
  cbn [renderCels].
  change (isLayerVisible (with_lastRenderTime now this) (Cel.layerIndex c))
    with (isLayerVisible this (Cel.layerIndex c)).
  destruct (isLayerVisible this (Cel.layerIndex c)); [|apply IH].
  rewrite writeCel_lastRenderTime.
  destruct (writeCel fuel i this) as [this'|e this'|]; try reflexivity.
  simpl. apply IH.
Qed.

Lemma seen_map_lastRenderTime now r :
  Spec.seen (Spec.map_run (with_lastRenderTime now) r) = Spec.seen r.
Proof. destruct r; reflexivity. Qed.

Lemma forceRender_prepared fuel frameIndex this d frame :
  aseData this = Some d ->
  AseReader.frames d !!! frameIndex = Some frame ->
  forceRender fuel frameIndex this
  = Spec.map_run (with_lastRenderTime (lastRenderTime this))
      (renderCels fuel 0 (Frame.cels frame)
         (Spec.prepared d frameIndex (isFlipped this) (layerVisibility this))).
Proof.
  intros Hd Hf. unfold forceRender. rewrite Hd, Hf.
  rewrite <- renderCels_lastRenderTime. f_equal.
  unfold fitToContainer, clearCanvas, with_canvas, with_currentFrame,
    with_ctx, with_lastRenderTime, Spec.prepared. simpl. rewrite Hd.
  reflexivity.
Qed.

Lemma renderFrame_prepared fuel now frameIndex this d frame :
  aseData this = Some d ->
  AseReader.frames d !!! frameIndex = Some frame ->
  100 <= now - lastRenderTime this ->
  renderFrame fuel now frameIndex this
  = Spec.map_run (with_lastRenderTime now)
      (renderCels fuel 0 (Frame.cels frame)
         (Spec.prepared d frameIndex (isFlipped this) (layerVisibility this))).
Proof.
  intros Hd Hf Hnow. unfold renderFrame. rewrite Hd, Hf.
  destruct (Z.ltb_spec (now - lastRenderTime this) 100) as [?|_]; [lia|].
  rewrite <- renderCels_lastRenderTime. f_equal.
  unfold fitToContainer, clearCanvas, with_canvas, with_currentFrame,
    with_ctx, with_lastRenderTime, Spec.prepared. simpl. rewrite Hd.
  reflexivity.
Qed.

Lemma renderFrame_limited fuel now frameIndex this :
  now - lastRenderTime this < 100 ->
  renderFrame fuel now frameIndex this = Done this.
Proof.
  intros Hnow. unfold renderFrame.
  destruct (aseData this) as [d|]; [|reflexivity].
  destruct (AseReader.frames d !!! frameIndex); [|reflexivity].
  destruct (Z.ltb_spec (now - lastRenderTime this) 100) as [_|?]; [|lia].
  reflexivity.
Qed.

End Render.

(** C9, as stated, fails. The renderer has drawn frame 0 of
    [Sample.twoPictures] at time 1000. Asked for frame 1 at time 1050 it
    returns with frame 0 still on the canvas; asked for the same frame of
    the same document with the same overrides at time 2000, it draws
    frame 1. *)
Lemma C9_render_depends_on_the_clock :
  exists drawn early late,
    AseCanvasRenderer.renderFrame 0 1000 0
      (Sample.renderer Sample.twoPictures 0)
    = AseCanvasRenderer.Done drawn
    /\ AseCanvasRenderer.renderFrame 0 1050 1 drawn
       = AseCanvasRenderer.Done early
    /\ AseCanvasRenderer.renderFrame 0 2000 1 drawn
       = AseCanvasRenderer.Done late
    /\ map AseCanvasRenderer.data (AseCanvasRenderer.canvas early)
       = [Sample.bytes [1; 2; 3; 4]]
    /\ map AseCanvasRenderer.data (AseCanvasRenderer.canvas late)
       = [Sample.bytes [5; 6; 7; 8]]
    /\ Spec.seen (AseCanvasRenderer.renderFrame 0 1050 1 drawn)
       <> Spec.seen (AseCanvasRenderer.renderFrame 0 2000 1 drawn).
Proof.
  do 3 eexists.
  split; [vm_compute; reflexivity|].
  split; [vm_compute; reflexivity|].
  split; [vm_compute; reflexivity|].
  split; [vm_compute; reflexivity|].
  split; [vm_compute; reflexivity|].
  vm_compute. discriminate.
Qed.

(** C9, amended. On a renderer that holds a document, a render of one of
    its frames that the rate limit lets through (at least 100 ms after the
    last one that was let through), and every forced render of one of its
    frames, clears the canvas and draws what the document, the frame index,
    the overrides and the flip determine, the cel loop run on
    [Spec.prepared]: two renderers that agree on these produce the same
    canvas and the same error, if any, whatever they have rendered before
    and whenever. A render within 100 ms of the last one, and a render or a
    forced render with an index that names no frame of the document,
    returns at once and leaves the renderer and its canvas as they were. *)
Theorem C9_render_outside_rate_limit fuel frameIndex d
    this1 this2 now1 now2 :
  AseCanvasRenderer.aseData this1 = Some d ->
  AseCanvasRenderer.aseData this2 = Some d ->
  AseCanvasRenderer.layerVisibility this1
  = AseCanvasRenderer.layerVisibility this2 ->
  AseCanvasRenderer.isFlipped this1 = AseCanvasRenderer.isFlipped this2 ->
  (forall frame,
     AseReader.frames d !!! frameIndex = Some frame ->
     Spec.seen (AseCanvasRenderer.forceRender fuel frameIndex this1)
     = Spec.seen
         (AseCanvasRenderer.renderCels fuel 0 (Frame.cels frame)
            (Spec.prepared d frameIndex (AseCanvasRenderer.isFlipped this1)
               (AseCanvasRenderer.layerVisibility this1)))
     /\ Spec.seen (AseCanvasRenderer.forceRender fuel frameIndex this2)
        = Spec.seen
            (AseCanvasRenderer.renderCels fuel 0 (Frame.cels frame)
               (Spec.prepared d frameIndex
                  (AseCanvasRenderer.isFlipped this1)
                  (AseCanvasRenderer.layerVisibility this1)))
     /\ (100 <= now1 - AseCanvasRenderer.lastRenderTime this1 ->
         Spec.seen (AseCanvasRenderer.renderFrame fuel now1 frameIndex this1)
         = Spec.seen
             (AseCanvasRenderer.renderCels fuel 0 (Frame.cels frame)
                (Spec.prepared d frameIndex
                   (AseCanvasRenderer.isFlipped this1)
                   (AseCanvasRenderer.layerVisibility this1))))
     /\ (100 <= now2 - AseCanvasRenderer.lastRenderTime this2 ->
         Spec.seen (AseCanvasRenderer.renderFrame fuel now2 frameIndex this2)
         = Spec.seen
             (AseCanvasRenderer.renderCels fuel 0 (Frame.cels frame)
                (Spec.prepared d frameIndex
                   (AseCanvasRenderer.isFlipped this1)
                   (AseCanvasRenderer.layerVisibility this1)))))
  /\ (AseReader.frames d !!! frameIndex = None ->
      AseCanvasRenderer.forceRender fuel frameIndex this1
      = AseCanvasRenderer.Done this1
      /\ forall now,
           AseCanvasRenderer.renderFrame fuel now frameIndex this1
           = AseCanvasRenderer.Done this1)
  /\ (forall now,
        now - AseCanvasRenderer.lastRenderTime this1 < 100 ->
        AseCanvasRenderer.renderFrame fuel now frameIndex this1
        = AseCanvasRenderer.Done this1).
Proof.
  intros Hd1 Hd2 Hvis Hflip. split; [|split].
  - intros frame Hf.
    rewrite (forceRender_prepared _ _ _ _ _ Hd1 Hf).
    rewrite (forceRender_prepared _ _ _ _ _ Hd2 Hf).
    rewrite !seen_map_lastRenderTime, <- Hvis, <- Hflip.
    split; [reflexivity|]. split; [reflexivity|]. split; intros Hnow.
    + rewrite (renderFrame_prepared _ _ _ _ _ _ Hd1 Hf Hnow).
      apply seen_map_lastRenderTime.
    + rewrite (renderFrame_prepared _ _ _ _ _ _ Hd2 Hf Hnow).
      rewrite seen_map_lastRenderTime, <- Hvis, <- Hflip. reflexivity.
  - intros Hnone. split.
    + unfold AseCanvasRenderer.forceRender. rewrite Hd1, Hnone. reflexivity.
    + intros now. unfold AseCanvasRenderer.renderFrame.
      rewrite Hd1, Hnone. reflexivity.
  - intros now Hnow. apply renderFrame_limited. exact Hnow.
Qed.

(** A fresh renderer at time 2000, and one that has drawn frame 0 at time
    1000 and is asked at time 1100: both draw frame 1. Asked for frame 2,
    which the document does not have, the second keeps frame 0 on its
    canvas. *)
Lemma C9_render_outside_rate_limit_witness :
  Spec.seen
    (AseCanvasRenderer.renderFrame 0 2000 1
       (Sample.renderer Sample.twoPictures 0))
  = Spec.seen
      (AseCanvasRenderer.renderFrame 0 1100 1
         (AseCanvasRenderer.with_lastRenderTime 1000
            (AseCanvasRenderer.with_canvas
               [AseCanvasRenderer.mkDraw AseCanvasRenderer.Identity 1 1
                  (Sample.bytes [1; 2; 3; 4]) 0 0]
               (Sample.renderer Sample.twoPictures 0))))
  /\ AseCanvasRenderer.forceRender 0 2
       (AseCanvasRenderer.with_lastRenderTime 1000
          (AseCanvasRenderer.with_canvas
             [AseCanvasRenderer.mkDraw AseCanvasRenderer.Identity 1 1
                (Sample.bytes [1; 2; 3; 4]) 0 0]
             (Sample.renderer Sample.twoPictures 0)))
     = AseCanvasRenderer.Done
         (AseCanvasRenderer.with_lastRenderTime 1000
            (AseCanvasRenderer.with_canvas
               [AseCanvasRenderer.mkDraw AseCanvasRenderer.Identity 1 1
                  (Sample.bytes [1; 2; 3; 4]) 0 0]
               (Sample.renderer Sample.twoPictures 0))).
Proof.
  split.
  - destruct (proj1
      (C9_render_outside_rate_limit 0 1 Sample.twoPictures
         (Sample.renderer Sample.twoPictures 0)
         (AseCanvasRenderer.with_lastRenderTime 1000
            (AseCanvasRenderer.with_canvas
               [AseCanvasRenderer.mkDraw AseCanvasRenderer.Identity 1 1
                  (Sample.bytes [1; 2; 3; 4]) 0 0]
               (Sample.renderer Sample.twoPictures 0)))
         2000 1100 eq_refl eq_refl eq_refl eq_refl)
      (Sample.frame [Sample.rawCel 0 1 1 [5; 6; 7; 8]]) eq_refl)
      as (_ & _ & H1 & H2).
    rewrite (H1 ltac:(simpl; lia)), (H2 ltac:(simpl; lia)). reflexivity.
  - exact (proj1 (proj1 (proj2
      (C9_render_outside_rate_limit 0 2 Sample.twoPictures
         (AseCanvasRenderer.with_lastRenderTime 1000
            (AseCanvasRenderer.with_canvas
               [AseCanvasRenderer.mkDraw AseCanvasRenderer.Identity 1 1
                  (Sample.bytes [1; 2; 3; 4]) 0 0]
               (Sample.renderer Sample.twoPictures 0)))
         (Sample.renderer Sample.twoPictures 0)
         0 0 eq_refl eq_refl eq_refl eq_refl)) eq_refl)).
Defined.

(** * Further properties of the renderer *)

(** ** Decoding at the other depths *)

Section MoreImageData.
Import AseCanvasRenderer.

(** The loop of the grayscale branch after [n] of [N] pixels. *)
Lemma decode16_loop (raw : list byte) (N n : nat) :
  (n <= N)%nat ->
  for_loop n
    (fun i data =>
       let dataIndex := (i * 2)%nat in
       if (dataIndex + 1 <? length raw)%nat then
         let value := rd raw dataIndex in
         let alpha := rd raw (dataIndex + 1) in
         let pixelIndex := (i * 4)%nat in
         <[(pixelIndex + 3)%nat := alpha]>
           (<[(pixelIndex + 2)%nat := value]>
              (<[(pixelIndex + 1)%nat := value]>
                 (<[pixelIndex := value]> data)))
       else data)
    (replicate (N * 4) zero_byte)
  = flat_map (Spec.grayPixel raw) (seq 0 n)
    ++ replicate ((N - n) * 4) zero_byte.
Proof.
  induction n as [|n IH]; intros Hn.
  - simpl. rewrite Nat.sub_0_r. reflexivity.
  - rewrite for_loop_S, IH by lia. clear IH.
    rewrite flat_map_seq_S, <- app_assoc.
    set (pre := flat_map (Spec.grayPixel raw) (seq 0 n)).
    assert (Hpre : length pre = (n * 4)%nat).
    { apply flat_map_pixels_length. intros i. unfold Spec.grayPixel.
      repeat (case_match; try reflexivity). }
    replace ((N - n) * 4)%nat with (4 + (N - S n) * 4)%nat by lia.
    cbn [replicate Nat.add]. f_equal. unfold Spec.grayPixel.
    destruct (Nat.ltb_spec (n * 2 + 1) (length raw)) as [Hlt|Hge].
    + destruct (lookup_lt_is_Some_2 raw (n * 2)) as [v Hv]; [lia|].
      destruct (lookup_lt_is_Some_2 raw (n * 2 + 1) Hlt) as [a Ha].
      rewrite (rd_lookup _ _ _ Hv), (rd_lookup _ _ _ Ha), Hv, Ha.
      cbv zeta. rewrite (write_pixel pre _ (n * 4)) by exact Hpre.
      reflexivity.
    + rewrite (lookup_ge_None_2 raw (n * 2 + 1)) by lia.
      destruct (raw !! (n * 2)%nat); reflexivity.
Qed.

End MoreImageData.

Lemma decode16_closed (w h : Z) (raw : list byte) :
  AseCanvasRenderer.decode16 w h raw (AseCanvasRenderer.createImageData w h)
  = flat_map (Spec.grayPixel raw) (seq 0 (Z.to_nat (w * h))).
Proof.
  unfold AseCanvasRenderer.decode16, AseCanvasRenderer.createImageData.
  replace (Z.to_nat (w * h * 4)) with (Z.to_nat (w * h) * 4)%nat by lia.
  rewrite (decode16_loop raw _ _ (Nat.le_refl _)).
  rewrite Nat.sub_diag. simpl. apply app_nil_r.
Qed.

Lemma grayPixel_length raw i : length (Spec.grayPixel raw i) = 4%nat.
Proof.
  unfold Spec.grayPixel. repeat (case_match; try reflexivity).
Qed.

(** X1. At colour depth 16 the block of a [w] by [h] cel is, pixel by
    pixel, (value, value, value, alpha) from bytes [2i] and [2i+1] of the
    payload, and transparent black for a pixel whose two bytes are not both
    there; a single byte left over at the end is not used. *)
Theorem gray_pixels palette (w h : Z) (raw : list byte) :
  AseCanvasRenderer.decode 16 palette w h raw
  = flat_map (Spec.grayPixel raw) (seq 0 (Z.to_nat (w * h))).
Proof.
  unfold AseCanvasRenderer.decode. simpl. apply decode16_closed.
Qed.

(** X2. At colour depth 32 the block is the first [w * h * 4] bytes of
    the payload, followed by zeros if there are fewer: bytes of the payload
    past [w * h * 4] are not used. *)
Theorem rgba_bytes palette (w h : Z) (raw : list byte) :
  AseCanvasRenderer.decode 32 palette w h raw
  = take (Z.to_nat (w * h * 4)) raw
    ++ replicate (Z.to_nat (w * h * 4) - length raw) zero_byte.
Proof.
  unfold AseCanvasRenderer.decode. simpl. apply decode32_closed.
Qed.

(** X3. Whatever the colour depth, the palette and the payload, the
    block that is decoded for a [w] by [h] cel has [w * h * 4] bytes. *)
Theorem block_size colorDepth palette (w h : Z) (raw : list byte) :
  length (AseCanvasRenderer.decode colorDepth palette w h raw)
  = Z.to_nat (w * h * 4).
Proof.
  assert (Hpx : forall f : nat -> list byte,
             (forall i, length (f i) = 4%nat) ->
             length (flat_map f (seq 0 (Z.to_nat (w * h))))
             = Z.to_nat (w * h * 4)).
  { intros f Hf. rewrite (flat_map_pixels_length f _ Hf). lia. }
  unfold AseCanvasRenderer.decode.
  destruct (colorDepth =? 32).
  { rewrite decode32_closed, length_app, length_take, length_replicate.
    lia. }
  destruct (colorDepth =? 16).
  { rewrite decode16_closed. apply Hpx, grayPixel_length. }
  destruct (colorDepth =? 8).
  { rewrite decode8_closed. apply Hpx. intros i. apply indexedPixel_length. }
  apply length_replicate.
Qed.

(** ** What a render changes *)

Section RenderState.
Import AseCanvasRenderer.

Lemma with_canvas_same this : with_canvas (canvas this) this = this.
Proof. destruct this. reflexivity. Qed.

Lemma badSize_ltb (v : Z) : badSize (Some v) = negb (0 <? v).
Proof.
  unfold badSize.
  destruct (Z.eqb_spec v 0), (Z.leb_spec v 0), (Z.ltb_spec 0 v);
    try reflexivity; lia.
Qed.

(** Painting a cel appends its block, or nothing, to the canvas. *)
Lemma paintCel_canvas d c cel this :
  paintCel d c cel this
  = with_canvas (canvas this ++ Spec.celDraws d (ctx this) c cel) this.
Proof.
  assert (Hskip : this = with_canvas (canvas this ++ []) this)
    by (rewrite app_nil_r, with_canvas_same; reflexivity).
  unfold paintCel, Spec.celDraws.
  destruct (cd_rawCelData cel) as [[|b raw]|].
  - simpl. destruct (cd_w cel), (cd_h cel); rewrite ?andb_false_r;
      exact Hskip.
  - change (noData (Some (b :: raw))) with false. cbv iota.
    destruct (cd_w cel) as [w|]; [|exact Hskip].
    destruct (cd_h cel) as [h|];
      [|rewrite orb_true_r; exact Hskip].
    rewrite !badSize_ltb.
    change (negb (Nat.eqb (length (b :: raw)) 0)) with true.
    rewrite andb_true_r.
    destruct (0 <? w), (0 <? h); simpl; first [exact Hskip | reflexivity].
  - simpl. destruct (cd_w cel), (cd_h cel); exact Hskip.
Qed.

(** [writeCel] touches the canvas only. *)
Lemma writeCel_only_canvas fuel numCel this this' :
  Spec.after (writeCel fuel numCel this) = Some this' ->
  this' = with_canvas (canvas this') this.
Proof.
  assert (Hsame : Some this = Some this' ->
                  this' = with_canvas (canvas this') this)
    by (intros [= <-]; symmetry; apply with_canvas_same).
  unfold writeCel.
  destruct (aseData this) as [d|]; [|exact Hsame].
  destruct (frameCel d _ numCel) as [[c|]|e]; try exact Hsame.
  destruct (resolveCel d fuel numCel c) as [[cel|e]|].
  - intros [= <-]. rewrite paintCel_canvas. reflexivity.
  - exact Hsame.
  - discriminate.
Qed.

(** So does the cel loop. *)
Lemma renderCels_only_canvas fuel cels :
  forall i this this',
    Spec.after (renderCels fuel i cels this) = Some this' ->
    this' = with_canvas (canvas this') this.
Proof.
  induction cels as [|c rest IH]; intros i this this'.
  - intros [= <-]. symmetry. apply with_canvas_same.
  - cbn [renderCels].
    destruct (isLayerVisible this (Cel.layerIndex c)); [|apply IH].
    destruct (writeCel fuel i this) as [this1|e this1|] eqn:Hw.
    + intros H. apply IH in H.
      assert (H1 : this1 = with_canvas (canvas this1) this)
        by (apply (writeCel_only_canvas fuel i); rewrite Hw; reflexivity).
      rewrite H, H1. reflexivity.
    + intros [= <-].
      apply (writeCel_only_canvas fuel i). rewrite Hw. reflexivity.
    + discriminate.
Qed.

(** The cel loop over cels that all have their own pixels: every cel of a
    visible layer adds its block, in the order of the list. *)
Lemma renderCels_own fuel d cels :
  forall i this,
    aseData this = Some d ->
    (forall j c, cels !!! j = Some c ->
                 frameCel d (Some (currentFrame this)) (i + j)
                 = Normal (Some c)) ->
    Forall (fun c => Cel.celType c <> 1) cels ->
    renderCels fuel i cels this
    = Done (with_canvas
              (canvas this
               ++ flat_map
                    (fun c =>
                       if isLayerVisible this (Cel.layerIndex c)
                       then Spec.celDraws d (ctx this) c (celDataOf c)
                       else [])
                    cels)
              this).
Proof.
  induction cels as [|c rest IH]; intros i this Hd Hat Hown.
  - simpl. rewrite app_nil_r, with_canvas_same. reflexivity.
  - apply Forall_cons in Hown as [Hc Hown].
    assert (Hrest : forall this1,
               aseData this1 = Some d ->
               currentFrame this1 = currentFrame this ->
               forall j c', rest !!! j = Some c' ->
                 frameCel d (Some (currentFrame this1)) (i + 1 + j)
                 = Normal (Some c')).
    { intros this1 _ Hcf j c' Hj. rewrite Hcf.
      replace (i + 1 + j) with (i + (j + 1)) by lia.
      apply Hat. rewrite js_index_cons; [exact Hj|].
      exact (js_index_Some_nonneg _ _ _ Hj). }
    cbn [renderCels flat_map].
    destruct (isLayerVisible this (Cel.layerIndex c)).
    + assert (Hi : frameCel d (Some (currentFrame this)) i = Normal (Some c)).
      { rewrite <- (Z.add_0_r i). apply Hat. reflexivity. }
      rewrite (writeCel_own _ _ _ _ _ Hd Hi Hc), paintCel_canvas.
      rewrite IH; [|exact Hd | apply Hrest; [exact Hd | reflexivity]
                   | exact Hown].
      f_equal. unfold with_canvas. simpl. rewrite <- app_assoc.
      reflexivity.
    + rewrite IH; [reflexivity | exact Hd
                  | apply Hrest; [exact Hd | reflexivity] | exact Hown].
Qed.

(** What is left of the renderer after [renderFrame]: it is untouched, or it
    is on the frame that was asked for, which exists, with a new canvas and
    the time of this render. *)
Lemma renderFrame_after fuel now frameIndex this this' :
  Spec.after (renderFrame fuel now frameIndex this) = Some this' ->
  this' = this
  \/ (exists d frame,
        aseData this = Some d
        /\ AseReader.frames d !!! frameIndex = Some frame
        /\ 100 <= now - lastRenderTime this
        /\ this'
           = with_canvas (canvas this')
               (with_lastRenderTime now
                  (Spec.prepared d frameIndex (isFlipped this)
                     (layerVisibility this)))).
Proof.
  unfold renderFrame.
  destruct (aseData this) as [d|] eqn:Hd; [|intros [= <-]; left; reflexivity].
  destruct (AseReader.frames d !!! frameIndex) as [frame|] eqn:Hf;
    [|intros [= <-]; left; reflexivity].
  destruct (Z.ltb_spec (now - lastRenderTime this) 100) as [?|Hnow];
    [intros [= <-]; left; reflexivity|].
  intros H. right. exists d, frame. repeat split; try assumption; try lia.
  apply renderCels_only_canvas in H. rewrite H at 1. f_equal.
  unfold fitToContainer, clearCanvas, with_canvas, with_currentFrame,
    with_ctx, with_lastRenderTime, Spec.prepared. simpl. rewrite Hd.
  reflexivity.
Qed.

Lemma forceRender_after fuel frameIndex this this' :
  Spec.after (forceRender fuel frameIndex this) = Some this' ->
  this' = this
  \/ (exists d frame,
        aseData this = Some d
        /\ AseReader.frames d !!! frameIndex = Some frame
        /\ this'
           = with_canvas (canvas this')
               (with_lastRenderTime (lastRenderTime this)
                  (Spec.prepared d frameIndex (isFlipped this)
                     (layerVisibility this)))).
Proof.
  unfold forceRender.
  destruct (aseData this) as [d|] eqn:Hd; [|intros [= <-]; left; reflexivity].
  destruct (AseReader.frames d !!! frameIndex) as [frame|] eqn:Hf;
    [|intros [= <-]; left; reflexivity].
  intros H. right. exists d, frame. repeat split; try assumption.
  apply renderCels_only_canvas in H. rewrite H at 1. f_equal.
  unfold fitToContainer, clearCanvas, with_canvas, with_currentFrame,
    with_ctx, with_lastRenderTime, Spec.prepared. simpl. rewrite Hd.
  reflexivity.
Qed.

(** A render leaves the renderer on a frame if it was on one. *)
Lemma renderFrame_onFrame fuel now frameIndex this this' :
  Spec.onFrame this ->
  Spec.after (renderFrame fuel now frameIndex this) = Some this' ->
  Spec.onFrame this'.
Proof.
  intros Hon H.
  destruct (renderFrame_after _ _ _ _ _ H)
    as [->|(d & frame & Hd & Hf & _ & ->)]; [exact Hon|].
  exists d, frame. split; [reflexivity | exact Hf].
Qed.

End RenderState.

(** ** Renders that meet a cycle of links *)

Section Cycles.
Import AseCanvasRenderer.

Variable fuel : nat.
Variable d : AseReader.t.
Variable numCel : Z.
Variable onChain : Cel.t -> Prop.
Variable c : Cel.t.
Variable f : Z.
Hypothesis Hlink : Spec.linkedTo c f.
Hypothesis Hend : Spec.endless d numCel onChain.
Hypothesis Hon : onChain c.

(** The cel loop does not complete once it has to paint the cel at
    [numCel]. *)
Lemma renderCels_cycle cels :
  forall i this,
    aseData this = Some d ->
    frameCel d (Some (currentFrame this)) numCel = Normal (Some c) ->
    cels !!! (numCel - i) = Some c ->
    isLayerVisible this (Cel.layerIndex c) = true ->
    forall this', renderCels fuel i cels this <> Done this'.
Proof.
  induction cels as [|c0 rest IH]; intros i this Hd Hc Hpos Hvis this'.
  - unfold js_index in Hpos. destruct (numCel - i <? 0); discriminate.
  - cbn [renderCels]. destruct (Z.eq_dec numCel i) as [->|Hne].
    + rewrite Z.sub_diag in Hpos. injection Hpos as ->. rewrite Hvis.
      rewrite (writeCel_endless fuel i this d c f onChain
                 Hd Hc Hlink Hend Hon).
      discriminate.
    + pose proof (js_index_Some_nonneg _ _ _ Hpos) as Hge.
      assert (Hrest : rest !!! (numCel - (i + 1)) = Some c).
      { rewrite <- Hpos.
        replace (numCel - i) with (numCel - (i + 1) + 1) by lia.
        symmetry. apply js_index_cons. lia. }
      destruct (isLayerVisible this (Cel.layerIndex c0));
        [|exact (IH _ _ Hd Hc Hrest Hvis this')].
      destruct (writeCel fuel i this) as [this1|e this1|] eqn:Hw;
        [|discriminate|discriminate].
      assert (H1 : this1 = with_canvas (canvas this1) this)
        by (apply (writeCel_only_canvas fuel i); rewrite Hw; reflexivity).
      apply IH; [rewrite H1; exact Hd | rewrite H1; exact Hc | exact Hrest|].
      rewrite H1. exact Hvis.
Qed.

(** It does not return at all when the cels before that one have their own
    pixels. *)
Lemma renderCels_cycle_first cels :
  forall i this,
    aseData this = Some d ->
    (forall j c', cels !!! j = Some c' ->
                  frameCel d (Some (currentFrame this)) (i + j)
                  = Normal (Some c')) ->
    cels !!! (numCel - i) = Some c ->
    isLayerVisible this (Cel.layerIndex c) = true ->
    (forall j c', 0 <= j < numCel - i -> cels !!! j = Some c' ->
                  Cel.celType c' <> 1) ->
    renderCels fuel i cels this = Unfinished.
Proof.
  induction cels as [|c0 rest IH]; intros i this Hd Hcels Hpos Hvis Hown.
  - unfold js_index in Hpos. destruct (numCel - i <? 0); discriminate.
  - assert (Hc0 : frameCel d (Some (currentFrame this)) i = Normal (Some c0))
      by (rewrite <- (Z.add_0_r i) at 1; apply Hcels; reflexivity).
    cbn [renderCels]. destruct (Z.eq_dec numCel i) as [->|Hne].
    + rewrite Z.sub_diag in Hpos. injection Hpos as ->. rewrite Hvis.
      rewrite (writeCel_endless fuel i this d c f onChain
                 Hd Hc0 Hlink Hend Hon).
      reflexivity.
    + pose proof (js_index_Some_nonneg _ _ _ Hpos) as Hge.
      assert (Hrest : rest !!! (numCel - (i + 1)) = Some c).
      { rewrite <- Hpos.
        replace (numCel - i) with (numCel - (i + 1) + 1) by lia.
        symmetry. apply js_index_cons. lia. }
      assert (Hcels' : forall this1,
                currentFrame this1 = currentFrame this ->
                forall j c', rest !!! j = Some c' ->
                  frameCel d (Some (currentFrame this1)) (i + 1 + j)
                  = Normal (Some c')).
      { intros this1 H1 j c' Hj. rewrite H1.
        replace (i + 1 + j) with (i + (j + 1)) by lia.
        apply Hcels. rewrite js_index_cons; [exact Hj|].
        exact (js_index_Some_nonneg _ _ _ Hj). }
      assert (Hown' : forall j c', 0 <= j < numCel - (i + 1) ->
                rest !!! j = Some c' -> Cel.celType c' <> 1).
      { intros j c' Hj Hc'. apply (Hown (j + 1)); [lia|].
        rewrite js_index_cons; [exact Hc' | lia]. }
      destruct (isLayerVisible this (Cel.layerIndex c0));
        [|exact (IH _ _ Hd (Hcels' this eq_refl) Hrest Hvis Hown')].
      assert (Hty : Cel.celType c0 <> 1)
        by (apply (Hown 0); [lia | reflexivity]).
      rewrite (writeCel_own fuel i this d c0 Hd Hc0 Hty).
      rewrite paintCel_canvas.
      apply IH; [exact Hd | apply Hcels'; reflexivity | exact Hrest
                | exact Hvis | exact Hown'].
Qed.

End Cycles.

(** C1, amended. Resolution has no bound on the number of links and no
    error of its own. For a linked cel whose links, followed at its position
    in the cel list, never leave a set of linked cels (a cycle), [writeCel]
    does not return, however many turns the loop is given. A render of its
    frame that has to paint it, the layer of the cel being visible and the
    render forced or let through by the rate limit, therefore never
    completes: it does not return at all when the cels before it in the cel
    list carry their own pixels, and otherwise it does not return or ends
    with the exception of an earlier cel. For a linked cel whose chain leads
    to a frame, or to a position in a frame, that does not exist,
    [writeCel] throws a [TypeError] and paints nothing. *)
Theorem C1_resolution_unbounded fuel frameIndex numCel this d frame c f :
  AseCanvasRenderer.aseData this = Some d ->
  AseReader.frames d !!! frameIndex = Some frame ->
  Frame.cels frame !!! numCel = Some c ->
  Spec.linkedTo c f ->
  (forall onChain,
     Spec.endless d numCel onChain -> onChain c ->
     (AseCanvasRenderer.currentFrame this = frameIndex ->
      AseCanvasRenderer.writeCel fuel numCel this
      = AseCanvasRenderer.Unfinished)
     /\ (AseCanvasRenderer.isLayerVisible this (Cel.layerIndex c) = true ->
         (forall this',
            AseCanvasRenderer.forceRender fuel frameIndex this
            <> AseCanvasRenderer.Done this')
         /\ (forall now this',
               100 <= now - AseCanvasRenderer.lastRenderTime this ->
               AseCanvasRenderer.renderFrame fuel now frameIndex this
               <> AseCanvasRenderer.Done this')
         /\ ((forall j c', 0 <= j < numCel ->
                Frame.cels frame !!! j = Some c' -> Cel.celType c' <> 1) ->
             AseCanvasRenderer.forceRender fuel frameIndex this
             = AseCanvasRenderer.Unfinished
             /\ forall now,
                  100 <= now - AseCanvasRenderer.lastRenderTime this ->
                  AseCanvasRenderer.renderFrame fuel now frameIndex this
                  = AseCanvasRenderer.Unfinished)))
  /\ (forall k,
        Spec.chain d numCel f Spec.Missing k -> (k <= fuel)%nat ->
        AseCanvasRenderer.currentFrame this = frameIndex ->
        AseCanvasRenderer.writeCel fuel numCel this
        = AseCanvasRenderer.Raised TypeError this).
Proof.
  intros Hd Hf Hc Hlink.
  assert (Hcel : forall this0,
            AseCanvasRenderer.currentFrame this0 = frameIndex ->
            AseCanvasRenderer.frameCel d
              (Some (AseCanvasRenderer.currentFrame this0)) numCel
            = Normal (Some c)).
  { intros this0 ->. rewrite (frameCel_lookup _ _ _ _ Hf), Hc.
    reflexivity. }
  split.
  - intros onChain Hend Hon. split.
    + intros Hcur.
      exact (writeCel_endless _ _ _ _ _ _ _ Hd (Hcel _ Hcur) Hlink Hend Hon).
    + intros Hvis.
      set (this0 := Spec.prepared d frameIndex
                      (AseCanvasRenderer.isFlipped this)
                      (AseCanvasRenderer.layerVisibility this)).
      assert (Hvis0 : AseCanvasRenderer.isLayerVisible this0
                        (Cel.layerIndex c) = true).
      { rewrite <- Hvis. apply isLayerVisible_ext; [|reflexivity].
        rewrite Hd. reflexivity. }
      assert (Hpos : Frame.cels frame !!! (numCel - 0) = Some c)
        by (rewrite Z.sub_0_r; exact Hc).
      assert (Hnot : forall this1,
                AseCanvasRenderer.renderCels fuel 0 (Frame.cels frame) this0
                <> AseCanvasRenderer.Done this1).
      { apply (renderCels_cycle fuel d numCel onChain c f Hlink Hend Hon);
          [reflexivity | apply Hcel; reflexivity | exact Hpos | exact Hvis0]. }
      split; [|split].
      * intros this'. rewrite (forceRender_prepared _ _ _ _ _ Hd Hf).
        fold this0.
        destruct (AseCanvasRenderer.renderCels fuel 0 (Frame.cels frame)
                    this0) as [t|e t|] eqn:Hr;
          [exfalso; exact (Hnot t eq_refl) | discriminate | discriminate].
      * intros now this' Hnow.
        rewrite (renderFrame_prepared _ _ _ _ _ _ Hd Hf Hnow).
        fold this0.
        destruct (AseCanvasRenderer.renderCels fuel 0 (Frame.cels frame)
                    this0) as [t|e t|] eqn:Hr;
          [exfalso; exact (Hnot t eq_refl) | discriminate | discriminate].
      * intros Hown.
        assert (Hun : AseCanvasRenderer.renderCels fuel 0 (Frame.cels frame)
                        this0
                      = AseCanvasRenderer.Unfinished).
        { apply (renderCels_cycle_first fuel d numCel onChain c f
                   Hlink Hend Hon);
            [reflexivity | | exact Hpos | exact Hvis0 |].
          - intros j c' Hj. rewrite Z.add_0_l.
            change (AseCanvasRenderer.currentFrame this0) with frameIndex.
            rewrite (frameCel_lookup _ _ _ _ Hf), Hj. reflexivity.
          - intros j c' Hj. apply Hown. lia. }
        split.
        -- rewrite (forceRender_prepared _ _ _ _ _ Hd Hf). fold this0.
           rewrite Hun. reflexivity.
        -- intros now Hnow.
           rewrite (renderFrame_prepared _ _ _ _ _ _ Hd Hf Hnow).
           fold this0. rewrite Hun. reflexivity.
  - intros k Hch Hfuel Hcur.
    exact (writeCel_chain _ _ _ _ _ _ _ _ Hd (Hcel _ Hcur) Hlink Hch Hfuel).
Qed.

(** After a thousand turns the cycle of [Sample.cyclic] is still being
    followed, in [writeCel] and in a forced render of frame 0; the chain of
    [Sample.dangling] breaks off after one link. *)
Lemma C1_resolution_unbounded_witness :
  AseCanvasRenderer.writeCel 1000 0 (Sample.renderer Sample.cyclic 0)
  = AseCanvasRenderer.Unfinished
  /\ AseCanvasRenderer.forceRender 1000 0 (Sample.renderer Sample.cyclic 0)
     = AseCanvasRenderer.Unfinished
  /\ AseCanvasRenderer.writeCel 1000 0 (Sample.renderer Sample.dangling 1)
     = AseCanvasRenderer.Raised TypeError
         (Sample.renderer Sample.dangling 1).
Proof.
  destruct (proj1 (C1_resolution_unbounded 1000 0 0
                     (Sample.renderer Sample.cyclic 0) Sample.cyclic
                     (Sample.frame [Sample.linkedCel 0 1])
                     (Sample.linkedCel 0 1) 1
                     eq_refl eq_refl eq_refl (conj eq_refl eq_refl))
              _ cyclic_endless (or_introl eq_refl))
    as [Hwrite Hrender].
  split; [exact (Hwrite eq_refl)|]. split.
  - destruct (Hrender eq_refl) as (_ & _ & Hfirst).
    apply Hfirst. intros j c' Hj. lia.
  - refine (proj2 (C1_resolution_unbounded 1000 1 0
                     (Sample.renderer Sample.dangling 1) Sample.dangling
                     (Sample.frame [Sample.linkedCel 0 0])
                     (Sample.linkedCel 0 0) 0
                     eq_refl eq_refl eq_refl (conj eq_refl eq_refl))
              1%nat _ ltac:(lia) eq_refl).
    apply (Spec.chain_link _ _ 0 (Sample.frame [Sample.linkedCel 0 5])
             (Sample.linkedCel 0 5) 5);
      [reflexivity | reflexivity | split; reflexivity |].
    apply Spec.chain_no_frame. reflexivity.
Defined.

(** ** The order of painting *)

(** X4. Rendering a frame whose cels all carry their own pixels
    completes, and the canvas then holds, in the order of the cel list and
    so with later cels above earlier ones, one block for each cel whose
    layer is visible and that has data and a positive size, and nothing
    else. *)
Theorem paint_order fuel frameIndex this d frame :
  AseCanvasRenderer.aseData this = Some d ->
  AseReader.frames d !!! frameIndex = Some frame ->
  Forall (fun c => Cel.celType c <> 1) (Frame.cels frame) ->
  exists this',
    AseCanvasRenderer.forceRender fuel frameIndex this
    = AseCanvasRenderer.Done this'
    /\ AseCanvasRenderer.canvas this'
       = flat_map
           (fun c =>
              if AseCanvasRenderer.isLayerVisible this (Cel.layerIndex c)
              then Spec.celDraws d
                     (AseCanvasRenderer.Fit (AseReader.width d)
                        (AseReader.height d)
                        (AseCanvasRenderer.isFlipped this))
                     c (AseCanvasRenderer.celDataOf c)
              else [])
           (Frame.cels frame).
Proof.
  intros Hd Hf Hown. unfold AseCanvasRenderer.forceRender.
  rewrite Hd, Hf.
  assert (Hprep :
    AseCanvasRenderer.fitToContainer
      (AseCanvasRenderer.clearCanvas
         (AseCanvasRenderer.with_currentFrame frameIndex this))
    = AseCanvasRenderer.with_lastRenderTime
        (AseCanvasRenderer.lastRenderTime this)
        (Spec.prepared d frameIndex (AseCanvasRenderer.isFlipped this)
           (AseCanvasRenderer.layerVisibility this))).
  { unfold AseCanvasRenderer.fitToContainer, AseCanvasRenderer.clearCanvas,
      AseCanvasRenderer.with_canvas, AseCanvasRenderer.with_currentFrame,
      AseCanvasRenderer.with_ctx, AseCanvasRenderer.with_lastRenderTime,
      Spec.prepared.
    simpl. rewrite Hd. reflexivity. }
  rewrite Hprep. eexists. split.
  - apply (renderCels_own fuel d).
    + reflexivity.
    + intros j c Hj.
      change (AseCanvasRenderer.frameCel d (Some frameIndex) j
              = Normal (Some c)).
      rewrite (frameCel_lookup _ _ _ _ Hf), Hj. reflexivity.
    + exact Hown.
  - simpl. apply flat_map_ext. intros c.
    rewrite (isLayerVisible_ext this
               (AseCanvasRenderer.with_lastRenderTime
                  (AseCanvasRenderer.lastRenderTime this)
                  (Spec.prepared d frameIndex
                     (AseCanvasRenderer.isFlipped this)
                     (AseCanvasRenderer.layerVisibility this)))
               (Cel.layerIndex c) (eq_sym Hd) eq_refl).
    reflexivity.
Qed.

Lemma paint_order_witness :
  exists this',
    AseCanvasRenderer.forceRender 0 0 (Sample.renderer Sample.twoLayers 0)
    = AseCanvasRenderer.Done this'
    /\ map AseCanvasRenderer.data (AseCanvasRenderer.canvas this')
       = [Sample.bytes [1; 2; 3; 4]; Sample.bytes [5; 6; 7; 8]].
Proof.
  destruct (paint_order 0 0 (Sample.renderer Sample.twoLayers 0)
              Sample.twoLayers
              (Sample.frame [Sample.rawCel 0 1 1 [1; 2; 3; 4];
                             Sample.rawCel 1 1 1 [5; 6; 7; 8]])
              eq_refl eq_refl)
    as (this' & Hrender & Hcanvas).
  - repeat constructor; discriminate.
  - exists this'. split; [exact Hrender|]. rewrite Hcanvas. reflexivity.
Defined.

(** ** Showing and hiding layers *)

Section Visibility.
Import AseCanvasRenderer.

Lemma setAllLayers_lookup visible (n : nat) (m : gmap Z bool) (k : Z) :
  setAllLayers visible n m !! k
  = if (0 <=? k) && (k <? Z.of_nat n) then Some visible else m !! k.
Proof.
  unfold setAllLayers. induction n as [|n IH].
  - assert (Hno : (0 <=? k) && (k <? Z.of_nat 0) = false)
      by (destruct (Z.leb_spec 0 k), (Z.ltb_spec k (Z.of_nat 0));
          simpl in *; try reflexivity; lia).
    rewrite Hno. reflexivity.
  - rewrite for_loop_S.
    destruct (Z.eq_dec (Z.of_nat n) k) as [<-|Hne].
    + rewrite lookup_insert_eq.
      destruct (Z.leb_spec 0 (Z.of_nat n)); [|lia].
      destruct (Z.ltb_spec (Z.of_nat n) (Z.of_nat (S n))); [|lia].
      reflexivity.
    + rewrite lookup_insert_ne by exact Hne. rewrite IH.
      destruct (Z.leb_spec 0 k); [|reflexivity]. simpl.
      destruct (Z.ltb_spec k (Z.of_nat n)), (Z.ltb_spec k (Z.of_nat (S n)));
        try reflexivity; lia.
Qed.

Lemma js_index_Some_lt {A} (l : list A) (j : Z) (x : A) :
  l !!! j = Some x -> 0 <= j < Z.of_nat (length l).
Proof.
  intros H. pose proof (js_index_Some_nonneg _ _ _ H) as Hj.
  unfold js_index in H. destruct (Z.ltb_spec j 0); [lia|].
  apply lookup_lt_Some in H. lia.
Qed.

(** What [renderFrame] leaves of the document and of the overrides. *)
Lemma renderFrame_keeps fuel now frameIndex this this' :
  Spec.after (renderFrame fuel now frameIndex this) = Some this' ->
  aseData this' = aseData this
  /\ layerVisibility this' = layerVisibility this
  /\ isFlipped this' = isFlipped this.
Proof.
  intros H.
  destruct (renderFrame_after _ _ _ _ _ H)
    as [->|(d & frame & Hd & _ & _ & ->)]; [repeat split|].
  rewrite Hd. repeat split.
Qed.

(** The cel loop over cels of hidden layers paints nothing. *)
Lemma renderCels_hidden fuel cels :
  forall i this,
    Forall (fun c => isLayerVisible this (Cel.layerIndex c) = false) cels ->
    renderCels fuel i cels this = Done this.
Proof.
  induction cels as [|c rest IH]; intros i this Hall; [reflexivity|].
  apply Forall_cons in Hall as [Hc Hrest].
  cbn [renderCels]. rewrite Hc. apply IH. exact Hrest.
Qed.

End Visibility.

(** ** Overrides and the rate limit *)

(** With the override [false] for a layer, the cel loop of a render calls
    [writeCel] at positions only that hold a cel of another layer. *)
Lemma renderCels_without_layer fuel d (layerIndex : Z) layer frameIndex
    flipped (overrides : gmap Z bool) cels i :
  AseReader.layers d !!! layerIndex = Some layer ->
  overrides !! layerIndex = Some false ->
  exists positions,
    AseCanvasRenderer.renderCels fuel i cels
      (Spec.prepared d frameIndex flipped overrides)
    = Spec.writeCels fuel positions
        (Spec.prepared d frameIndex flipped overrides)
    /\ forall p, In p positions ->
         exists c, cels !!! (p - i) = Some c
                   /\ Cel.layerIndex c <> layerIndex.
Proof.
  intros Hl Hov.
  exists (Spec.paintedPositions
            (Spec.prepared d frameIndex flipped overrides) i cels).
  split; [apply renderCels_writeCels|].
  intros p Hin.
  destruct (paintedPositions_visible _ _ _ _ Hin) as (c & Hc & Hv).
  exists c. split; [exact Hc|]. intros Heq.
  rewrite Heq in Hv.
  rewrite (isLayerVisible_layer
             (Spec.prepared d frameIndex flipped overrides) d layerIndex
             layer eq_refl Hl) in Hv.
  unfold Spec.effectiveVisible in Hv. simpl in Hv. rewrite Hov in Hv.
  discriminate.
Qed.

(** C8, as stated, fails. The renderer has drawn the frame of
    [Sample.twoLayers] at time 1000, with the cels of layer 0 and layer 1.
    [setLayerVisibility(1, false)] at time 1050 stores the override, so
    that layer 1 is no longer visible, but the render that it asks for is
    held back: the cel of layer 1 is still on the canvas. *)
Lemma C8_override_within_rate_limit :
  exists drawn hidden,
    AseCanvasRenderer.renderFrame 0 1000 0
      (Sample.renderer Sample.twoLayers 0)
    = AseCanvasRenderer.Done drawn
    /\ AseCanvasRenderer.setLayerVisibility 0 1050 1 false drawn
       = AseCanvasRenderer.Done hidden
    /\ AseCanvasRenderer.isLayerVisible hidden 1 = false
    /\ map AseCanvasRenderer.data (AseCanvasRenderer.canvas hidden)
       = [Sample.bytes [1; 2; 3; 4]; Sample.bytes [5; 6; 7; 8]].
Proof. do 2 eexists. repeat split; vm_compute; reflexivity. Qed.

(** C8, amended. For a layer of the document, [isLayerVisible] is the
    override that the renderer holds for its index if it holds one, and
    otherwise bit 0 of the flags of the layer (visible when the flags are of
    no known form). [setLayerVisibility] stores the override, so that the
    layer is as visible afterwards as the call says, and asks [renderFrame]
    for the current frame. While the renderer holds the override [false]
    for the layer, a forced render and a render that the rate limit lets
    through clear the canvas and call [writeCel] at positions of the cel
    list only that hold a cel of another layer: no cel of that layer is
    painted, whatever its flags; so does [setLayerVisibility] with [false],
    on a frame of the document and at least 100 ms after the last render
    that was let through. Within 100 ms of that render
    [setLayerVisibility] returns with the override stored and the canvas as
    it was. *)
Theorem C8_effective_visibility fuel now this d (layerIndex : Z) layer :
  AseCanvasRenderer.aseData this = Some d ->
  AseReader.layers d !!! layerIndex = Some layer ->
  AseCanvasRenderer.isLayerVisible this layerIndex
  = Spec.effectiveVisible (AseCanvasRenderer.layerVisibility this)
      layer layerIndex
  /\ (forall visible this',
        Spec.after
          (AseCanvasRenderer.setLayerVisibility fuel now layerIndex visible
             this)
        = Some this' ->
        AseCanvasRenderer.layerVisibility this'
        = <[layerIndex := visible]> (AseCanvasRenderer.layerVisibility this)
        /\ AseCanvasRenderer.isLayerVisible this' layerIndex = visible)
  /\ (AseCanvasRenderer.layerVisibility this !! layerIndex = Some false ->
      forall frameIndex frame,
        AseReader.frames d !!! frameIndex = Some frame ->
        exists positions,
          (forall p, In p positions ->
             exists c, Frame.cels frame !!! p = Some c
                       /\ Cel.layerIndex c <> layerIndex)
          /\ AseCanvasRenderer.forceRender fuel frameIndex this
             = Spec.map_run
                 (AseCanvasRenderer.with_lastRenderTime
                    (AseCanvasRenderer.lastRenderTime this))
                 (Spec.writeCels fuel positions
                    (Spec.prepared d frameIndex
                       (AseCanvasRenderer.isFlipped this)
                       (AseCanvasRenderer.layerVisibility this)))
          /\ (100 <= now - AseCanvasRenderer.lastRenderTime this ->
              AseCanvasRenderer.renderFrame fuel now frameIndex this
              = Spec.map_run (AseCanvasRenderer.with_lastRenderTime now)
                  (Spec.writeCels fuel positions
                     (Spec.prepared d frameIndex
                        (AseCanvasRenderer.isFlipped this)
                        (AseCanvasRenderer.layerVisibility this)))))
  /\ (forall frame,
        AseReader.frames d !!! AseCanvasRenderer.currentFrame this
        = Some frame ->
        100 <= now - AseCanvasRenderer.lastRenderTime this ->
        exists positions,
          (forall p, In p positions ->
             exists c, Frame.cels frame !!! p = Some c
                       /\ Cel.layerIndex c <> layerIndex)
          /\ AseCanvasRenderer.setLayerVisibility fuel now layerIndex false
               this
             = Spec.map_run (AseCanvasRenderer.with_lastRenderTime now)
                 (Spec.writeCels fuel positions
                    (Spec.prepared d (AseCanvasRenderer.currentFrame this)
                       (AseCanvasRenderer.isFlipped this)
                       (<[layerIndex := false]>
                          (AseCanvasRenderer.layerVisibility this)))))
  /\ (now - AseCanvasRenderer.lastRenderTime this < 100 ->
      forall visible,
        AseCanvasRenderer.setLayerVisibility fuel now layerIndex visible this
        = AseCanvasRenderer.Done
            (AseCanvasRenderer.with_layerVisibility
               (<[layerIndex := visible]>
                  (AseCanvasRenderer.layerVisibility this)) this)).
Proof.
  intros Hd Hl.
  assert (Hset : forall visible,
            AseCanvasRenderer.setLayerVisibility fuel now layerIndex visible
              this
            = AseCanvasRenderer.renderFrame fuel now
                (AseCanvasRenderer.currentFrame this)
                (AseCanvasRenderer.with_layerVisibility
                   (<[layerIndex := visible]>
                      (AseCanvasRenderer.layerVisibility this)) this)).
  { intros visible. unfold AseCanvasRenderer.setLayerVisibility.
    cbv zeta.
    change (AseCanvasRenderer.aseData
              (AseCanvasRenderer.with_layerVisibility
                 (<[layerIndex := visible]>
                    (AseCanvasRenderer.layerVisibility this)) this))
      with (AseCanvasRenderer.aseData this).
    rewrite Hd. reflexivity. }
  split; [exact (isLayerVisible_layer _ _ _ _ Hd Hl)|].
  split; [|split; [|split]].
  - intros visible this' H. rewrite Hset in H.
    apply renderFrame_keeps in H as (Hd' & Hv' & _).
    split; [exact Hv'|].
    rewrite (isLayerVisible_layer this' d layerIndex layer);
      [|rewrite Hd'; exact Hd | exact Hl].
    unfold Spec.effectiveVisible. rewrite Hv'. simpl.
    rewrite lookup_insert_eq. reflexivity.
  - intros Hov frameIndex frame Hf.
    destruct (renderCels_without_layer fuel d layerIndex layer frameIndex
                (AseCanvasRenderer.isFlipped this)
                (AseCanvasRenderer.layerVisibility this)
                (Frame.cels frame) 0 Hl Hov) as (positions & Hr & Hpos).
    exists positions. split; [|split].
    + intros p Hin. destruct (Hpos p Hin) as (c & Hc & Hne).
      rewrite Z.sub_0_r in Hc. exists c. split; assumption.
    + rewrite (forceRender_prepared _ _ _ _ _ Hd Hf), Hr. reflexivity.
    + intros Hnow.
      rewrite (renderFrame_prepared _ _ _ _ _ _ Hd Hf Hnow), Hr.
      reflexivity.
  - intros frame Hf Hnow.
    destruct (renderCels_without_layer fuel d layerIndex layer
                (AseCanvasRenderer.currentFrame this)
                (AseCanvasRenderer.isFlipped this)
                (<[layerIndex := false]>
                   (AseCanvasRenderer.layerVisibility this))
                (Frame.cels frame) 0 Hl (lookup_insert_eq _ _ _))
      as (positions & Hr & Hpos).
    exists positions. split.
    + intros p Hin. destruct (Hpos p Hin) as (c & Hc & Hne).
      rewrite Z.sub_0_r in Hc. exists c. split; assumption.
    + rewrite Hset.
      rewrite (renderFrame_prepared fuel now
                 (AseCanvasRenderer.currentFrame this)
                 (AseCanvasRenderer.with_layerVisibility
                    (<[layerIndex := false]>
                       (AseCanvasRenderer.layerVisibility this)) this)
                 d frame Hd Hf Hnow).
      change (AseCanvasRenderer.isFlipped
                (AseCanvasRenderer.with_layerVisibility
                   (<[layerIndex := false]>
                      (AseCanvasRenderer.layerVisibility this)) this))
        with (AseCanvasRenderer.isFlipped this).
      change (AseCanvasRenderer.layerVisibility
                (AseCanvasRenderer.with_layerVisibility
                   (<[layerIndex := false]>
                      (AseCanvasRenderer.layerVisibility this)) this))
        with (<[layerIndex := false]>
                (AseCanvasRenderer.layerVisibility this)).
      rewrite Hr. reflexivity.
  - intros Hnow visible. rewrite Hset.
    apply renderFrame_limited. exact Hnow.
Qed.

(** Layer 1 of [Sample.twoLayers] is flagged visible. At time 2000 the
    render of [setLayerVisibility(1, false)] is let through: afterwards
    layer 1 is not visible, and the canvas holds the cel of layer 0
    alone. *)
Lemma C8_effective_visibility_witness :
  exists this',
    Spec.after
      (AseCanvasRenderer.setLayerVisibility 0 2000 1 false
         (Sample.renderer Sample.twoLayers 0))
    = Some this'
    /\ AseCanvasRenderer.isLayerVisible this' 1 = false
    /\ map AseCanvasRenderer.data (AseCanvasRenderer.canvas this')
       = [Sample.bytes [1; 2; 3; 4]].
Proof.
  destruct (Spec.after
              (AseCanvasRenderer.setLayerVisibility 0 2000 1 false
                 (Sample.renderer Sample.twoLayers 0)))
    as [this'|] eqn:H; [|vm_compute in H; discriminate].
  exists this'. split; [reflexivity|]. split.
  - exact (proj2 (proj1 (proj2
      (C8_effective_visibility 0 2000 (Sample.renderer Sample.twoLayers 0)
         Sample.twoLayers 1 (Sample.layer 1) eq_refl eq_refl))
      false this' H)).
  - vm_compute in H. injection H as <-. reflexivity.
Defined.

(** X5. After [hideAllLayers], whether its render ran, was held back by
    the rate limit or threw, every layer of the document is invisible,
    whatever its flags and whatever override it had; an index that names no
    layer stays visible. When the render runs, on a frame whose cels all
    name layers of the document, it completes and leaves the canvas
    empty. *)
Theorem hide_all_layers fuel now this d :
  AseCanvasRenderer.aseData this = Some d ->
  (forall this',
     Spec.after (AseCanvasRenderer.hideAllLayers fuel now this)
     = Some this' ->
     forall layerIndex,
       AseCanvasRenderer.isLayerVisible this' layerIndex
       = match AseReader.layers d !!! layerIndex with
         | Some _ => false
         | None => true
         end)
  /\ (forall frame,
        100 <= now - AseCanvasRenderer.lastRenderTime this ->
        AseReader.frames d !!! AseCanvasRenderer.currentFrame this
        = Some frame ->
        Forall (fun c => is_Some (AseReader.layers d !!! Cel.layerIndex c))
               (Frame.cels frame) ->
        exists this',
          AseCanvasRenderer.hideAllLayers fuel now this
          = AseCanvasRenderer.Done this'
          /\ AseCanvasRenderer.canvas this' = []).
Proof.
  intros Hd.
  set (hidden :=
         AseCanvasRenderer.with_layerVisibility
           (AseCanvasRenderer.setAllLayers false
              (length (AseReader.layers d))
              (AseCanvasRenderer.layerVisibility this)) this).
  assert (Hvis : forall t,
             AseCanvasRenderer.aseData t = Some d ->
             AseCanvasRenderer.layerVisibility t
             = AseCanvasRenderer.layerVisibility hidden ->
             forall layerIndex,
               AseCanvasRenderer.isLayerVisible t layerIndex
               = match AseReader.layers d !!! layerIndex with
                 | Some _ => false
                 | None => true
                 end).
  { intros t Ht Hm layerIndex.
    destruct (AseReader.layers d !!! layerIndex) as [layer|] eqn:Hl.
    - rewrite (isLayerVisible_layer _ _ _ _ Ht Hl).
      unfold Spec.effectiveVisible. rewrite Hm. simpl.
      rewrite setAllLayers_lookup.
      pose proof (js_index_Some_lt _ _ _ Hl) as [H0 H1].
      destruct (Z.leb_spec 0 layerIndex); [|lia].
      destruct (Z.ltb_spec layerIndex
                  (Z.of_nat (length (AseReader.layers d)))); [|lia].
      reflexivity.
    - unfold AseCanvasRenderer.isLayerVisible. rewrite Ht, Hl.
      reflexivity. }
  unfold AseCanvasRenderer.hideAllLayers. rewrite Hd. fold hidden. split.
  - intros this' H.
    destruct (renderFrame_keeps _ _ _ _ _ H) as (Ha & Hm & _).
    apply Hvis; [rewrite Ha; exact Hd | exact Hm].
  - intros frame Hnow Hf Hin.
    change (AseCanvasRenderer.currentFrame hidden)
      with (AseCanvasRenderer.currentFrame this).
    rewrite (renderFrame_prepared fuel now _ hidden d frame Hd Hf Hnow).
    rewrite renderCels_hidden.
    + eexists. split; reflexivity.
    + eapply Forall_impl; [exact Hin|]. intros c [layer Hl]. simpl.
      match goal with
      | |- AseCanvasRenderer.isLayerVisible ?t _ = _ =>
          rewrite (Hvis t eq_refl eq_refl), Hl
      end.
      reflexivity.
Qed.

(** The two layers of [Sample.twoLayers] are flagged visible. *)
Lemma hide_all_layers_witness :
  exists this',
    AseCanvasRenderer.hideAllLayers 0 1000
      (Sample.renderer Sample.twoLayers 0)
    = AseCanvasRenderer.Done this'
    /\ AseCanvasRenderer.canvas this' = [].
Proof.
  refine (proj2 (hide_all_layers 0 1000
                   (Sample.renderer Sample.twoLayers 0) Sample.twoLayers
                   eq_refl)
            (Sample.frame [Sample.rawCel 0 1 1 [1; 2; 3; 4];
                           Sample.rawCel 1 1 1 [5; 6; 7; 8]])
            ltac:(simpl; lia) eq_refl _).
  repeat constructor; eexists; reflexivity.
Defined.

(** X6. After [showAllLayers] every layer of the document is visible,
    also one whose flags say hidden and one that had the override
    [false]. *)
Theorem show_all_layers fuel now this d this' :
  AseCanvasRenderer.aseData this = Some d ->
  Spec.after (AseCanvasRenderer.showAllLayers fuel now this) = Some this' ->
  forall layerIndex,
    AseCanvasRenderer.isLayerVisible this' layerIndex = true.
Proof.
  intros Hd H layerIndex.
  unfold AseCanvasRenderer.showAllLayers in H. rewrite Hd in H.
  destruct (renderFrame_keeps _ _ _ _ _ H) as (Ha & Hm & _).
  simpl in Ha, Hm.
  destruct (AseReader.layers d !!! layerIndex) as [layer|] eqn:Hl.
  - rewrite (isLayerVisible_layer this' d layerIndex layer);
      [|rewrite Ha; exact Hd | exact Hl].
    unfold Spec.effectiveVisible. rewrite Hm, setAllLayers_lookup.
    pose proof (js_index_Some_lt _ _ _ Hl) as [H0 H1].
    destruct (Z.leb_spec 0 layerIndex); [|lia].
    destruct (Z.ltb_spec layerIndex
                (Z.of_nat (length (AseReader.layers d)))); [|lia].
    reflexivity.
  - unfold AseCanvasRenderer.isLayerVisible. rewrite Ha, Hd, Hl.
    reflexivity.
Qed.

Lemma show_all_layers_witness :
  AseCanvasRenderer.isLayerVisible
    (AseCanvasRenderer.with_layerVisibility
       (AseCanvasRenderer.setAllLayers true 2 {[ 1 := false ]})
       (AseCanvasRenderer.with_layerVisibility {[ 1 := false ]}
          (Sample.renderer Sample.twoLayers 0))) 1
  = true.
Proof.
  apply (show_all_layers 0 0
           (AseCanvasRenderer.with_layerVisibility {[ 1 := false ]}
              (Sample.renderer Sample.twoLayers 0))
           Sample.twoLayers _ eq_refl).
  reflexivity.
Defined.

(** X7. [toggleLayerVisibility] of a layer of the document returns the
    opposite of the visibility the layer had, and that is the visibility
    the layer has afterwards, whether the render ran, was held back or
    threw. *)
Theorem toggle_layer fuel now layerIndex this d layer :
  AseCanvasRenderer.aseData this = Some d ->
  AseReader.layers d !!! layerIndex = Some layer ->
  snd (AseCanvasRenderer.toggleLayerVisibility fuel now layerIndex this)
  = negb (AseCanvasRenderer.isLayerVisible this layerIndex)
  /\ forall this',
       Spec.after
         (fst (AseCanvasRenderer.toggleLayerVisibility fuel now layerIndex
                 this))
       = Some this' ->
       AseCanvasRenderer.isLayerVisible this' layerIndex
       = negb (AseCanvasRenderer.isLayerVisible this layerIndex).
Proof.
  intros Hd Hl. split; [reflexivity|]. intros this' H.
  unfold AseCanvasRenderer.toggleLayerVisibility,
    AseCanvasRenderer.setLayerVisibility in H.
  cbn [fst AseCanvasRenderer.aseData
       AseCanvasRenderer.with_layerVisibility] in H.
  rewrite Hd in H.
  destruct (renderFrame_keeps _ _ _ _ _ H) as (Ha & Hm & _).
  simpl in Ha, Hm.
  rewrite (isLayerVisible_layer this' d layerIndex layer);
    [|rewrite Ha; exact Hd | exact Hl].
  unfold Spec.effectiveVisible. rewrite Hm, lookup_insert_eq.
  reflexivity.
Qed.

Lemma toggle_layer_witness :
  snd (AseCanvasRenderer.toggleLayerVisibility 0 1000 1
         (Sample.renderer Sample.twoLayers 0))
  = false.
Proof.
  exact (proj1 (toggle_layer 0 1000 1 (Sample.renderer Sample.twoLayers 0)
                  Sample.twoLayers (Sample.layer 1) eq_refl eq_refl)).
Defined.

(** X8. [toggleLayerVisibility] of an index that names no layer of
    the document returns [false], as if the layer were now hidden, and
    stores that override; the index is as visible afterwards as before, and
    a cel that names it is still painted. *)
Theorem toggle_missing_layer fuel now layerIndex this d :
  AseCanvasRenderer.aseData this = Some d ->
  AseReader.layers d !!! layerIndex = None ->
  snd (AseCanvasRenderer.toggleLayerVisibility fuel now layerIndex this)
  = false
  /\ forall this',
       Spec.after
         (fst (AseCanvasRenderer.toggleLayerVisibility fuel now layerIndex
                 this))
       = Some this' ->
       AseCanvasRenderer.layerVisibility this' !! layerIndex = Some false
       /\ AseCanvasRenderer.isLayerVisible this' layerIndex = true.
Proof.
  intros Hd Hl.
  assert (Hvis : AseCanvasRenderer.isLayerVisible this layerIndex = true).
  { unfold AseCanvasRenderer.isLayerVisible. rewrite Hd, Hl. reflexivity. }
  unfold AseCanvasRenderer.toggleLayerVisibility. rewrite Hvis.
  split; [reflexivity|]. intros this' H.
  unfold AseCanvasRenderer.setLayerVisibility in H.
  cbn [fst AseCanvasRenderer.aseData
       AseCanvasRenderer.with_layerVisibility] in H.
  rewrite Hd in H.
  destruct (renderFrame_keeps _ _ _ _ _ H) as (Ha & Hm & _).
  simpl in Ha, Hm. split.
  - rewrite Hm. apply lookup_insert_eq.
  - unfold AseCanvasRenderer.isLayerVisible. rewrite Ha, Hd, Hl.
    reflexivity.
Qed.

Lemma toggle_missing_layer_witness :
  snd (AseCanvasRenderer.toggleLayerVisibility 0 1000 7
         (Sample.renderer Sample.strayCel 0))
  = false.
Proof.
  exact (proj1 (toggle_missing_layer 0 1000 7
                  (Sample.renderer Sample.strayCel 0) Sample.strayCel
                  eq_refl eq_refl)).
Defined.

(** ** Moving between frames *)

Section Navigation.
Import AseCanvasRenderer.

Lemma forceRender_onFrame fuel frameIndex this this' :
  Spec.onFrame this ->
  Spec.after (forceRender fuel frameIndex this) = Some this' ->
  Spec.onFrame this'.
Proof.
  intros Hon H.
  destruct (forceRender_after _ _ _ _ H)
    as [->|(d & frame & Hd & Hf & ->)]; [exact Hon|].
  exists d, frame. split; [reflexivity | exact Hf].
Qed.

Lemma onFrame_ext this this' :
  aseData this' = aseData this -> currentFrame this' = currentFrame this ->
  Spec.onFrame this -> Spec.onFrame this'.
Proof.
  intros Ha Hc (d & frame & Hd & Hf). exists d, frame.
  rewrite Ha, Hc. split; assumption.
Qed.

End Navigation.

(** X9. A renderer that is on a frame of its document is still on a
    frame of its document after any call that renders: [renderFrame] and
    [forceRender] with any index, [nextFrame], [prevFrame],
    [nextFrameLoop], [setLayerVisibility], [showAllLayers],
    [hideAllLayers], [setFlip] and [forceRefresh], whether the call
    returns or throws. *)
Theorem stays_on_frame fuel now this :
  Spec.onFrame this ->
  forall r,
    (exists frameIndex,
        r = AseCanvasRenderer.renderFrame fuel now frameIndex this
        \/ r = AseCanvasRenderer.forceRender fuel frameIndex this)
    \/ r = fst (AseCanvasRenderer.nextFrame fuel now this)
    \/ r = fst (AseCanvasRenderer.prevFrame fuel now this)
    \/ r = fst (AseCanvasRenderer.nextFrameLoop fuel now this)
    \/ (exists layerIndex visible,
          r = AseCanvasRenderer.setLayerVisibility fuel now layerIndex
                visible this)
    \/ r = AseCanvasRenderer.showAllLayers fuel now this
    \/ r = AseCanvasRenderer.hideAllLayers fuel now this
    \/ (exists flipped, r = AseCanvasRenderer.setFlip fuel now flipped this)
    \/ r = AseCanvasRenderer.forceRefresh fuel this ->
    forall this', Spec.after r = Some this' -> Spec.onFrame this'.
Proof.
  intros Hon r Hr this' H.
  pose proof Hon as (d & frame & Hd & Hf).
  destruct Hr as [(frameIndex & [->| ->])
                 |[->|[->|[->|[(layerIndex & visible & ->)
                 |[->|[->|[(flipped & ->)| ->]]]]]]]].
  - exact (renderFrame_onFrame _ _ _ _ _ Hon H).
  - exact (forceRender_onFrame _ _ _ _ Hon H).
  - unfold AseCanvasRenderer.nextFrame in H. rewrite Hd in H.
    destruct (_ <? _); simpl in H.
    + exact (renderFrame_onFrame _ _ _ _ _ Hon H).
    + injection H as <-. exact Hon.
  - unfold AseCanvasRenderer.prevFrame in H. rewrite Hd in H.
    destruct (_ <? _); simpl in H.
    + exact (renderFrame_onFrame _ _ _ _ _ Hon H).
    + injection H as <-. exact Hon.
  - unfold AseCanvasRenderer.nextFrameLoop in H. rewrite Hd in H.
    destruct (_ <=? _); simpl in H.
    + injection H as <-. exact Hon.
    + exact (renderFrame_onFrame _ _ _ _ _ Hon H).
  - unfold AseCanvasRenderer.setLayerVisibility in H.
    cbn [AseCanvasRenderer.aseData
         AseCanvasRenderer.with_layerVisibility] in H.
    rewrite Hd in H.
    refine (renderFrame_onFrame _ _ _ _ _ _ H).
    exact (onFrame_ext this _ eq_refl eq_refl Hon).
  - unfold AseCanvasRenderer.showAllLayers in H. rewrite Hd in H.
    refine (renderFrame_onFrame _ _ _ _ _ _ H).
    exact (onFrame_ext this _ eq_refl eq_refl Hon).
  - unfold AseCanvasRenderer.hideAllLayers in H. rewrite Hd in H.
    refine (renderFrame_onFrame _ _ _ _ _ _ H).
    exact (onFrame_ext this _ eq_refl eq_refl Hon).
  - unfold AseCanvasRenderer.setFlip in H.
    cbn [AseCanvasRenderer.aseData AseCanvasRenderer.with_isFlipped] in H.
    rewrite Hd in H.
    refine (renderFrame_onFrame _ _ _ _ _ _ H).
    exact (onFrame_ext this _ eq_refl eq_refl Hon).
  - unfold AseCanvasRenderer.forceRefresh in H. rewrite Hd in H.
    refine (forceRender_onFrame _ _ _ _ _ H).
    exact (onFrame_ext this _ eq_refl eq_refl Hon).
Qed.

Lemma stays_on_frame_witness :
  exists this',
    Spec.after (fst (AseCanvasRenderer.nextFrameLoop 0 1000
                       (Sample.renderer Sample.twoPictures 1)))
    = Some this'
    /\ Spec.onFrame this'.
Proof.
  destruct (Spec.after (fst (AseCanvasRenderer.nextFrameLoop 0 1000
                               (Sample.renderer Sample.twoPictures 1))))
    as [this'|] eqn:H; [|vm_compute in H; discriminate].
  exists this'. split; [reflexivity|].
  apply (stays_on_frame 0 1000 (Sample.renderer Sample.twoPictures 1))
    with (r := fst (AseCanvasRenderer.nextFrameLoop 0 1000
                      (Sample.renderer Sample.twoPictures 1))).
  - exists Sample.twoPictures,
      (Sample.frame [Sample.rawCel 0 1 1 [5; 6; 7; 8]]).
    split; reflexivity.
  - right; right; right; left. reflexivity.
  - exact H.
Defined.

Section Stepping.
Import AseCanvasRenderer.

(** A render that is let through moves the renderer to the frame asked
    for. *)
Lemma renderFrame_moves fuel now frameIndex this d frame this' :
  aseData this = Some d ->
  AseReader.frames d !!! frameIndex = Some frame ->
  100 <= now - lastRenderTime this ->
  Spec.after (renderFrame fuel now frameIndex this) = Some this' ->
  currentFrame this' = frameIndex /\ lastRenderTime this' = now.
Proof.
  intros Hd Hf Hnow H.
  rewrite (renderFrame_prepared _ _ _ _ _ _ Hd Hf Hnow) in H.
  destruct (renderCels fuel 0 (Frame.cels frame) _) as [t|e t|] eqn:Hr;
    simpl in H; try discriminate; injection H as <-;
    (assert (Ht : t = with_canvas (canvas t)
                        (Spec.prepared d frameIndex (isFlipped this)
                           (layerVisibility this)))
       by (apply (renderCels_only_canvas fuel (Frame.cels frame) 0);
           rewrite Hr; reflexivity));
    rewrite Ht; split; reflexivity.
Qed.

Lemma frameCount_parsed d :
  AseReader.numFrames d = Z.of_nat (length (AseReader.frames d)) ->
  frameCount d = Z.of_nat (length (AseReader.frames d)).
Proof.
  intros Hn. unfold frameCount. rewrite Hn.
  destruct (Z.eqb_spec (Z.of_nat (length (AseReader.frames d))) 0);
    reflexivity.
Qed.

End Stepping.

(** X10. For a document whose [numFrames] is the length of its frame list
    (as [parse] leaves it), a renderer on frame [k] of [n], and a call that
    the rate limit lets through: [nextFrameLoop] returns [true] and moves to
    frame [(k + 1) mod n], from the last frame to frame 0; [nextFrame]
    returns [true] and moves to [k + 1], and at the last frame returns
    [false] and changes nothing; [prevFrame] returns [true] and moves to
    [k - 1], and at frame 0 returns [false] and changes nothing. *)
Theorem frame_stepping fuel now this d :
  AseCanvasRenderer.aseData this = Some d ->
  AseReader.numFrames d = Z.of_nat (length (AseReader.frames d)) ->
  0 <= AseCanvasRenderer.currentFrame this
    < Z.of_nat (length (AseReader.frames d)) ->
  100 <= now - AseCanvasRenderer.lastRenderTime this ->
  let k := AseCanvasRenderer.currentFrame this in
  let n := Z.of_nat (length (AseReader.frames d)) in
  (snd (AseCanvasRenderer.nextFrameLoop fuel now this) = true
   /\ forall this',
        Spec.after (fst (AseCanvasRenderer.nextFrameLoop fuel now this))
        = Some this' ->
        AseCanvasRenderer.currentFrame this' = (k + 1) mod n)
  /\ (k < n - 1 ->
      snd (AseCanvasRenderer.nextFrame fuel now this) = true
      /\ forall this',
           Spec.after (fst (AseCanvasRenderer.nextFrame fuel now this))
           = Some this' ->
           AseCanvasRenderer.currentFrame this' = k + 1)
  /\ (k = n - 1 ->
      AseCanvasRenderer.nextFrame fuel now this
      = (AseCanvasRenderer.Done this, false))
  /\ (0 < k ->
      snd (AseCanvasRenderer.prevFrame fuel now this) = true
      /\ forall this',
           Spec.after (fst (AseCanvasRenderer.prevFrame fuel now this))
           = Some this' ->
           AseCanvasRenderer.currentFrame this' = k - 1)
  /\ (k = 0 ->
      AseCanvasRenderer.prevFrame fuel now this
      = (AseCanvasRenderer.Done this, false)).
Proof.
  intros Hd Hn Hk Hnow k n.
  pose proof (frameCount_parsed d Hn) as Hcount. fold n in Hcount.
  assert (Hframe : forall f, 0 <= f < n ->
            exists frame, AseReader.frames d !!! f = Some frame)
    by (intros f Hf; apply js_index_within; exact Hf).
  fold k n in Hk.
  repeat split.
  - unfold AseCanvasRenderer.nextFrameLoop. rewrite Hd, Hcount.
    destruct (Z.leb_spec n 0); [lia | reflexivity].
  - intros this' H.
    unfold AseCanvasRenderer.nextFrameLoop in H. rewrite Hd, Hcount in H.
    destruct (Z.leb_spec n 0); [lia|]. cbn [fst] in H.
    fold k in H. rewrite Z.rem_mod_nonneg in H by lia.
    destruct (Hframe ((k + 1) mod n)) as [frame Hf];
      [apply Z.mod_pos_bound; lia|].
    exact (proj1 (renderFrame_moves _ _ _ _ _ _ _ Hd Hf Hnow H)).
  - unfold AseCanvasRenderer.nextFrame. rewrite Hd, Hcount. fold k.
    destruct (Z.ltb_spec k (n - 1)); [reflexivity | lia].
  - intros this' H0.
    unfold AseCanvasRenderer.nextFrame in H0. rewrite Hd, Hcount in H0.
    fold k in H0. destruct (Z.ltb_spec k (n - 1)); [|lia]. cbn [fst] in H0.
    destruct (Hframe (k + 1)) as [frame Hf]; [lia|].
    exact (proj1 (renderFrame_moves _ _ _ _ _ _ _ Hd Hf Hnow H0)).
  - intros Hlast. unfold AseCanvasRenderer.nextFrame. rewrite Hd, Hcount.
    fold k. destruct (Z.ltb_spec k (n - 1)); [lia | reflexivity].
  - unfold AseCanvasRenderer.prevFrame. rewrite Hd. fold k.
    destruct (Z.ltb_spec 0 k); [reflexivity | lia].
  - intros this' H0.
    unfold AseCanvasRenderer.prevFrame in H0. rewrite Hd in H0.
    fold k in H0. destruct (Z.ltb_spec 0 k); [|lia]. cbn [fst] in H0.
    destruct (Hframe (k - 1)) as [frame Hf]; [lia|].
    exact (proj1 (renderFrame_moves _ _ _ _ _ _ _ Hd Hf Hnow H0)).
  - intros Hfirst. unfold AseCanvasRenderer.prevFrame. rewrite Hd.
    fold k. destruct (Z.ltb_spec 0 k); [lia | reflexivity].
Qed.

(** From the last of the two frames of [Sample.twoPictures] the loop goes
    to frame 0. *)
Lemma frame_stepping_witness :
  exists this',
    Spec.after (fst (AseCanvasRenderer.nextFrameLoop 0 1000
                       (Sample.renderer Sample.twoPictures 1)))
    = Some this'
    /\ AseCanvasRenderer.currentFrame this' = 0.
Proof.
  destruct (Spec.after (fst (AseCanvasRenderer.nextFrameLoop 0 1000
                               (Sample.renderer Sample.twoPictures 1))))
    as [this'|] eqn:H; [|vm_compute in H; discriminate].
  exists this'. split; [reflexivity|].
  exact (proj2 (proj1
    (frame_stepping 0 1000 (Sample.renderer Sample.twoPictures 1)
       Sample.twoPictures eq_refl eq_refl
       ltac:(simpl; lia) ltac:(simpl; lia))) this' H).
Defined.

(** X11. Within 100 ms of the last render that was let through,
    [nextFrame], [prevFrame] and [nextFrameLoop] return [true] wherever
    they would move, and [toggleFlip] returns the new flip, but the frame
    shown and the canvas are left as they were. *)
Theorem stepping_within_rate_limit fuel now this d :
  AseCanvasRenderer.aseData this = Some d ->
  now - AseCanvasRenderer.lastRenderTime this < 100 ->
  (AseCanvasRenderer.currentFrame this
   < AseCanvasRenderer.frameCount d - 1 ->
   AseCanvasRenderer.nextFrame fuel now this
   = (AseCanvasRenderer.Done this, true))
  /\ (0 < AseCanvasRenderer.currentFrame this ->
      AseCanvasRenderer.prevFrame fuel now this
      = (AseCanvasRenderer.Done this, true))
  /\ (0 < AseCanvasRenderer.frameCount d ->
      AseCanvasRenderer.nextFrameLoop fuel now this
      = (AseCanvasRenderer.Done this, true))
  /\ exists this',
       AseCanvasRenderer.toggleFlip fuel now this
       = (AseCanvasRenderer.Done this',
          negb (AseCanvasRenderer.isFlipped this))
       /\ AseCanvasRenderer.currentFrame this'
          = AseCanvasRenderer.currentFrame this
       /\ AseCanvasRenderer.canvas this' = AseCanvasRenderer.canvas this
       /\ AseCanvasRenderer.ctx this' = AseCanvasRenderer.ctx this.
Proof.
  intros Hd Hnow. repeat split.
  - intros Hk. unfold AseCanvasRenderer.nextFrame. rewrite Hd.
    destruct (Z.ltb_spec (AseCanvasRenderer.currentFrame this)
                (AseCanvasRenderer.frameCount d - 1)); [|lia].
    rewrite renderFrame_limited by exact Hnow. reflexivity.
  - intros Hk. unfold AseCanvasRenderer.prevFrame. rewrite Hd.
    destruct (Z.ltb_spec 0 (AseCanvasRenderer.currentFrame this)); [|lia].
    rewrite renderFrame_limited by exact Hnow. reflexivity.
  - intros Hn. unfold AseCanvasRenderer.nextFrameLoop. rewrite Hd.
    destruct (Z.leb_spec (AseCanvasRenderer.frameCount d) 0); [lia|].
    rewrite renderFrame_limited by exact Hnow. reflexivity.
  - unfold AseCanvasRenderer.toggleFlip, AseCanvasRenderer.setFlip.
    cbn [AseCanvasRenderer.aseData AseCanvasRenderer.with_isFlipped].
    rewrite Hd. rewrite renderFrame_limited by exact Hnow.
    eexists. split; [reflexivity|]. repeat split.
Qed.

Lemma stepping_within_rate_limit_witness :
  AseCanvasRenderer.nextFrame 0 50 (Sample.renderer Sample.twoPictures 0)
  = (AseCanvasRenderer.Done (Sample.renderer Sample.twoPictures 0), true).
Proof.
  exact (proj1 (stepping_within_rate_limit 0 50
                  (Sample.renderer Sample.twoPictures 0)
                  Sample.twoPictures eq_refl ltac:(simpl; lia))
           ltac:(vm_compute; reflexivity)).
Defined.

(** ** Resetting the view and replacing the document *)

(** X12. On a frame of the document, [resetView] ends as [forceRender] of
    that frame does, with the same canvas. When the renderer has a document
    but is on no frame of it (a document without frames), [forceRender]
    and [renderFrame] return without a change, and [resetView] throws a
    [TypeError], with the canvas cleared. *)
Theorem reset_view fuel this d :
  AseCanvasRenderer.aseData this = Some d ->
  (forall frame,
     AseReader.frames d !!! AseCanvasRenderer.currentFrame this
     = Some frame ->
     Spec.seen (AseCanvasRenderer.resetView fuel this)
     = Spec.seen
         (AseCanvasRenderer.forceRender fuel
            (AseCanvasRenderer.currentFrame this) this))
  /\ (AseReader.frames d !!! AseCanvasRenderer.currentFrame this = None ->
      Spec.seen (AseCanvasRenderer.resetView fuel this)
      = Some (Some TypeError, [])
      /\ AseCanvasRenderer.forceRender fuel
           (AseCanvasRenderer.currentFrame this) this
         = AseCanvasRenderer.Done this
      /\ forall now,
           AseCanvasRenderer.renderFrame fuel now
             (AseCanvasRenderer.currentFrame this) this
           = AseCanvasRenderer.Done this).
Proof.
  intros Hd.
  assert (Hprep :
    AseCanvasRenderer.fitToContainer
      (AseCanvasRenderer.clearCanvas
         (AseCanvasRenderer.with_ctx AseCanvasRenderer.Identity this))
    = AseCanvasRenderer.with_lastRenderTime
        (AseCanvasRenderer.lastRenderTime this)
        (Spec.prepared d (AseCanvasRenderer.currentFrame this)
           (AseCanvasRenderer.isFlipped this)
           (AseCanvasRenderer.layerVisibility this))).
  { unfold AseCanvasRenderer.fitToContainer,
      AseCanvasRenderer.clearCanvas, AseCanvasRenderer.with_canvas,
      AseCanvasRenderer.with_ctx, AseCanvasRenderer.with_lastRenderTime,
      Spec.prepared.
    simpl. rewrite Hd. reflexivity. }
  assert (Hreset :
    AseCanvasRenderer.resetView fuel this
    = match AseReader.frames d !!! AseCanvasRenderer.currentFrame this with
      | None =>
          AseCanvasRenderer.Raised TypeError
            (AseCanvasRenderer.with_lastRenderTime
               (AseCanvasRenderer.lastRenderTime this)
               (Spec.prepared d (AseCanvasRenderer.currentFrame this)
                  (AseCanvasRenderer.isFlipped this)
                  (AseCanvasRenderer.layerVisibility this)))
      | Some frame =>
          AseCanvasRenderer.renderCels fuel 0 (Frame.cels frame)
            (AseCanvasRenderer.with_lastRenderTime
               (AseCanvasRenderer.lastRenderTime this)
               (Spec.prepared d (AseCanvasRenderer.currentFrame this)
                  (AseCanvasRenderer.isFlipped this)
                  (AseCanvasRenderer.layerVisibility this)))
      end).
  { unfold AseCanvasRenderer.resetView.
    cbn [AseCanvasRenderer.aseData AseCanvasRenderer.with_ctx].
    rewrite Hd, Hprep. reflexivity. }
  split.
  - intros frame Hf.
    rewrite (forceRender_prepared _ _ _ _ _ Hd Hf), Hreset, Hf.
    rewrite renderCels_lastRenderTime. reflexivity.
  - intros Hf. repeat split.
    + rewrite Hreset, Hf. reflexivity.
    + unfold AseCanvasRenderer.forceRender. rewrite Hd, Hf. reflexivity.
    + intros now. unfold AseCanvasRenderer.renderFrame.
      rewrite Hd, Hf. reflexivity.
Qed.

(** A document without frames. *)
Lemma reset_view_witness :
  Spec.seen
    (AseCanvasRenderer.resetView 0
       (Sample.renderer (Sample.document 32 None [] []) 0))
  = Some (Some TypeError, []).
Proof.
  exact (proj1 (proj2 (reset_view 0
                         (Sample.renderer (Sample.document 32 None [] []) 0)
                         (Sample.document 32 None [] []) eq_refl)
                  eq_refl)).
Defined.

(** X13. [updateFileData] with a document of [n >= 1] frames whose
    [numFrames] is [n] leaves the renderer with that document and on one of
    its frames: the frame it was on if the document has a frame of that
    number, frame 0 otherwise. The canvas is that of a forced render of
    that frame. *)
Theorem update_file_data fuel this d :
  AseReader.numFrames d = Z.of_nat (length (AseReader.frames d)) ->
  (0 < length (AseReader.frames d))%nat ->
  0 <= AseCanvasRenderer.currentFrame this ->
  let n := Z.of_nat (length (AseReader.frames d)) in
  let k := if AseCanvasRenderer.currentFrame this <? n
           then AseCanvasRenderer.currentFrame this else 0 in
  Spec.seen (AseCanvasRenderer.updateFileData fuel (Some d) this)
  = Spec.seen
      (AseCanvasRenderer.forceRender fuel k
         (AseCanvasRenderer.with_aseData d this))
  /\ forall this',
       Spec.after (AseCanvasRenderer.updateFileData fuel (Some d) this)
       = Some this' ->
       AseCanvasRenderer.aseData this' = Some d
       /\ AseCanvasRenderer.currentFrame this' = k
       /\ Spec.onFrame this'.
Proof.
  intros Hn Hlen Hk n k.
  assert (Hkn : 0 <= k < n).
  { subst k. destruct (Z.ltb_spec (AseCanvasRenderer.currentFrame this) n);
      lia. }
  destruct (js_index_within (AseReader.frames d) k Hkn) as [frame Hf].
  assert (Heq : AseCanvasRenderer.updateFileData fuel (Some d) this
                = AseCanvasRenderer.forceRender fuel k
                    (AseCanvasRenderer.with_currentFrame k
                       (AseCanvasRenderer.with_aseData d this))).
  { unfold AseCanvasRenderer.updateFileData. rewrite Hn. fold n.
    destruct (Z.eqb_spec n 0) as [?|_]; [lia|].
    subst k.
    destruct (Z.ltb_spec (n - 1) (AseCanvasRenderer.currentFrame this)),
      (Z.ltb_spec (AseCanvasRenderer.currentFrame this) n); try lia;
      reflexivity. }
  rewrite Heq.
  rewrite (forceRender_prepared fuel k
             (AseCanvasRenderer.with_currentFrame k
                (AseCanvasRenderer.with_aseData d this)) d frame
             eq_refl Hf).
  split.
  - rewrite (forceRender_prepared fuel k
               (AseCanvasRenderer.with_aseData d this) d frame eq_refl Hf).
    reflexivity.
  - intros this' H.
    cbn [AseCanvasRenderer.lastRenderTime AseCanvasRenderer.isFlipped
         AseCanvasRenderer.layerVisibility
         AseCanvasRenderer.with_currentFrame
         AseCanvasRenderer.with_aseData] in H.
    destruct (AseCanvasRenderer.renderCels fuel 0 (Frame.cels frame) _)
      as [t|e t|] eqn:Hr; simpl in H; try discriminate;
      injection H as <-;
      (assert (Ht : t = AseCanvasRenderer.with_canvas
                          (AseCanvasRenderer.canvas t)
                          (Spec.prepared d k
                             (AseCanvasRenderer.isFlipped this)
                             (AseCanvasRenderer.layerVisibility this)))
         by (apply (renderCels_only_canvas fuel (Frame.cels frame) 0);
             rewrite Hr; reflexivity));
      rewrite Ht; repeat split;
      exists d, frame; (split; [reflexivity | exact Hf]).
Qed.

Lemma update_file_data_witness :
  exists this',
    Spec.after
      (AseCanvasRenderer.updateFileData 0 (Some Sample.twoPictures)
         (Sample.renderer Sample.linkedTwice 2))
    = Some this'
    /\ AseCanvasRenderer.currentFrame this' = 0.
Proof.
  destruct (Spec.after
              (AseCanvasRenderer.updateFileData 0 (Some Sample.twoPictures)
                 (Sample.renderer Sample.linkedTwice 2)))
    as [this'|] eqn:H; [|vm_compute in H; discriminate].
  exists this'. split; [reflexivity|].
  exact (proj1 (proj2 (proj2
    (update_file_data 0 (Sample.renderer Sample.linkedTwice 2)
       Sample.twoPictures eq_refl ltac:(simpl; lia) ltac:(simpl; lia))
    this' H))).
Defined.

(** ** The list of layers *)

Section LayerList.
Import AseCanvasRenderer.

Lemma layerInfos_length this layers :
  forall i, length (layerInfos this i layers) = length layers.
Proof.
  induction layers as [|layer rest IH]; intros i; [reflexivity|].
  simpl. rewrite IH. reflexivity.
Qed.

Lemma layerInfos_lookup this layers :
  forall i (k : nat) info,
    layerInfos this i layers !! k = Some info ->
    exists layer,
      layers !! k = Some layer
      /\ li_index info = i + Z.of_nat k
      /\ li_visible info = isLayerVisible this (i + Z.of_nat k)
      /\ li_flags info = Layer.flags layer
      /\ li_type info = Layer.type layer
      /\ li_opacity info = Layer.opacity layer
      /\ li_blendMode info = Layer.blendMode layer
      /\ li_name info
         = match Layer.name layer with
           | [] => defaultLayerName (i + Z.of_nat k)
           | name => name
           end.
Proof.
  induction layers as [|layer rest IH]; intros i k info H;
    [discriminate|].
  destruct k as [|k].
  - injection H as <-. exists layer. simpl. rewrite Z.add_0_r.
    repeat split.
  - simpl in H. destruct (IH _ _ _ H) as (layer' & Hl & Hrest).
    exists layer'. split; [exact Hl|].
    replace (i + Z.of_nat (S k)) with (i + 1 + Z.of_nat k) by lia.
    exact Hrest.
Qed.

End LayerList.

(** X14. [getAllLayers] lists every layer of the document once, the
    last layer first: entry [k] of [n] describes layer [n - 1 - k], carries
    that number as its [index], the visibility that [isLayerVisible] gives
    for it, and the flags, type, opacity and blend mode of the layer; its
    name is the name of the layer, or a default name made of the number of
    the layer counted from 1 when the layer has an empty name. *)
Theorem layer_list this d :
  AseCanvasRenderer.aseData this = Some d ->
  length (AseCanvasRenderer.getAllLayers this)
  = length (AseReader.layers d)
  /\ forall (k : nat) info,
       AseCanvasRenderer.getAllLayers this !! k = Some info ->
       let index := Z.of_nat (length (AseReader.layers d)) - 1 - Z.of_nat k in
       exists layer,
         AseReader.layers d !!! index = Some layer
         /\ AseCanvasRenderer.li_index info = index
         /\ AseCanvasRenderer.li_visible info
            = AseCanvasRenderer.isLayerVisible this index
         /\ AseCanvasRenderer.li_flags info = Layer.flags layer
         /\ AseCanvasRenderer.li_type info = Layer.type layer
         /\ AseCanvasRenderer.li_opacity info = Layer.opacity layer
         /\ AseCanvasRenderer.li_blendMode info = Layer.blendMode layer
         /\ AseCanvasRenderer.li_name info
            = match Layer.name layer with
              | [] => AseCanvasRenderer.defaultLayerName index
              | name => name
              end.
Proof.
  intros Hd. unfold AseCanvasRenderer.getAllLayers. rewrite Hd.
  rewrite rev_alt. fold (reverse (AseCanvasRenderer.layerInfos this 0
                                    (AseReader.layers d))).
  split; [rewrite length_reverse; apply layerInfos_length|].
  intros k info H. cbv zeta.
  set (index := Z.of_nat (length (AseReader.layers d)) - 1 - Z.of_nat k).
  apply reverse_lookup_Some in H as [H Hk].
  rewrite layerInfos_length in H, Hk.
  destruct (layerInfos_lookup _ _ _ _ _ H) as (layer & Hl & Hrest).
  assert (Hindex : 0 + Z.of_nat (length (AseReader.layers d) - S k) = index)
    by (subst index; lia).
  rewrite Hindex in Hrest.
  exists layer. split; [|exact Hrest].
  unfold js_index. destruct (Z.ltb_spec index 0); [subst index; lia|].
  replace (Z.to_nat index) with (length (AseReader.layers d) - S k)%nat
    by (subst index; lia).
  exact Hl.
Qed.

Lemma layer_list_witness :
  map AseCanvasRenderer.li_index
    (AseCanvasRenderer.getAllLayers (Sample.renderer Sample.twoLayers 0))
  = [1; 0]
  /\ length (AseCanvasRenderer.getAllLayers
               (Sample.renderer Sample.twoLayers 0))
     = 2%nat.
Proof.
  split; [reflexivity|].
  exact (proj1 (layer_list (Sample.renderer Sample.twoLayers 0)
                  Sample.twoLayers eq_refl)).
Defined.

(** * Further properties of the reader *)

(** ** The errors of [parse] *)

Section ReaderErrors.
Import AseReader.

Lemma tre_ret {A} (a : A) : throwsRangeError (ret a).
Proof. intros r e [=]. Qed.

Lemma tre_throw {A} : throwsRangeError (@throw A RangeError).
Proof. intros r e [= <-]. reflexivity. Qed.

Lemma tre_modify f : throwsRangeError (modify f).
Proof. intros r e [=]. Qed.

Lemma tre_bind {A B} (m : M A) (k : A -> M B) :
  throwsRangeError m -> (forall a, throwsRangeError (k a)) ->
  throwsRangeError (bind m k).
Proof.
  intros Hm Hk r e. unfold bind.
  destruct (m r) as [[a r']|e'] eqn:Hr.
  - apply Hk.
  - intros [= <-]. exact (Hm _ _ Hr).
Qed.

Lemma tre_if {A} (b : bool) (m1 m2 : M A) :
  throwsRangeError m1 -> throwsRangeError m2 ->
  throwsRangeError (if b then m1 else m2).
Proof. destruct b; auto. Qed.

Lemma tre_readNextByte : throwsRangeError readNextByte.
Proof.
  intros r e. unfold readNextByte, readNext, DataView.getUint8.
  destruct (_ !!! _); [discriminate|]. intros [= <-]. reflexivity.
Qed.

Lemma getUint16_throws dv o e :
  DataView.getUint16 dv o = Throw e -> e = RangeError.
Proof.
  unfold DataView.getUint16.
  destruct (dv !!! o); [destruct (dv !!! (o + 1)); [discriminate|]|];
    intros [= <-]; reflexivity.
Qed.

Lemma getUint32_throws dv o e :
  DataView.getUint32 dv o = Throw e -> e = RangeError.
Proof.
  unfold DataView.getUint32.
  destruct (dv !!! o); [|intros [= <-]; reflexivity].
  destruct (dv !!! (o + 1)); [|intros [= <-]; reflexivity].
  destruct (dv !!! (o + 2)); [|intros [= <-]; reflexivity].
  destruct (dv !!! (o + 3)); [discriminate|intros [= <-]; reflexivity].
Qed.

Lemma tre_readNextWord : throwsRangeError readNextWord.
Proof.
  intros r e. unfold readNextWord, readNext.
  destruct (DataView.getUint16 _ _) eqn:H; [discriminate|].
  intros [= <-]. exact (getUint16_throws _ _ _ H).
Qed.

Lemma tre_readNextShort : throwsRangeError readNextShort.
Proof.
  intros r e. unfold readNextShort, readNext, DataView.getInt16.
  destruct (DataView.getUint16 _ _) eqn:H; [discriminate|].
  intros [= <-]. exact (getUint16_throws _ _ _ H).
Qed.

Lemma tre_readNextDWord : throwsRangeError readNextDWord.
Proof.
  intros r e. unfold readNextDWord, readNext.
  destruct (DataView.getUint32 _ _) eqn:H; [discriminate|].
  intros [= <-]. exact (getUint32_throws _ _ _ H).
Qed.

Lemma tre_readNextFixed : throwsRangeError readNextFixed.
Proof. exact tre_readNextDWord. Qed.

Lemma tre_skipBytes n : throwsRangeError (skipBytes n).
Proof. apply tre_modify. Qed.

Create HintDb tre.
Hint Resolve tre_ret tre_throw tre_modify tre_if tre_readNextByte
  tre_readNextWord tre_readNextShort tre_readNextDWord tre_readNextFixed
  tre_skipBytes : tre.
Hint Extern 3 (throwsRangeError (bind _ _)) =>
  apply tre_bind; [|intros ?] : tre.

Ltac tre := auto 30 with tre.

Lemma tre_readBytesLoop n : throwsRangeError (readBytesLoop n).
Proof. induction n; simpl; tre. Qed.
Hint Resolve tre_readBytesLoop : tre.

Lemma tre_readNextRawBytes n : throwsRangeError (readNextRawBytes n).
Proof. unfold readNextRawBytes. tre. Qed.
Hint Resolve tre_readNextRawBytes : tre.

Lemma tre_readNextString : throwsRangeError readNextString.
Proof. unfold readNextString, readNextBytes. tre. Qed.
Hint Resolve tre_readNextString : tre.

Lemma tre_readHeader : throwsRangeError readHeader.
Proof. unfold readHeader. tre. Qed.

Lemma tre_readChunk : throwsRangeError readChunk.
Proof. unfold readChunk. tre. Qed.

Lemma tre_readColorProfileChunk : throwsRangeError readColorProfileChunk.
Proof. unfold readColorProfileChunk. tre. Qed.

Lemma tre_readPaletteLoop n colors :
  throwsRangeError (readPaletteLoop n colors).
Proof. revert colors. induction n; intros colors; simpl; tre. Qed.
Hint Resolve tre_readPaletteLoop : tre.

Lemma tre_readPaletteChunk : throwsRangeError readPaletteChunk.
Proof. unfold readPaletteChunk. tre. Qed.

Lemma tre_readLayerChunk : throwsRangeError readLayerChunk.
Proof. unfold readLayerChunk. tre. Qed.

Lemma tre_readFrameTagsLoop n : throwsRangeError (readFrameTagsLoop n).
Proof. induction n; simpl; tre. Qed.
Hint Resolve tre_readFrameTagsLoop : tre.

Lemma tre_readFrameTagsChunk : throwsRangeError readFrameTagsChunk.
Proof. unfold readFrameTagsChunk. tre. Qed.

Lemma tre_readCelChunk pako chunkSize :
  throwsRangeError (readCelChunk pako chunkSize).
Proof. unfold readCelChunk. tre. Qed.

Hint Resolve tre_readHeader tre_readChunk tre_readColorProfileChunk
  tre_readPaletteChunk tre_readLayerChunk tre_readFrameTagsChunk
  tre_readCelChunk : tre.

Lemma tre_readFrameChunk pako cels :
  throwsRangeError (readFrameChunk pako cels).
Proof.
  unfold readFrameChunk.
  apply tre_bind; [tre|]. intros [chunkSize type]. tre.
Qed.
Hint Resolve tre_readFrameChunk : tre.

Lemma tre_readFrameLoop pako n cels :
  throwsRangeError (readFrameLoop pako n cels).
Proof. revert cels. induction n; intros cels; simpl; tre. Qed.
Hint Resolve tre_readFrameLoop : tre.

Lemma tre_readFrame pako : throwsRangeError (readFrame pako).
Proof. unfold readFrame. tre. Qed.
Hint Resolve tre_readFrame : tre.

Lemma tre_parseLoop pako n : throwsRangeError (parseLoop pako n).
Proof. induction n; simpl; tre. Qed.
Hint Resolve tre_parseLoop : tre.

Lemma tre_parse pako : throwsRangeError (parse pako).
Proof. unfold parse. tre. Qed.

End ReaderErrors.

(** X15. Whatever the bytes and wherever the cursor stands, [parse] ends
    normally or with a [RangeError]: the reader throws nothing else. *)
Theorem parse_throws_range_error pako r e :
  AseReader.parse pako r = Throw e -> e = RangeError.
Proof. apply tre_parse. Qed.

Lemma parse_throws_range_error_witness :
  AseReader.parse None (AseReader.new [] "empty.ase") = Throw RangeError.
Proof.
  destruct (AseReader.parse None (AseReader.new [] "empty.ase"))
    as [[u r]|e] eqn:H; [vm_compute in H; discriminate|].
  rewrite (parse_throws_range_error None _ e H). reflexivity.
Defined.

(** ** The header *)

Section Header.
Import AseReader.

Lemma getUint32_within dv o :
  0 <= o -> o + 4 <= Z.of_nat (length dv) ->
  exists v, DataView.getUint32 dv o = Normal v.
Proof.
  intros H0 H1. unfold DataView.getUint32.
  destruct (js_index_within dv o) as [b0 ->]; [lia|].
  destruct (js_index_within dv (o + 1)) as [b1 ->]; [lia|].
  destruct (js_index_within dv (o + 2)) as [b2 ->]; [lia|].
  destruct (js_index_within dv (o + 3)) as [b3 ->]; [lia|]. eauto.
Qed.

Lemma getUint8_Normal dv o v :
  DataView.getUint8 dv o = Normal v -> 0 <= o < Z.of_nat (length dv).
Proof.
  unfold DataView.getUint8.
  destruct (dv !!! o) eqn:H; [|discriminate].
  intros _. exact (js_index_Some_lt _ _ _ H).
Qed.

(** With 36 bytes from the cursor on, the header is read: each field from
    its place, and the cursor is moved on by 128. *)
Lemma readHeader_at o r :
  0 <= o -> o + 36 <= Z.of_nat (length (_dv r)) ->
  exists fileSize numFrames width height colorDepth numColors pixW pixH,
    DataView.getUint32 (_dv r) o = Normal fileSize
    /\ DataView.getUint16 (_dv r) (o + 6) = Normal numFrames
    /\ DataView.getUint16 (_dv r) (o + 8) = Normal width
    /\ DataView.getUint16 (_dv r) (o + 10) = Normal height
    /\ DataView.getUint16 (_dv r) (o + 12) = Normal colorDepth
    /\ DataView.getUint16 (_dv r) (o + 32) = Normal numColors
    /\ DataView.getUint8 (_dv r) (o + 34) = Normal pixW
    /\ DataView.getUint8 (_dv r) (o + 35) = Normal pixH
    /\ readHeader (with_offset o r)
       = Normal (numFrames,
                 with_offset (o + 128)
                   (with_header fileSize numFrames width height colorDepth
                      numColors (byteZ pixW, byteZ pixH) r)).
Proof.
  intros H0 Hlen.
  destruct (getUint32_within (_dv r) o) as [fileSize H1]; [lia..|].
  destruct (getUint16_within (_dv r) (o + 4)) as [magic H2]; [lia..|].
  destruct (getUint16_within (_dv r) (o + 4 + 2))
    as [numFrames H3]; [lia..|].
  destruct (getUint16_within (_dv r) (o + 4 + 2 + 2))
    as [width H4]; [lia..|].
  destruct (getUint16_within (_dv r) (o + 4 + 2 + 2 + 2))
    as [height H5]; [lia..|].
  destruct (getUint16_within (_dv r) (o + 4 + 2 + 2 + 2 + 2))
    as [colorDepth H6]; [lia..|].
  destruct (getUint16_within (_dv r) (o + 4 + 2 + 2 + 2 + 2 + 2 + 18))
    as [numColors H7]; [lia..|].
  destruct (getUint8_within (_dv r) (o + 4 + 2 + 2 + 2 + 2 + 2 + 18 + 2))
    as [pixW H8]; [lia..|].
  destruct (getUint8_within (_dv r)
              (o + 4 + 2 + 2 + 2 + 2 + 2 + 18 + 2 + 1))
    as [pixH H9]; [lia..|].
  exists fileSize, numFrames, width, height, colorDepth, numColors,
    pixW, pixH.
  split; [exact H1|].
  split; [rewrite <- H3; f_equal; lia|].
  split; [rewrite <- H4; f_equal; lia|].
  split; [rewrite <- H5; f_equal; lia|].
  split; [rewrite <- H6; f_equal; lia|].
  split; [rewrite <- H7; f_equal; lia|].
  split; [rewrite <- H8; f_equal; lia|].
  split; [rewrite <- H9; f_equal; lia|].
  unfold readHeader, readNextDWord, readNextWord, readNextByte.
  rewrite (bind_eq _ _ _ _ _
             (readNext_eq DataView.getUint32 4 (with_offset o r) _ H1)).
  cbn [_offset with_offset].
  rewrite (bind_eq _ _ _ _ _
             (readNext_eq DataView.getUint16 2
                (with_offset (o + 4) r) _ H2)).
  cbn [_offset with_offset].
  rewrite (bind_eq _ _ _ _ _
             (readNext_eq DataView.getUint16 2
                (with_offset (o + 4 + 2) r) _ H3)).
  cbn [_offset with_offset].
  rewrite (bind_eq _ _ _ _ _
             (readNext_eq DataView.getUint16 2
                (with_offset (o + 4 + 2 + 2) r) _ H4)).
  cbn [_offset with_offset].
  rewrite (bind_eq _ _ _ _ _
             (readNext_eq DataView.getUint16 2
                (with_offset (o + 4 + 2 + 2 + 2) r) _ H5)).
  cbn [_offset with_offset].
  rewrite (bind_eq _ _ _ _ _
             (readNext_eq DataView.getUint16 2
                (with_offset (o + 4 + 2 + 2 + 2 + 2) r) _ H6)).
  cbn [_offset with_offset].
  unfold skipBytes at 1, modify at 1, bind at 1.
  cbn [_offset with_offset].
  rewrite (bind_eq _ _ _ _ _
             (readNext_eq DataView.getUint16 2
                (with_offset (o + 4 + 2 + 2 + 2 + 2 + 2 + 18) r) _ H7)).
  cbn [_offset with_offset].
  rewrite (bind_eq _ _ _ _ _
             (readNext_eq DataView.getUint8 1
                (with_offset (o + 4 + 2 + 2 + 2 + 2 + 2 + 18 + 2) r) _ H8)).
  cbn [_offset with_offset].
  rewrite (bind_eq _ _ _ _ _
             (readNext_eq DataView.getUint8 1
                (with_offset (o + 4 + 2 + 2 + 2 + 2 + 2 + 18 + 2 + 1) r)
                _ H9)).
  cbn [_offset with_offset].
  unfold modify, skipBytes, modify, bind, ret.
  unfold with_header, with_offset. cbn.
  do 3 f_equal. lia.
Qed.

Lemma readHeader_within arrayBuffer name :
  36 <= Z.of_nat (length arrayBuffer) ->
  exists fileSize numFrames width height colorDepth numColors pixW pixH,
    DataView.getUint32 arrayBuffer 0 = Normal fileSize
    /\ DataView.getUint16 arrayBuffer 6 = Normal numFrames
    /\ DataView.getUint16 arrayBuffer 8 = Normal width
    /\ DataView.getUint16 arrayBuffer 10 = Normal height
    /\ DataView.getUint16 arrayBuffer 12 = Normal colorDepth
    /\ DataView.getUint16 arrayBuffer 32 = Normal numColors
    /\ DataView.getUint8 arrayBuffer 34 = Normal pixW
    /\ DataView.getUint8 arrayBuffer 35 = Normal pixH
    /\ readHeader (new arrayBuffer name)
       = Normal (numFrames,
                 with_offset 128
                   (with_header fileSize numFrames width height colorDepth
                      numColors (byteZ pixW, byteZ pixH)
                      (new arrayBuffer name))).
Proof.
  intros Hlen.
  exact (readHeader_at 0 (new arrayBuffer name) ltac:(lia) Hlen).
Qed.

Lemma readNext_moves {A} (getter : list byte -> Z -> completion A)
    size r v r' :
  readNext getter size r = Normal (v, r') ->
  _dv r' = _dv r /\ _offset r' = _offset r + size.
Proof.
  intros H. apply readNext_Normal in H as [_ ->]. split; reflexivity.
Qed.

Lemma skipBytes_moves n r u r' :
  skipBytes n r = Normal (u, r') ->
  _dv r' = _dv r /\ _offset r' = _offset r + n.
Proof. intros H. injection H as H. subst r'. split; reflexivity. Qed.

(** A header that has been read had 36 bytes to read. *)
Lemma readHeader_Normal arrayBuffer name nf r' :
  readHeader (new arrayBuffer name) = Normal (nf, r') ->
  36 <= Z.of_nat (length arrayBuffer).
Proof.
  intros H. unfold readHeader in H.
  apply bind_Normal in H as (a1 & r1 & H1 & H).
  apply readNext_moves in H1 as [D1 O1].
  apply bind_Normal in H as (a2 & r2 & H2 & H).
  apply readNext_moves in H2 as [D2 O2].
  apply bind_Normal in H as (a3 & r3 & H3 & H).
  apply readNext_moves in H3 as [D3 O3].
  apply bind_Normal in H as (a4 & r4 & H4 & H).
  apply readNext_moves in H4 as [D4 O4].
  apply bind_Normal in H as (a5 & r5 & H5 & H).
  apply readNext_moves in H5 as [D5 O5].
  apply bind_Normal in H as (a6 & r6 & H6 & H).
  apply readNext_moves in H6 as [D6 O6].
  apply bind_Normal in H as (a7 & r7 & H7 & H).
  apply skipBytes_moves in H7 as [D7 O7].
  apply bind_Normal in H as (a8 & r8 & H8 & H).
  apply readNext_moves in H8 as [D8 O8].
  apply bind_Normal in H as (a9 & r9 & H9 & H).
  apply readNext_moves in H9 as [D9 O9].
  apply bind_Normal in H as (a10 & r10 & H10 & _).
  apply readNext_Normal in H10 as [H10 _].
  apply getUint8_Normal in H10.
  change (_dv (new arrayBuffer name)) with arrayBuffer in D1.
  assert (Hdv : _dv r9 = arrayBuffer) by congruence.
  assert (Hoff : _offset r9 = 35).
  { change (_offset (new arrayBuffer name)) with 0 in O1. lia. }
  rewrite Hdv, Hoff in H10. lia.
Qed.

End Header.

(** X16. [parse] needs the first 36 bytes of the file and no more of the
    128 bytes of the header: a buffer of fewer than 36 bytes makes it throw
    a [RangeError]; on a buffer of 36 bytes or more [readHeader] completes,
    takes the file size, the frame count, the width, the height, the colour
    depth, the colour count and the pixel ratio from offsets 0, 6, 8, 10,
    12, 32, 34 and 35, and leaves the cursor at 128, in the buffer or
    not. *)
Theorem header_needs_36_bytes pako (arrayBuffer : list byte) name :
  (Z.of_nat (length arrayBuffer) < 36 ->
   AseReader.parse pako (AseReader.new arrayBuffer name) = Throw RangeError)
  /\ (36 <= Z.of_nat (length arrayBuffer) ->
      exists numFrames r,
        AseReader.readHeader (AseReader.new arrayBuffer name)
        = Normal (numFrames, r)
        /\ AseReader._offset r = 128
        /\ DataView.getUint32 arrayBuffer 0 = Normal (AseReader.fileSize r)
        /\ DataView.getUint16 arrayBuffer 6 = Normal (AseReader.numFrames r)
        /\ DataView.getUint16 arrayBuffer 8 = Normal (AseReader.width r)
        /\ DataView.getUint16 arrayBuffer 10 = Normal (AseReader.height r)
        /\ DataView.getUint16 arrayBuffer 12
           = Normal (AseReader.colorDepth r)
        /\ DataView.getUint16 arrayBuffer 32
           = Normal (AseReader.numColors r)
        /\ (exists pixW pixH,
              DataView.getUint8 arrayBuffer 34 = Normal pixW
              /\ DataView.getUint8 arrayBuffer 35 = Normal pixH
              /\ AseReader.pixelRatio r = (byteZ pixW, byteZ pixH))
        /\ numFrames = AseReader.numFrames r).
Proof.
  split.
  - intros Hshort.
    destruct (AseReader.parse pako (AseReader.new arrayBuffer name))
      as [[u r]|e] eqn:H.
    + unfold AseReader.parse in H.
      apply bind_Normal in H as (nf & r1 & Hh & _).
      apply readHeader_Normal in Hh. lia.
    + rewrite (tre_parse _ _ _ H). reflexivity.
  - intros Hlen.
    destruct (readHeader_within arrayBuffer name Hlen)
      as (fileSize & numFrames & width & height & colorDepth & numColors
          & pixW & pixH & H1 & H2 & H3 & H4 & H5 & H6 & H7 & H8 & Hread).
    eexists _, _. split; [exact Hread|].
    simpl. repeat (split; [assumption || reflexivity|]).
    split; [|reflexivity]. exists pixW, pixH. repeat split; assumption.
Qed.

(** A file that is nothing but the first 36 bytes of a header with a frame
    count of 0 is parsed, to a document without frames. *)
Lemma header_needs_36_bytes_witness :
  AseReader.parse None
    (AseReader.new (Sample.bytes (Sample.zeros 35)) "short.ase")
  = Throw RangeError
  /\ exists r,
       AseReader.parse None
         (AseReader.new (Sample.bytes (Sample.zeros 36)) "short.ase")
       = Normal (tt, r)
       /\ AseReader._offset r = 128 /\ AseReader.frames r = [].
Proof.
  split.
  - exact (proj1 (header_needs_36_bytes None (Sample.bytes (Sample.zeros 35))
                    "short.ase") ltac:(vm_compute; reflexivity)).
  - destruct (proj2 (header_needs_36_bytes None
                       (Sample.bytes (Sample.zeros 36)) "short.ase")
                ltac:(vm_compute; discriminate))
      as (nf & r & Hread & Hoff & _ & Hnf & _ & _ & _ & _ & _ & Heq).
    exists r. unfold AseReader.parse.
    rewrite (bind_eq _ _ _ _ _ Hread).
    assert (Hzero : nf = 0).
    { rewrite Heq.
      assert (Hw : DataView.getUint16 (Sample.bytes (Sample.zeros 36)) 6
                   = Normal 0) by (vm_compute; reflexivity).
      rewrite Hw in Hnf. injection Hnf as <-. reflexivity. }
    rewrite Hzero. simpl. split; [reflexivity|]. split; [exact Hoff|].
    destruct (readHeader_numFrames _ _ _ _ Hread) as (_ & _ & Hf).
    exact Hf.
Defined.

(** ** Strings *)

Section Strings.
Import AseReader.

Lemma Utf8ArrayToStr_ascii c0 rest :
  Spec.nibble c0 <= 7 ->
  Utf8ArrayToStr (c0 :: rest) = byteZ c0 :: Utf8ArrayToStr rest.
Proof.
  unfold Spec.nibble. intros H. cbn [Utf8ArrayToStr]. cbv zeta.
  destruct (Z.leb_spec (Z.shiftr (byteZ c0) 4) 7); [reflexivity | lia].
Qed.

Lemma Utf8ArrayToStr_two c0 c1 rest :
  Spec.nibble c0 = 12 \/ Spec.nibble c0 = 13 ->
  Utf8ArrayToStr (c0 :: c1 :: rest)
  = Z.lor (Z.shiftl (Z.land (byteZ c0) 31) 6) (Z.land (byteZ c1) 63)
    :: Utf8ArrayToStr rest.
Proof.
  unfold Spec.nibble. intros H. cbn [Utf8ArrayToStr]. cbv zeta.
  destruct (Z.leb_spec (Z.shiftr (byteZ c0) 4) 7); [lia|].
  destruct (Z.eqb_spec (Z.shiftr (byteZ c0) 4) 12),
    (Z.eqb_spec (Z.shiftr (byteZ c0) 4) 13); try reflexivity; lia.
Qed.

Lemma Utf8ArrayToStr_three c0 c1 c2 rest :
  Spec.nibble c0 = 14 ->
  Utf8ArrayToStr (c0 :: c1 :: c2 :: rest)
  = Z.lor (Z.lor (Z.shiftl (Z.land (byteZ c0) 15) 12)
                 (Z.shiftl (Z.land (byteZ c1) 63) 6))
          (Z.shiftl (Z.land (byteZ c2) 63) 0)
    :: Utf8ArrayToStr rest.
Proof.
  unfold Spec.nibble. intros H. cbn [Utf8ArrayToStr]. cbv zeta.
  rewrite H. reflexivity.
Qed.

Lemma Utf8ArrayToStr_skip c0 rest :
  8 <= Spec.nibble c0 <= 11 \/ Spec.nibble c0 = 15 ->
  Utf8ArrayToStr (c0 :: rest) = Utf8ArrayToStr rest.
Proof.
  unfold Spec.nibble. intros H. cbn [Utf8ArrayToStr]. cbv zeta.
  destruct (Z.leb_spec (Z.shiftr (byteZ c0) 4) 7); [lia|].
  destruct (Z.eqb_spec (Z.shiftr (byteZ c0) 4) 12); [lia|].
  destruct (Z.eqb_spec (Z.shiftr (byteZ c0) 4) 13); [lia|].
  destruct (Z.eqb_spec (Z.shiftr (byteZ c0) 4) 14); [lia|].
  reflexivity.
Qed.

Lemma allFrom_spec count :
  forall start f,
    Spec.allFrom count start f = true ->
    forall x, start <= x < start + Z.of_nat count -> f x = true.
Proof.
  induction count as [|count IH]; intros start f H x Hx; [lia|].
  cbn [Spec.allFrom] in H. apply andb_prop in H as [H0 H1].
  destruct (Z.eq_dec x start) as [->|Hne]; [exact H0|].
  apply (IH _ _ H1). lia.
Qed.

(** Every code unit is decoded from its bytes: checked one by one. *)
Lemma decodesTo_all :
  Spec.allFrom (Z.to_nat 65536) 0
    (fun cp => Spec.decodesTo cp (Spec.utf8 cp))
  = true.
Proof. vm_compute. reflexivity. Qed.

Lemma decodesTo_utf8 cp :
  0 <= cp < 65536 -> Spec.decodesTo cp (Spec.utf8 cp) = true.
Proof.
  intros Hcp.
  apply (allFrom_spec _ _ _ decodesTo_all cp). lia.
Qed.

Lemma Utf8ArrayToStr_utf8 cp rest :
  0 <= cp < 65536 ->
  Utf8ArrayToStr (Spec.utf8 cp ++ rest) = cp :: Utf8ArrayToStr rest.
Proof.
  intros Hcp. pose proof (decodesTo_utf8 cp Hcp) as H.
  destruct (Spec.utf8 cp) as [|b0 [|b1 [|b2 [|b3 l]]]]; simpl in H;
    try discriminate; apply andb_prop in H as [Hn Hv];
    apply Z.eqb_eq in Hv.
  - apply Z.leb_le in Hn. simpl app.
    rewrite (Utf8ArrayToStr_ascii _ _ Hn), Hv. reflexivity.
  - apply orb_prop in Hn. simpl app. rewrite Utf8ArrayToStr_two, Hv;
      [reflexivity|].
    destruct Hn as [Hn|Hn]; apply Z.eqb_eq in Hn; auto.
  - apply Z.eqb_eq in Hn. simpl app.
    rewrite (Utf8ArrayToStr_three _ _ _ _ Hn), Hv. reflexivity.
Qed.

Lemma Utf8ArrayToStr_utf8_all (s : js_string) :
  Forall (fun cp => 0 <= cp < 65536) s ->
  Utf8ArrayToStr (flat_map Spec.utf8 s) = s.
Proof.
  induction 1 as [|cp s Hcp _ IH]; [reflexivity|].
  simpl flat_map. rewrite (Utf8ArrayToStr_utf8 _ _ Hcp), IH. reflexivity.
Qed.

End Strings.

(** X17. [Utf8ArrayToStr] reads back every string of code units below
    65536 from its UTF-8 bytes (one, two or three bytes per code unit). *)
Theorem utf8_round_trip (s : js_string) :
  Forall (fun cp => 0 <= cp < 65536) s ->
  AseReader.Utf8ArrayToStr (flat_map Spec.utf8 s) = s.
Proof. apply Utf8ArrayToStr_utf8_all. Qed.

(** The name "Até 層": ASCII, a two-byte and a three-byte character. *)
Lemma utf8_round_trip_witness :
  AseReader.Utf8ArrayToStr
    (Sample.bytes [65; 116; 195; 169; 32; 229; 177; 164])
  = [65; 116; 233; 32; 23652].
Proof.
  exact (utf8_round_trip [65; 116; 233; 32; 23652]
           ltac:(repeat constructor; lia)).
Defined.

(** X18. [Utf8ArrayToStr] produces nothing for the bytes of a
    character outside the basic plane: a lead byte 0xF0 to 0xFF and every
    continuation byte 0x80 to 0xBF that is not taken by a two- or
    three-byte lead are passed over, so such a character is missing from
    the string without a replacement and without an error. *)
Theorem utf8_four_bytes_dropped (dropped rest : list byte) :
  Forall (fun b => 8 <= Spec.nibble b <= 11 \/ Spec.nibble b = 15) dropped ->
  AseReader.Utf8ArrayToStr (dropped ++ rest) = AseReader.Utf8ArrayToStr rest.
Proof.
  induction 1 as [|b l Hb _ IH]; [reflexivity|].
  simpl app. rewrite (Utf8ArrayToStr_skip _ _ Hb). exact IH.
Qed.

(** U+1F600 (F0 9F 98 80), then "B". *)
Lemma utf8_four_bytes_dropped_witness :
  AseReader.Utf8ArrayToStr (Sample.bytes [240; 159; 152; 128; 66]) = [66].
Proof.
  refine (utf8_four_bytes_dropped (Sample.bytes [240; 159; 152; 128])
            (Sample.bytes [66]) _).
  cbn [Sample.bytes map].
  repeat (apply List.Forall_cons;
          [vm_compute;
           first [right; reflexivity
                 | left; split; intros H; discriminate H]|]).
  apply List.Forall_nil.
Defined.

Section StringsInFiles.
Import AseReader.

(** A string within the buffer: the word [n] at the cursor, and the next
    [n] bytes decoded. *)
Lemma readNextString_within o r n :
  0 <= o -> DataView.getUint16 (_dv r) o = Normal n ->
  o + 2 + n <= Z.of_nat (length (_dv r)) ->
  readNextString (with_offset o r)
  = Normal (Utf8ArrayToStr
              (take (Z.to_nat n) (drop (Z.to_nat (o + 2)) (_dv r))),
            with_offset (o + 2 + n) r).
Proof.
  intros H0 Hn Hlen. pose proof (getUint16_range _ _ _ Hn) as Hr.
  unfold readNextString, readNextWord.
  rewrite (bind_eq _ _ _ _ _
             (readNext_eq DataView.getUint16 2 (with_offset o r) _ Hn)).
  cbn [_offset with_offset].
  unfold readNextBytes, readNextRawBytes.
  destruct (Z.ltb_spec n 0); [lia|].
  rewrite (bind_eq _ _ _ _ _
             (readBytesLoop_within (Z.to_nat n) (o + 2) r
                ltac:(lia) ltac:(lia))).
  unfold ret. rewrite Z2Nat.id by lia. reflexivity.
Qed.

Lemma byteZ_toByte z : 0 <= z < 256 -> byteZ (Spec.toByte z) = z.
Proof.
  intros Hz. unfold byteZ, Spec.toByte.
  destruct (Byte.of_N (Z.to_N z)) as [b|] eqn:Hb.
  - simpl. rewrite (Byte.to_of_N _ Hb). lia.
  - apply Byte.of_N_None_iff in Hb. lia.
Qed.

Lemma js_index_app_length {A} (pre : list A) x rest :
  (pre ++ x :: rest) !!! Z.of_nat (length pre) = Some x.
Proof.
  unfold js_index. destruct (Z.ltb_spec (Z.of_nat (length pre)) 0); [lia|].
  rewrite Nat2Z.id. apply list_lookup_middle. reflexivity.
Qed.

End StringsInFiles.

(** X19. A string that is stored as its byte count in a little-endian
    word followed by its UTF-8 bytes is read back by [readNextString],
    which leaves the cursor behind the last of those bytes. *)
Theorem string_read_back r (pre rest : list byte) (s : js_string) :
  let encoded := flat_map Spec.utf8 s in
  let n := Z.of_nat (length encoded) in
  Forall (fun cp => 0 <= cp < 65536) s ->
  n < 65536 ->
  AseReader._dv r
  = pre ++ Spec.toByte (n mod 256) :: Spec.toByte (n / 256)
        :: encoded ++ rest ->
  AseReader.readNextString
    (AseReader.with_offset (Z.of_nat (length pre)) r)
  = Normal (s, AseReader.with_offset (Z.of_nat (length pre) + 2 + n) r).
Proof.
  intros encoded n Hs Hn Hdv.
  assert (Hword : DataView.getUint16 (AseReader._dv r)
                    (Z.of_nat (length pre)) = Normal n).
  { unfold DataView.getUint16. rewrite Hdv, js_index_app_length.
    replace (pre ++ Spec.toByte (n mod 256) :: Spec.toByte (n / 256)
                 :: encoded ++ rest)
      with ((pre ++ [Spec.toByte (n mod 256)])
            ++ Spec.toByte (n / 256) :: encoded ++ rest)
      by (rewrite <- app_assoc; reflexivity).
    replace (Z.of_nat (length pre) + 1)
      with (Z.of_nat (length (pre ++ [Spec.toByte (n mod 256)])))
      by (rewrite length_app; simpl; lia).
    rewrite js_index_app_length.
    rewrite !byteZ_toByte.
    - f_equal. pose proof (Z.div_mod n 256). lia.
    - split; [apply Z.div_pos; lia | apply Z.div_lt_upper_bound; lia].
    - apply Z.mod_pos_bound. lia. }
  rewrite (readNextString_within _ _ n); [|lia | exact Hword|].
  - f_equal. f_equal. rewrite Hdv.
    replace (pre ++ Spec.toByte (n mod 256) :: Spec.toByte (n / 256)
                 :: encoded ++ rest)
      with ((pre ++ [Spec.toByte (n mod 256); Spec.toByte (n / 256)])
            ++ encoded ++ rest)
      by (rewrite <- app_assoc; reflexivity).
    rewrite drop_app_length'
      by (rewrite length_app; simpl; lia).
    rewrite take_app_length' by (subst n; lia).
    apply Utf8ArrayToStr_utf8_all. exact Hs.
  - rewrite Hdv, length_app. simpl. rewrite length_app. subst n. lia.
Qed.

(** The layer name "L" of the sample files, at offset 166. *)
Lemma string_read_back_witness :
  AseReader.readNextString
    (AseReader.with_offset 166
       (AseReader.new Sample.twoFrames "sample.ase"))
  = Normal ([76],
            AseReader.with_offset 169
              (AseReader.new Sample.twoFrames "sample.ase")).
Proof.
  refine (string_read_back (AseReader.new Sample.twoFrames "sample.ase")
            (take 166 Sample.twoFrames) (drop 169 Sample.twoFrames) [76]
            ltac:(repeat constructor; lia) ltac:(simpl; lia) _).
  vm_compute. reflexivity.
Defined.

(** ** The document that [parse] builds *)

Section ParsedDocument.
Import AseReader.

Lemma extends_refl r : Spec.extends r r.
Proof.
  split; [reflexivity|]. exists []. rewrite app_nil_r.
  split; [reflexivity | constructor].
Qed.

Lemma extends_trans r1 r2 r3 :
  Spec.extends r1 r2 -> Spec.extends r2 r3 -> Spec.extends r1 r3.
Proof.
  intros [Hf1 (l1 & Hl1 & Hp1)] [Hf2 (l2 & Hl2 & Hp2)].
  split; [congruence|]. exists (l1 ++ l2).
  rewrite Hl2, Hl1, <- app_assoc. split; [reflexivity|].
  apply Forall_app. split; assumption.
Qed.

Lemma extends_same r r' :
  frames r' = frames r -> layers r' = layers r -> Spec.extends r r'.
Proof.
  intros Hf Hl. split; [exact Hf|]. exists []. rewrite app_nil_r.
  split; [exact Hl | constructor].
Qed.

Lemma ext_ret {A} (a : A) : Spec.extending (ret a).
Proof. intros r a' r' H. injection H as _ <-. apply extends_refl. Qed.

Lemma ext_throw {A} e : Spec.extending (@throw A e).
Proof. intros r a r' [=]. Qed.

Lemma ext_bind {A B} (m : M A) (k : A -> M B) :
  Spec.extending m -> (forall a, Spec.extending (k a)) ->
  Spec.extending (bind m k).
Proof.
  intros Hm Hk r b r'' H.
  destruct (bind_Normal _ _ _ _ _ H) as (a & r' & H1 & H2).
  eapply extends_trans; [eapply Hm | eapply Hk]; eassumption.
Qed.

Lemma ext_readNext {A} (getter : list byte -> Z -> completion A) size :
  Spec.extending (readNext getter size).
Proof.
  intros r v r' H. apply readNext_Normal in H as [_ ->].
  apply extends_same; reflexivity.
Qed.

Lemma ext_modify (f : t -> t) :
  (forall r, frames (f r) = frames r) ->
  (forall r, layers (f r) = layers r) ->
  Spec.extending (modify f).
Proof.
  intros Hf Hl r u r' H. injection H as H. subst r'.
  apply extends_same; [apply Hf | apply Hl].
Qed.

Lemma ext_skipBytes n : Spec.extending (skipBytes n).
Proof. apply ext_modify; reflexivity. Qed.

Lemma ext_if {A} (b : bool) (m1 m2 : M A) :
  Spec.extending m1 -> Spec.extending m2 ->
  Spec.extending (if b then m1 else m2).
Proof. destruct b; auto. Qed.

Create HintDb ext.
Hint Resolve ext_ret ext_throw ext_skipBytes ext_if : ext.
Hint Extern 1 (Spec.extending readNextByte) => apply ext_readNext : ext.
Hint Extern 1 (Spec.extending readNextWord) => apply ext_readNext : ext.
Hint Extern 1 (Spec.extending readNextShort) => apply ext_readNext : ext.
Hint Extern 1 (Spec.extending readNextDWord) => apply ext_readNext : ext.
Hint Extern 1 (Spec.extending readNextFixed) => apply ext_readNext : ext.
Hint Extern 2 (Spec.extending (modify _)) =>
  apply ext_modify; intros ?; reflexivity : ext.
Hint Extern 3 (Spec.extending (bind _ _)) =>
  apply ext_bind; [|intros ?] : ext.

Ltac ext := auto 30 with ext.

Lemma ext_readBytesLoop n : Spec.extending (readBytesLoop n).
Proof. induction n; simpl; ext. Qed.
Hint Resolve ext_readBytesLoop : ext.

Lemma ext_readNextRawBytes n : Spec.extending (readNextRawBytes n).
Proof. unfold readNextRawBytes. ext. Qed.
Hint Resolve ext_readNextRawBytes : ext.

Lemma ext_readNextString : Spec.extending readNextString.
Proof. unfold readNextString, readNextBytes. ext. Qed.
Hint Resolve ext_readNextString : ext.

Lemma ext_readChunk : Spec.extending readChunk.
Proof. unfold readChunk. ext. Qed.

Lemma ext_readColorProfileChunk : Spec.extending readColorProfileChunk.
Proof. unfold readColorProfileChunk. ext. Qed.

Lemma ext_readPaletteLoop n colors :
  Spec.extending (readPaletteLoop n colors).
Proof. revert colors. induction n; intros colors; simpl; ext. Qed.
Hint Resolve ext_readPaletteLoop : ext.

Lemma ext_readPaletteChunk : Spec.extending readPaletteChunk.
Proof. unfold readPaletteChunk. ext. Qed.

Lemma ext_readFrameTagsLoop n : Spec.extending (readFrameTagsLoop n).
Proof. induction n; simpl; ext. Qed.
Hint Resolve ext_readFrameTagsLoop : ext.

Lemma ext_readFrameTagsChunk : Spec.extending readFrameTagsChunk.
Proof. unfold readFrameTagsChunk. ext. Qed.

Lemma ext_readCelChunk pako chunkSize :
  Spec.extending (readCelChunk pako chunkSize).
Proof. unfold readCelChunk. ext. Qed.

Hint Resolve ext_readChunk ext_readColorProfileChunk ext_readPaletteChunk
  ext_readFrameTagsChunk ext_readCelChunk : ext.

Lemma ext_apply {A} (m : M A) r a r' :
  Spec.extending m -> m r = Normal (a, r') -> Spec.extends r r'.
Proof. intros Hm. apply Hm. Qed.

Ltac estep H r' K :=
  let a := fresh "a" in
  let H1 := fresh "H" in
  apply bind_Normal in H as (a & r' & H1 & H);
  match type of H1 with
  | ?m ?r0 = _ =>
      assert (K : Spec.extends r0 r')
        by (eapply (ext_apply m); [ext | exact H1])
  end.

(** [readLayerChunk] adds one layer, with a number for its flags. *)
Lemma ext_readLayerChunk : Spec.extending readLayerChunk.
Proof.
  intros r u r' H. unfold readLayerChunk in H.
  apply bind_Normal in H as (flags & r1 & H1 & H).
  pose proof (ext_apply _ _ _ _ (ext_readNext _ _) H1) as K1.
  apply readNext_Normal in H1 as [Hflags _].
  apply getUint16_range in Hflags.
  estep H r2 K2. estep H r3 K3. estep H r4 K4. estep H r5 K5.
  estep H r6 K6. estep H r7 K7. estep H r8 K8.
  injection H as H. subst r'.
  assert (K : Spec.extends r r8) by eauto 10 using extends_trans.
  eapply extends_trans; [exact K|].
  split; [reflexivity|]. eexists. split; [reflexivity|].
  repeat constructor. eexists. split; [reflexivity | exact Hflags].
Qed.
Hint Resolve ext_readLayerChunk : ext.

Lemma getInt16_range dv o v :
  DataView.getInt16 dv o = Normal v -> Spec.short v.
Proof.
  unfold DataView.getInt16.
  destruct (DataView.getUint16 dv o) as [u|] eqn:Hu; [|discriminate].
  apply getUint16_range in Hu. intros [= <-]. unfold Spec.short.
  destruct (Z.ltb_spec u 32768); lia.
Qed.

(** [readCelChunk] returns a cel of one of its two kinds. *)
Lemma readCelChunk_parsedCel pako chunkSize r c r' :
  readCelChunk pako chunkSize r = Normal (c, r') -> Spec.parsedCel c.
Proof.
  intros H. unfold readCelChunk in H.
  apply bind_Normal in H as (layerIndex & r1 & H1 & H).
  apply readNext_Normal in H1 as [H1 _]. apply getUint16_range in H1.
  apply bind_Normal in H as (x & r2 & H2 & H).
  apply readNext_Normal in H2 as [H2 _]. apply getInt16_range in H2.
  apply bind_Normal in H as (y & r3 & H3 & H).
  apply readNext_Normal in H3 as [H3 _]. apply getInt16_range in H3.
  apply bind_Normal in H as (opacity & r4 & _ & H).
  apply bind_Normal in H as (celType & r5 & H5 & H).
  apply readNext_Normal in H5 as [H5 _]. apply getUint16_range in H5.
  apply bind_Normal in H as (u & r6 & _ & H).
  destruct (Z.eqb_spec celType 1) as [Hty|Hty]; cbn [negb] in H.
  - apply bind_Normal in H as (linkedFrame & r7 & H7 & H).
    apply readNext_Normal in H7 as [H7 _]. apply getUint16_range in H7.
    injection H as <- _.
    unfold Spec.parsedCel, Spec.word, Spec.short in *. simpl.
    repeat split; lia.
  - apply bind_Normal in H as (w & r7 & H7 & H).
    apply readNext_Normal in H7 as [H7 _]. apply getUint16_range in H7.
    apply bind_Normal in H as (h & r8 & H8 & H).
    apply readNext_Normal in H8 as [H8 _]. apply getUint16_range in H8.
    apply bind_Normal in H as (buff & r9 & _ & H).
    injection H as <- _.
    unfold Spec.parsedCel, Spec.word, Spec.short in *. simpl.
    repeat split; try lia.
    + intros Hsome.
      destruct (Z.eqb_spec celType 2); [right; assumption|].
      destruct (Z.eqb_spec celType 0); [left; assumption|].
      destruct Hsome as [? [=]].
    + intros [-> | ->]; simpl.
      * eexists. reflexivity.
      * destruct pako as [inflate|]; [destruct (inflate buff)|];
          eexists; reflexivity.
Qed.

Lemma readFrameChunk_parsed pako cels r cels' r' :
  readFrameChunk pako cels r = Normal (cels', r') ->
  Spec.extends r r'
  /\ (Forall Spec.parsedCel cels -> Forall Spec.parsedCel cels').
Proof.
  intros H. unfold readFrameChunk in H.
  apply bind_Normal in H as ([chunkSize type] & r1 & H1 & H).
  pose proof (ext_apply _ _ _ _ ext_readChunk H1) as K1.
  assert (Hsame : forall (m : M unit),
             Spec.extending m ->
             (u <- m ;; ret cels) r1 = Normal (cels', r') ->
             Spec.extends r r'
             /\ (Forall Spec.parsedCel cels -> Forall Spec.parsedCel cels')).
  { intros m Hm Hb. apply bind_Normal in Hb as (u & r2 & H2 & Hb).
    injection Hb as <- <-. split; [|auto].
    eapply extends_trans; [exact K1 | exact (Hm _ _ _ H2)]. }
  destruct (skipped_type type); [apply (Hsame _ (ext_skipBytes _) H)|].
  destruct (type =? 8196); [apply (Hsame _ ext_readLayerChunk H)|].
  destruct (type =? 8197).
  { apply bind_Normal in H as (celData & r2 & H2 & H).
    injection H as <- <-. split.
    - eapply extends_trans; [exact K1|].
      exact (ext_readCelChunk _ _ _ _ _ H2).
    - intros Hall. apply Forall_app. split; [exact Hall|].
      apply List.Forall_cons; [|apply List.Forall_nil].
      exact (readCelChunk_parsedCel _ _ _ _ _ H2). }
  destruct (type =? 8199);
    [apply (Hsame _ ext_readColorProfileChunk H)|].
  destruct (type =? 8216); [apply (Hsame _ ext_readFrameTagsChunk H)|].
  destruct (type =? 8217).
  { apply bind_Normal in H as (p & r2 & H2 & H).
    apply bind_Normal in H as (u & r3 & H3 & H).
    injection H3 as H3. subst r3. injection H as <- <-. split; [|auto].
    eapply extends_trans; [exact K1|].
    eapply extends_trans; [exact (ext_readPaletteChunk _ _ _ H2)|].
    apply extends_same; reflexivity. }
  injection H as <- <-. split; [exact K1 | auto].
Qed.

Lemma readFrameLoop_parsed pako n :
  forall cels r cels' r',
    readFrameLoop pako n cels r = Normal (cels', r') ->
    Spec.extends r r'
    /\ (Forall Spec.parsedCel cels -> Forall Spec.parsedCel cels').
Proof.
  induction n as [|n IH]; intros cels r cels' r' H.
  - injection H as <- <-. split; [apply extends_refl | auto].
  - simpl in H. apply bind_Normal in H as (cels1 & r1 & H1 & H).
    apply readFrameChunk_parsed in H1 as [K1 P1].
    apply IH in H as [K2 P2].
    split; [exact (extends_trans _ _ _ K1 K2) | auto].
Qed.

Lemma parsedDocument_extends r r' :
  Spec.extends r r' -> Spec.parsedDocument r -> Spec.parsedDocument r'.
Proof.
  intros [Hf (ls & Hl & Hp)] [Hlayers Hframes]. split.
  - rewrite Hl. apply Forall_app. split; assumption.
  - rewrite Hf. exact Hframes.
Qed.

Lemma readFrame_parsed pako r u r' :
  readFrame pako r = Normal (u, r') ->
  Spec.parsedDocument r -> Spec.parsedDocument r'.
Proof.
  intros H Hdoc. unfold readFrame in H.
  estep H r1 K1. estep H r2 K2. estep H r3 K3.
  apply bind_Normal in H as (frameDuration & r4 & H4 & H).
  pose proof (ext_apply _ _ _ _ (ext_readNext _ _) H4) as K4.
  apply readNext_Normal in H4 as [Hdur _]. apply getUint16_range in Hdur.
  estep H r5 K5. estep H r6 K6.
  apply bind_Normal in H as (cels & r7 & H7 & H).
  apply readFrameLoop_parsed in H7 as [K7 P7].
  injection H as H. subst r'.
  assert (K : Spec.extends r r7) by eauto 10 using extends_trans.
  destruct (parsedDocument_extends _ _ K Hdoc) as [Hlayers Hframes].
  split; [exact Hlayers|]. simpl.
  apply Forall_app. split; [exact Hframes|].
  apply List.Forall_cons; [|apply List.Forall_nil].
  split; [exact Hdur | apply P7; apply List.Forall_nil].
Qed.

Lemma parseLoop_parsed pako n :
  forall r u r',
    parseLoop pako n r = Normal (u, r') ->
    Spec.parsedDocument r -> Spec.parsedDocument r'.
Proof.
  induction n as [|n IH]; intros r u r' H Hdoc.
  - injection H as H. subst r'. exact Hdoc.
  - simpl in H. apply bind_Normal in H as (a & r1 & H1 & H).
    exact (IH _ _ _ H (readFrame_parsed _ _ _ _ H1 Hdoc)).
Qed.

Lemma readHeader_extends : Spec.extending readHeader.
Proof. unfold readHeader. ext. Qed.

End ParsedDocument.

Lemma parsed_document_all pako (arrayBuffer : list byte) name u r :
  AseReader.parse pako (AseReader.new arrayBuffer name) = Normal (u, r) ->
  Spec.parsedDocument r.
Proof.
  intros H. unfold AseReader.parse in H.
  apply bind_Normal in H as (nf & r1 & Hh & H).
  apply (parseLoop_parsed _ _ _ _ _ H).
  apply (parsedDocument_extends _ _ (readHeader_extends _ _ _ Hh)).
  split; constructor.
Qed.

Lemma parsed_document_layers pako (arrayBuffer : list byte) name u r :
  AseReader.parse pako (AseReader.new arrayBuffer name) = Normal (u, r) ->
  Forall Spec.parsedLayer (AseReader.layers r).
Proof. intros H. exact (proj1 (parsed_document_all _ _ _ _ _ H)). Qed.

(** X20. In the document that [parse] builds from a file, every layer has
    a 16-bit number for its flags, every frame a 16-bit duration, and every
    cel is of one of two kinds: a linked cel, with cel type 1 and the
    number of a frame and no width, height or data, or a cel with a width
    and a height, a cel type other than 1, and data exactly when the cel
    type is 0 or 2. The layer index and the cel type are 16-bit words and
    the position is a pair of signed 16-bit numbers. *)
Theorem parsed_document pako (arrayBuffer : list byte) name u r :
  AseReader.parse pako (AseReader.new arrayBuffer name) = Normal (u, r) ->
  Spec.parsedDocument r.
Proof. apply parsed_document_all. Qed.

Lemma parsed_document_witness :
  Spec.parsedDocument (Sample.parsed Sample.twoFrames).
Proof.
  destruct (AseReader.parse None
              (AseReader.new Sample.twoFrames "sample.ase"))
    as [[[] r]|e] eqn:H; [|vm_compute in H; discriminate].
  unfold Sample.parsed. rewrite H.
  exact (parsed_document None Sample.twoFrames "sample.ase" tt r H).
Defined.

(** X21. For a document that [parse] has built, a layer without an
    override is visible exactly when its flags, a 16-bit number, are odd:
    the other two forms of flags that [isLayerVisible] provides for do not
    occur. *)
Theorem parsed_layer_visibility pako (arrayBuffer : list byte) name u d
    this layerIndex layer :
  AseReader.parse pako (AseReader.new arrayBuffer name) = Normal (u, d) ->
  AseCanvasRenderer.aseData this = Some d ->
  AseReader.layers d !!! layerIndex = Some layer ->
  AseCanvasRenderer.layerVisibility this !! layerIndex = None ->
  exists flags,
    Layer.flags layer = FlagsNumber flags /\ Spec.word flags
    /\ AseCanvasRenderer.isLayerVisible this layerIndex = Z.odd flags.
Proof.
  intros Hp Hd Hl Hov.
  pose proof (parsed_document_layers pako arrayBuffer name u d Hp)
    as Hlayers.
  unfold js_index in Hl. destruct (layerIndex <? 0) eqn:Hneg;
    [discriminate|].
  pose proof (proj1 (List.Forall_forall _ _) Hlayers layer
                ltac:(apply list_elem_of_In;
                      apply (list_elem_of_lookup_2 _ _ _ Hl)))
    as (flags & Hflags & Hword).
  exists flags. split; [exact Hflags|]. split; [exact Hword|].
  rewrite (isLayerVisible_layer this d layerIndex layer Hd);
    [|unfold js_index; rewrite Hneg; exact Hl].
  unfold Spec.effectiveVisible. rewrite Hov, Hflags. simpl.
  symmetry. apply Z.bit0_odd.
Qed.

Lemma parsed_layer_visibility_witness :
  AseCanvasRenderer.isLayerVisible
    (Sample.renderer (Sample.parsed Sample.twoFrames) 0) 0
  = true.
Proof.
  destruct (AseReader.parse None
              (AseReader.new Sample.twoFrames "sample.ase"))
    as [[[] d]|e] eqn:Hp; [|vm_compute in Hp; discriminate].
  assert (Hd : Sample.parsed Sample.twoFrames = d)
    by (unfold Sample.parsed; rewrite Hp; reflexivity).
  assert (Hl : AseReader.layers d !!! 0 = Some (Sample.layer 1))
    by (rewrite <- Hd; vm_compute; reflexivity).
  destruct (parsed_layer_visibility None Sample.twoFrames "sample.ase" tt d
              (Sample.renderer d 0) 0 (Sample.layer 1)
              Hp eq_refl Hl eq_refl)
    as (flags & Hflags & _ & Hvis).
  rewrite Hd, Hvis. injection Hflags as <-. reflexivity.
Defined.

(** ** Palettes and colour profiles *)

Section Chunks.
Import AseReader.

Lemma readPaletteLoop_length n :
  forall colors r cs r',
    readPaletteLoop n colors r = Normal (cs, r') ->
    length cs = (length colors + n)%nat.
Proof.
  induction n as [|n IH]; intros colors r cs r' H.
  - injection H as <- _. lia.
  - cbn [readPaletteLoop] in H.
    apply bind_Normal in H as (flag & r1 & _ & H).
    apply bind_Normal in H as (red & r2 & _ & H).
    apply bind_Normal in H as (green & r3 & _ & H).
    apply bind_Normal in H as (blue & r4 & _ & H).
    apply bind_Normal in H as (alpha & r5 & _ & H).
    apply bind_Normal in H as (name & r6 & _ & H).
    apply IH in H. rewrite H, length_app. simpl. lia.
Qed.

Lemma getUint32_range dv o v :
  DataView.getUint32 dv o = Normal v -> 0 <= v < 4294967296.
Proof.
  unfold DataView.getUint32.
  destruct (dv !!! o) as [b0|]; [|discriminate].
  destruct (dv !!! (o + 1)) as [b1|]; [|discriminate].
  destruct (dv !!! (o + 2)) as [b2|]; [|discriminate].
  destruct (dv !!! (o + 3)) as [b3|]; [|discriminate].
  intros [= <-]. unfold byteZ.
  pose proof (Byte.to_N_bounded b0). pose proof (Byte.to_N_bounded b1).
  pose proof (Byte.to_N_bounded b2). pose proof (Byte.to_N_bounded b3).
  lia.
Qed.

End Chunks.

(** X22. A palette chunk that is read gives a palette with as many colours
    as the size that the chunk declares, numbered from 0 whatever first and
    last index the chunk names: every index below the declared size has a
    colour. *)
Theorem palette_size r p r' :
  AseReader.readPaletteChunk r = Normal (p, r') ->
  DataView.getUint32 (AseReader._dv r) (AseReader._offset r)
  = Normal (Palette.paletteSize p)
  /\ Z.of_nat (length (Palette.colors p)) = Palette.paletteSize p
  /\ forall index,
       0 <= index < Palette.paletteSize p ->
       is_Some (Palette.colors p !!! index).
Proof.
  intros H. unfold AseReader.readPaletteChunk in H.
  apply bind_Normal in H as (paletteSize & r1 & H1 & H).
  apply readNext_Normal in H1 as [H1 _].
  pose proof (getUint32_range _ _ _ H1) as Hrange.
  apply bind_Normal in H as (firstColor & r2 & _ & H).
  apply bind_Normal in H as (secondColor & r3 & _ & H).
  apply bind_Normal in H as (u & r4 & _ & H).
  apply bind_Normal in H as (colors & r5 & H5 & H).
  apply readPaletteLoop_length in H5. simpl in H5.
  injection H as <- _. simpl.
  split; [exact H1|]. split; [lia|].
  intros index Hindex.
  destruct (js_index_within colors index) as [c Hc]; [lia|].
  rewrite Hc. eexists. reflexivity.
Qed.

Lemma palette_size_witness :
  exists p r',
    AseReader.readPaletteChunk
      (AseReader.new Sample.palettePayload "palette")
    = Normal (p, r')
    /\ length (Palette.colors p) = 2%nat.
Proof.
  destruct (AseReader.readPaletteChunk
              (AseReader.new Sample.palettePayload "palette"))
    as [[p r']|e] eqn:H; [|vm_compute in H; discriminate].
  exists p, r'. split; [reflexivity|].
  destruct (palette_size _ _ _ H) as (Hsize & Hlen & _).
  assert (H2 : DataView.getUint32 Sample.palettePayload 0 = Normal 2)
    by (vm_compute; reflexivity).
  change (DataView.getUint32 Sample.palettePayload 0
          = Normal (Palette.paletteSize p)) in Hsize.
  rewrite H2 in Hsize. injection Hsize as Hsize. lia.
Defined.

(** X23. A colour profile chunk moves the cursor by 22 bytes, its
    header and the 16 bytes that [readColorProfileChunk] reads, whatever
    size the chunk declares: behind a chunk that carries an embedded
    profile the cursor stands inside the chunk and not at the next one. *)
Theorem color_profile_chunk pako cels r chunkSize r1 cels' r' :
  AseReader.readChunk r = Normal ((chunkSize, 0x2007), r1) ->
  AseReader.readFrameChunk pako cels r = Normal (cels', r') ->
  cels' = cels /\ AseReader._offset r' = AseReader._offset r + 22.
Proof.
  intros Hc H. unfold AseReader.readFrameChunk in H.
  rewrite (bind_eq _ _ _ _ _ Hc) in H.
  change (AseReader.skipped_type 8199) with false in H.
  change (8199 =? 8196) with false in H.
  change (8199 =? 8197) with false in H.
  change (8199 =? 8199) with true in H. cbv iota in H.
  apply bind_Normal in H as (u & r2 & H2 & H).
  injection H as <- <-. split; [reflexivity|].
  unfold AseReader.readChunk in Hc.
  apply bind_Normal in Hc as (a & ra & Ha & Hc).
  apply readNext_moves in Ha as [_ Oa].
  apply bind_Normal in Hc as (b & rb & Hb & Hc).
  apply readNext_moves in Hb as [_ Ob].
  injection Hc as _ _ <-.
  unfold AseReader.readColorProfileChunk in H2.
  apply bind_Normal in H2 as (type & s1 & G1 & H2).
  apply readNext_moves in G1 as [_ P1].
  apply bind_Normal in H2 as (flag & s2 & G2 & H2).
  apply readNext_moves in G2 as [_ P2].
  apply bind_Normal in H2 as (fGamma & s3 & G3 & H2).
  apply readNext_moves in G3 as [_ P3].
  apply bind_Normal in H2 as (v & s4 & G4 & H2).
  apply skipBytes_moves in G4 as [_ P4].
  injection H2 as H2. subst r2. simpl. lia.
Qed.

(** A chunk of 30 bytes: the cursor ends at 22. *)
Lemma color_profile_chunk_witness :
  exists r',
    AseReader.readFrameChunk None []
      (AseReader.new Sample.profileChunk "profile")
    = Normal ([], r')
    /\ AseReader._offset r' = 22.
Proof.
  destruct (AseReader.readFrameChunk None []
              (AseReader.new Sample.profileChunk "profile"))
    as [[cels' r']|e] eqn:H; [|vm_compute in H; discriminate].
  destruct (color_profile_chunk None []
              (AseReader.new Sample.profileChunk "profile") 30
              (AseReader.with_offset 6
                 (AseReader.new Sample.profileChunk "profile"))
              cels' r' ltac:(vm_compute; reflexivity) H) as [-> Hoff].
  exists r'. split; [reflexivity | exact Hoff].
Defined.

(** * The turns of the loop over linked cels *)

Section LinkBound.
Import AseCanvasRenderer.

Variable d : AseReader.t.
Variable numCel : Z.

(** A loop that has left took the same frames whatever the fuel. *)
Lemma followed_stable fuel :
  forall nextCel result fuel' result',
    getCelDataWhile d numCel fuel nextCel = Some result ->
    getCelDataWhile d numCel fuel' nextCel = Some result' ->
    Spec.followed d numCel fuel nextCel
    = Spec.followed d numCel fuel' nextCel.
Proof.
  induction fuel as [|fuel IH]; intros [c|] result fuel' result' H H';
    try (destruct fuel'; reflexivity).
  - simpl in H. destruct (Cel.celType c =? 1) eqn:Hty; [discriminate|].
    destruct fuel'; simpl; rewrite ?Hty; reflexivity.
  - destruct fuel' as [|fuel'].
    + simpl in H'. simpl.
      destruct (Cel.celType c =? 1); [discriminate | reflexivity].
    + simpl in H, H' |- *.
      destruct (Cel.celType c =? 1); [|reflexivity].
      unfold frameCel in H, H'.
      destruct (Cel.linkedFrame c) as [f|]; [|reflexivity].
      destruct (AseReader.frames d !!! f) as [frame|]; [|reflexivity].
      f_equal. exact (IH _ _ _ _ H H').
Qed.

(** It left within one turn more than the frames it took. *)
Lemma getCelDataWhile_followed fuel :
  forall nextCel result,
    getCelDataWhile d numCel fuel nextCel = Some result ->
    getCelDataWhile d numCel
      (S (length (Spec.followed d numCel fuel nextCel))) nextCel
    = Some result.
Proof.
  induction fuel as [|fuel IH]; intros [c|] result H;
    try exact H.
  - simpl in H |- *.
    destruct (Cel.celType c =? 1); [discriminate | exact H].
  - cbn [getCelDataWhile Spec.followed] in H |- *.
    destruct (Cel.celType c =? 1); [|exact H].
    unfold frameCel in H |- *.
    destruct (Cel.linkedFrame c) as [f|]; [|exact H].
    destruct (AseReader.frames d !!! f) as [frame|] eqn:Hf; [|exact H].
    apply IH in H. cbn [length]. exact H.
Qed.

(** After a frame that it took, the loop goes on from the cel of that
    frame. *)
Lemma followed_split l1 :
  forall fuel nextCel result f l2 frame,
    getCelDataWhile d numCel fuel nextCel = Some result ->
    Spec.followed d numCel fuel nextCel = l1 ++ f :: l2 ->
    AseReader.frames d !!! f = Some frame ->
    exists fuel',
      getCelDataWhile d numCel fuel' (Frame.cels frame !!! numCel)
      = Some result
      /\ Spec.followed d numCel fuel' (Frame.cels frame !!! numCel) = l2.
Proof.
  induction l1 as [|f1 l1 IH]; intros fuel nextCel result f l2 frame H Hl Hf;
    destruct nextCel as [c|]; destruct fuel as [|fuel];
    try discriminate Hl;
    cbn [getCelDataWhile Spec.followed] in H, Hl;
    destruct (Cel.celType c =? 1); try discriminate Hl;
    unfold frameCel in H;
    destruct (Cel.linkedFrame c) as [f0|]; try discriminate Hl;
    destruct (AseReader.frames d !!! f0) as [frame0|] eqn:Hf0;
    try discriminate Hl.
  - simpl in Hl. injection Hl as -> Hl.
    rewrite Hf in Hf0. injection Hf0 as <-.
    exists fuel. split; [exact H | exact Hl].
  - simpl in Hl. injection Hl as -> Hl.
    exact (IH _ _ _ _ _ _ H Hl Hf).
Qed.

Lemma followed_frames fuel :
  forall nextCel f,
    f ∈ Spec.followed d numCel fuel nextCel ->
    is_Some (AseReader.frames d !!! f).
Proof.
  induction fuel as [|fuel IH]; intros [c|] f Hin;
    try (apply elem_of_nil in Hin; contradiction).
  cbn [Spec.followed] in Hin.
  destruct (Cel.celType c =? 1);
    [|apply elem_of_nil in Hin; contradiction].
  destruct (Cel.linkedFrame c) as [f0|];
    [|apply elem_of_nil in Hin; contradiction].
  destruct (AseReader.frames d !!! f0) as [frame|] eqn:Hf0;
    [|apply elem_of_nil in Hin; contradiction].
  apply elem_of_cons in Hin as [->|Hin].
  - rewrite Hf0. eexists. reflexivity.
  - exact (IH _ _ Hin).
Qed.

(** A loop that has left took no frame twice. *)
Lemma followed_NoDup fuel :
  forall nextCel result,
    getCelDataWhile d numCel fuel nextCel = Some result ->
    NoDup (Spec.followed d numCel fuel nextCel).
Proof.
  induction fuel as [|fuel IH]; intros [c|] result H;
    try apply NoDup_nil_2.
  cbn [getCelDataWhile Spec.followed] in H |- *.
  destruct (Cel.celType c =? 1); [|apply NoDup_nil_2].
  unfold frameCel in H.
  destruct (Cel.linkedFrame c) as [f|]; [|apply NoDup_nil_2].
  destruct (AseReader.frames d !!! f) as [frame|] eqn:Hf;
    [|apply NoDup_nil_2].
  apply NoDup_cons_2; [|exact (IH _ _ H)].
  intros Hin. apply list_elem_of_split in Hin as (l1 & l2 & Hl).
  destruct (followed_split _ _ _ _ _ _ _ H Hl Hf) as (fuel' & H' & Hl2).
  rewrite <- (followed_stable _ _ _ _ _ H H'), Hl in Hl2.
  apply (f_equal length) in Hl2. rewrite length_app in Hl2.
  simpl in Hl2. lia.
Qed.

Lemma NoDup_below (l : list Z) (n : nat) :
  NoDup l -> (forall f, f ∈ l -> 0 <= f < Z.of_nat n) ->
  (length l <= n)%nat.
Proof.
  intros Hnd Hl.
  assert (Hnd' : NoDup (Z.to_nat <$> l)).
  { apply NoDup_fmap_2_strong; [|exact Hnd].
    intros x y Hx Hy Hxy. apply Hl in Hx. apply Hl in Hy. lia. }
  assert (Hsub : Z.to_nat <$> l ⊆+ seq 0 n).
  { apply NoDup_submseteq; [exact Hnd'|].
    intros x Hx. apply list_elem_of_fmap in Hx as (f & -> & Hf).
    apply Hl in Hf. apply elem_of_seq. lia. }
  apply submseteq_length in Hsub.
  rewrite length_fmap, length_seq in Hsub. exact Hsub.
Qed.

(** So it left within one turn more than the document has frames. *)
Lemma getCelDataWhile_bound fuel nextCel result :
  getCelDataWhile d numCel fuel nextCel = Some result ->
  getCelDataWhile d numCel (S (length (AseReader.frames d))) nextCel
  = Some result.
Proof.
  intros H.
  apply (getCelDataWhile_more_fuel _ _ _ _ _ _
           (getCelDataWhile_followed _ _ _ H)).
  apply le_n_S. apply NoDup_below.
  - exact (followed_NoDup _ _ _ H).
  - intros f Hf. apply followed_frames in Hf as [frame Hf].
    exact (js_index_Some_lt _ _ _ Hf).
Qed.

Lemma getCelData_bound fuel lFrame result :
  getCelData d fuel lFrame numCel = Some result ->
  getCelData d (S (length (AseReader.frames d))) lFrame numCel
  = Some result.
Proof.
  unfold getCelData.
  destruct (frameCel d lFrame numCel) as [[currCel|]|e];
    try (intros H; exact H).
  destruct (Cel.linkedFrame currCel); [|intros H; exact H].
  destruct (getCelDataWhile d numCel fuel (Some currCel)) as [r|] eqn:Hw;
    [|discriminate].
  rewrite (getCelDataWhile_bound _ _ _ Hw). intros H; exact H.
Qed.

Lemma resolveCel_bound fuel c result :
  resolveCel d fuel numCel c = Some result ->
  resolveCel d (S (length (AseReader.frames d))) numCel c = Some result.
Proof.
  unfold resolveCel.
  destruct (negb (Cel.celType c =? 1)); [intros H; exact H|].
  destruct (getCelData d fuel (Cel.linkedFrame c) numCel) as [r|] eqn:Hg;
    [|discriminate].
  rewrite (getCelData_bound _ _ _ Hg). intros H; exact H.
Qed.

End LinkBound.

Section RenderBound.
Import AseCanvasRenderer.

Lemma writeCel_bound d fuel numCel this :
  aseData this = Some d ->
  writeCel fuel numCel this <> Unfinished ->
  writeCel (S (length (AseReader.frames d))) numCel this
  = writeCel fuel numCel this.
Proof.
  intros Hd. unfold writeCel. rewrite Hd.
  destruct (frameCel d _ numCel) as [[c|]|e]; try reflexivity.
  destruct (resolveCel d fuel numCel c) as [r|] eqn:Hr; [|congruence].
  rewrite (resolveCel_bound _ _ _ _ _ Hr). reflexivity.
Qed.

Lemma writeCel_aseData fuel numCel this this' :
  writeCel fuel numCel this = Done this' ->
  aseData this' = aseData this.
Proof.
  intros H.
  rewrite (writeCel_only_canvas fuel numCel this this');
    [reflexivity | rewrite H; reflexivity].
Qed.

Lemma renderCels_bound d fuel cels :
  forall i this,
    aseData this = Some d ->
    renderCels fuel i cels this <> Unfinished ->
    renderCels (S (length (AseReader.frames d))) i cels this
    = renderCels fuel i cels this.
Proof.
  induction cels as [|c rest IH]; intros i this Hd H; [reflexivity|].
  cbn [renderCels] in H |- *.
  destruct (isLayerVisible this (Cel.layerIndex c)); [|exact (IH _ _ Hd H)].
  assert (Hw : writeCel fuel i this <> Unfinished)
    by (intros Hw; rewrite Hw in H; congruence).
  rewrite (writeCel_bound d fuel i this Hd Hw).
  destruct (writeCel fuel i this) as [this1|e this1|] eqn:Hw1;
    [|reflexivity|reflexivity].
  apply IH; [|exact H].
  rewrite (writeCel_aseData _ _ _ _ Hw1). exact Hd.
Qed.

End RenderBound.

(** X24. A render that ends, with a picture or with an exception, ends
    the same way when every [while] loop of [getCelData] is given one turn
    more than the document has frames: a loop over linked cels that leaves
    takes no frame twice, and a loop that is still running after that many
    turns never leaves. *)
Theorem render_within_frames fuel now frameIndex this d :
  AseCanvasRenderer.aseData this = Some d ->
  AseCanvasRenderer.renderFrame fuel now frameIndex this
  <> AseCanvasRenderer.Unfinished ->
  AseCanvasRenderer.renderFrame (S (length (AseReader.frames d))) now
    frameIndex this
  = AseCanvasRenderer.renderFrame fuel now frameIndex this.
Proof.
  intros Hd. unfold AseCanvasRenderer.renderFrame. rewrite Hd.
  destruct (AseReader.frames d !!! frameIndex) as [frame|]; [|reflexivity].
  destruct (now - AseCanvasRenderer.lastRenderTime this <? 100);
    [reflexivity|].
  cbv zeta. apply renderCels_bound.
  unfold AseCanvasRenderer.fitToContainer, AseCanvasRenderer.clearCanvas.
  simpl. rewrite Hd. simpl. exact Hd.
Qed.

(** A cel linked through two frames, rendered with more fuel than it
    takes. *)
Lemma render_within_frames_witness :
  AseCanvasRenderer.renderFrame 4 1000 2 (Sample.renderer Sample.linkedTwice 0)
  = AseCanvasRenderer.renderFrame 9 1000 2
      (Sample.renderer Sample.linkedTwice 0).
Proof.
  apply (render_within_frames 9 1000 2
           (Sample.renderer Sample.linkedTwice 0) Sample.linkedTwice
           eq_refl).
  vm_compute. discriminate.
Defined.

(** * Frame tags *)

Section FrameTags.
Import AseReader.

(** [m] leaves the tags as they are. *)
Local Abbreviation keepsTags m :=
  (effect (fun r _ r' => tags r' = tags r) m).

Lemma keepsTags_bind {A B} (m : M A) (k : A -> M B) :
  keepsTags m -> (forall a, keepsTags (k a)) -> keepsTags (bind m k).
Proof.
  intros Hm Hk r b r'' H.
  destruct (bind_Normal _ _ _ _ _ H) as (a & r' & H1 & H2).
  rewrite (Hk _ _ _ _ H2). exact (Hm _ _ _ H1).
Qed.

Lemma keepsTags_readNext {A} (getter : list byte -> Z -> completion A)
    size :
  keepsTags (readNext getter size).
Proof. intros r v r' H. apply readNext_Normal in H as [_ ->]. reflexivity. Qed.

Lemma keepsTags_skipBytes n : keepsTags (skipBytes n).
Proof. intros r u r' H. injection H as H. subst r'. reflexivity. Qed.

Lemma keepsTags_readBytesLoop n : keepsTags (readBytesLoop n).
Proof.
  induction n as [|n IH]; simpl.
  - intros r a r' [= _ <-]. reflexivity.
  - apply keepsTags_bind; [apply keepsTags_readNext|]. intros b.
    apply keepsTags_bind; [exact IH|]. intros rest r a r' [= _ <-].
    reflexivity.
Qed.

Lemma keepsTags_readNextRawBytes n : keepsTags (readNextRawBytes n).
Proof.
  unfold readNextRawBytes. destruct (n <? 0).
  - intros r a r' [=].
  - apply keepsTags_readBytesLoop.
Qed.

Lemma keepsTags_readNextString : keepsTags readNextString.
Proof.
  unfold readNextString, readNextBytes.
  apply keepsTags_bind; [apply keepsTags_readNext|]. intros n.
  apply keepsTags_bind; [apply keepsTags_readNextRawBytes|].
  intros bytes r a r' [= _ <-]. reflexivity.
Qed.

(** Every turn of the loop adds one tag at the end. *)
Lemma readFrameTagsLoop_tags n :
  forall r u r',
    readFrameTagsLoop n r = Normal (u, r') ->
    exists new,
      tags r' = tags r ++ new /\ length new = n
      /\ Forall (fun tag =>
                   Tag.animDirection tag = None
                   \/ In (Tag.animDirection tag) (map Some loops)) new.
Proof.
  induction n as [|n IH]; intros r u r' H.
  - injection H as _ <-. exists []. rewrite app_nil_r.
    split; [reflexivity|]. split; [reflexivity | apply List.Forall_nil].
  - cbn [readFrameTagsLoop] in H.
    apply bind_Normal in H as (from & r1 & H1 & H).
    apply keepsTags_readNext in H1.
    apply bind_Normal in H as (to & r2 & H2 & H).
    apply keepsTags_readNext in H2.
    apply bind_Normal in H as (loopsInd & r3 & H3 & H).
    apply keepsTags_readNext in H3.
    apply bind_Normal in H as (u4 & r4 & H4 & H).
    apply keepsTags_skipBytes in H4.
    apply bind_Normal in H as (color & r5 & H5 & H).
    apply keepsTags_readNextRawBytes in H5.
    apply bind_Normal in H as (u6 & r6 & H6 & H).
    apply keepsTags_skipBytes in H6.
    apply bind_Normal in H as (name & r7 & H7 & H).
    apply keepsTags_readNextString in H7.
    apply bind_Normal in H as (u8 & r8 & H8 & H).
    injection H8 as _ <-.
    apply IH in H as (new & Htags & Hlen & Hdir).
    cbn [tags with_tags] in Htags.
    assert (Hr : tags r7 = tags r) by congruence.
    rewrite Hr, <- app_assoc in Htags.
    eexists. split; [exact Htags|]. split; [simpl; lia|].
    apply List.Forall_cons; [|exact Hdir].
    cbn [Tag.animDirection]. unfold js_index.
    destruct (byteZ loopsInd <? 0); [left; reflexivity|].
    destruct (Z.to_nat (byteZ loopsInd)) as [|[|[|k]]];
      [right; simpl; tauto..|left; reflexivity].
Qed.

End FrameTags.

(** X25. A frame tags chunk that is read leaves the tags of earlier
    chunks in place and adds as many tags behind them as the word at the
    cursor says; the direction of a new tag is one of the three names or
    [undefined]. *)
Theorem frame_tags_appended r u r' :
  AseReader.readFrameTagsChunk r = Normal (u, r') ->
  exists new,
    AseReader.tags r' = AseReader.tags r ++ new
    /\ DataView.getUint16 (AseReader._dv r) (AseReader._offset r)
       = Normal (Z.of_nat (length new))
    /\ Forall (fun tag =>
                 Tag.animDirection tag = None
                 \/ In (Tag.animDirection tag)
                       (map Some AseReader.loops)) new.
Proof.
  intros H. unfold AseReader.readFrameTagsChunk in H.
  apply bind_Normal in H as (numTags & r1 & H1 & H).
  apply readNext_Normal in H1 as [H1 ->].
  pose proof (getUint16_range _ _ _ H1) as Hrange.
  apply bind_Normal in H as (u2 & r2 & H2 & H).
  injection H2 as _ <-.
  apply readFrameTagsLoop_tags in H as (new & Htags & Hlen & Hdir).
  exists new. split; [exact Htags|]. split; [|exact Hdir].
  rewrite H1, Hlen. f_equal. lia.
Qed.

(** A chunk of two tags, the second with direction byte 7, read by a
    reader that has a tag already. *)
Lemma frame_tags_appended_witness :
  exists r',
    AseReader.readFrameTagsChunk
      (AseReader.with_tags [Sample.tag]
         (AseReader.new Sample.tagsPayload "tags"))
    = Normal (tt, r')
    /\ length (AseReader.tags r') = 3%nat
    /\ AseReader.tags r' !! 0%nat = Some Sample.tag.
Proof.
  destruct (AseReader.readFrameTagsChunk
              (AseReader.with_tags [Sample.tag]
                 (AseReader.new Sample.tagsPayload "tags")))
    as [[[] r']|e] eqn:H; [|vm_compute in H; discriminate].
  exists r'. split; [reflexivity|].
  destruct (frame_tags_appended _ _ _ H) as (new & Htags & Hlen & _).
  assert (H2 : DataView.getUint16 Sample.tagsPayload 0 = Normal 2)
    by (vm_compute; reflexivity).
  change (DataView.getUint16 Sample.tagsPayload 0
          = Normal (Z.of_nat (length new))) in Hlen.
  rewrite H2 in Hlen. injection Hlen as Hlen.
  rewrite Htags. split.
  - rewrite length_app. simpl. lia.
  - reflexivity.
Defined.
